(** * ToaruOS x86_64: user-mode transitions (user.c) and the PC serial
      driver (serial.c)

    A shallow embedding of [kernel/arch/x86_64/user.c] and
    [kernel/arch/x86_64/serial.c].  Machine integers are [Z] with the
    wrap-around of their C type written out; kernel pointers are [Z]
    handles with [0] for [NULL]; port I/O goes through an abstract
    [Hardware] interface, and every call into another kernel subsystem
    is recorded, in program order, in a trace of [event]s. *)

From Stdlib Require Import ZArith List Lia Bool.
From stdpp Require Import base gmap list strings.
Import ListNotations.

Local Open Scope Z_scope.

(* ===================================================================== *)
(** * Part I: definitions                                                *)
(* ===================================================================== *)

(** ** C integer types *)

(** [uintptr_t], [uint64_t], [unsigned long]. *)
Definition wrap64 (x : Z) : Z := x mod 2 ^ 64.

(** [long]: the two's-complement reading of a 64-bit pattern. *)
Definition to_long (x : Z) : Z :=
  if wrap64 x <? 2 ^ 63 then wrap64 x else wrap64 x - 2 ^ 64.

(** [unsigned char], [uint8_t]. *)
Definition wrap8 (x : Z) : Z := x mod 256.

(** [char], which is signed on x86_64. *)
Definition to_char (x : Z) : Z :=
  if wrap8 x <? 128 then wrap8 x else wrap8 x - 256.

(** [unsigned short], the type of an I/O port number. *)
Definition wrap16 (x : Z) : Z := x mod 2 ^ 16.

(** ** Saved registers *)

(** Modelled from the spec: [struct regs] of [kernel/arch/x86_64/regs.h],
    the "saved registers at trap entry" structure.  The header is not
    part of the sources; the field order is the one [arch_resume_user]
    pops (r15 down to rax, two skipped words, then the [iretq] frame). *)
Record regs := mk_regs {
  r15 : Z; r14 : Z; r13 : Z; r12 : Z;
  r11 : Z; r10 : Z; r9 : Z; r8 : Z;
  rbp : Z; rdi : Z; rsi : Z; rdx : Z; rcx : Z; rbx : Z; rax : Z;
  int_no : Z; err_code : Z;
  rip : Z; cs : Z; rflags : Z; rsp : Z; ss : Z
}.

Definition set_rax (r : regs) (v : Z) : regs :=
  mk_regs (r15 r) (r14 r) (r13 r) (r12 r) (r11 r) (r10 r) (r9 r) (r8 r)
          (rbp r) (rdi r) (rsi r) (rdx r) (rcx r) (rbx r) v
          (int_no r) (err_code r) (rip r) (cs r) (rflags r) (rsp r) (ss r).

Definition set_rip (r : regs) (v : Z) : regs :=
  mk_regs (r15 r) (r14 r) (r13 r) (r12 r) (r11 r) (r10 r) (r9 r) (r8 r)
          (rbp r) (rdi r) (rsi r) (rdx r) (rcx r) (rbx r) (rax r)
          (int_no r) (err_code r) v (cs r) (rflags r) (rsp r) (ss r).

Definition set_cs (r : regs) (v : Z) : regs :=
  mk_regs (r15 r) (r14 r) (r13 r) (r12 r) (r11 r) (r10 r) (r9 r) (r8 r)
          (rbp r) (rdi r) (rsi r) (rdx r) (rcx r) (rbx r) (rax r)
          (int_no r) (err_code r) (rip r) v (rflags r) (rsp r) (ss r).

Definition set_rflags (r : regs) (v : Z) : regs :=
  mk_regs (r15 r) (r14 r) (r13 r) (r12 r) (r11 r) (r10 r) (r9 r) (r8 r)
          (rbp r) (rdi r) (rsi r) (rdx r) (rcx r) (rbx r) (rax r)
          (int_no r) (err_code r) (rip r) (cs r) v (rsp r) (ss r).

Definition set_rsp (r : regs) (v : Z) : regs :=
  mk_regs (r15 r) (r14 r) (r13 r) (r12 r) (r11 r) (r10 r) (r9 r) (r8 r)
          (rbp r) (rdi r) (rsi r) (rdx r) (rcx r) (rbx r) (rax r)
          (int_no r) (err_code r) (rip r) (cs r) (rflags r) v (ss r).

Definition set_ss (r : regs) (v : Z) : regs :=
  mk_regs (r15 r) (r14 r) (r13 r) (r12 r) (r11 r) (r10 r) (r9 r) (r8 r)
          (rbp r) (rdi r) (rsi r) (rdx r) (rcx r) (rbx r) (rax r)
          (int_no r) (err_code r) (rip r) (cs r) (rflags r) (rsp r) v.

(** ** Syscall parameter accessors (user.c, lines 207-216)

    Every accessor takes a [struct regs *].  The structure behind the
    pointer is threaded as state, so that what an accessor leaves in it
    is part of its result. *)
Definition on_regs (A : Type) : Type := regs -> A * regs.

Definition arch_syscall_return (retval : Z) : on_regs unit :=
  fun r => (tt, set_rax r (wrap64 retval)).
Definition arch_syscall_number : on_regs Z :=
  fun r => (to_long (wrap64 (rax r)), r).
Definition arch_syscall_arg0 : on_regs Z := fun r => (to_long (rbx r), r).
Definition arch_syscall_arg1 : on_regs Z := fun r => (to_long (rcx r), r).
Definition arch_syscall_arg2 : on_regs Z := fun r => (to_long (rdx r), r).
Definition arch_syscall_arg3 : on_regs Z := fun r => (to_long (rsi r), r).
Definition arch_syscall_arg4 : on_regs Z := fun r => (to_long (rdi r), r).
Definition arch_stack_pointer : on_regs Z := fun r => (to_long (rsp r), r).
Definition arch_user_ip : on_regs Z := fun r => (to_long (rip r), r).

(** ** Entering user mode (user.c, lines 29-82) *)

(** What the processor runs with once [iretq] has completed. *)
Record user_context := mk_user_context {
  u_cs : Z; u_ss : Z; u_rip : Z; u_rflags : Z; u_rsp : Z;
  u_rdi : Z; u_rsi : Z; u_rdx : Z;
  u_swapgs : bool
}.

(** [pushq]: the kernel stack is a list of 64-bit words, top first. *)
Definition pushq (v : Z) (stk : list Z) : list Z := v :: stk.

(** [swapgs; iretq]: pops rip, cs, rflags, rsp, ss, in that order. *)
Definition swapgs_iretq (rdi_ rsi_ rdx_ : Z) (stk : list Z)
  : option user_context :=
  match stk with
  | ip :: c :: fl :: sp :: s :: _ =>
      Some (mk_user_context c s ip fl sp rdi_ rsi_ rdx_ true)
  | _ => None
  end.

(** The five assignments to [struct regs ret]; [uninit] is whatever the
    stack slot of [ret] held before. *)
Definition user_frame (uninit : regs) (ip sp : Z) : regs :=
  let ret := set_cs uninit (Z.lor 0x18 0x03) in
  let ret := set_ss ret (Z.lor 0x20 0x03) in
  let ret := set_rip ret ip in
  let ret := set_rflags ret (Z.lor (Z.shiftl 1 21) (Z.shiftl 1 9)) in
  set_rsp ret sp.

(** The [asm volatile] block shared by both entry points. *)
Definition enter_frame (ret : regs) (rdi_ rsi_ rdx_ : Z) (kstack : list Z)
  : option user_context :=
  swapgs_iretq rdi_ rsi_ rdx_
    (pushq (rip ret) (pushq (cs ret) (pushq (rflags ret)
      (pushq (rsp ret) (pushq (ss ret) kstack))))).

Definition arch_enter_user_frame (uninit : regs) (entrypoint stack : Z)
  : regs := user_frame uninit entrypoint stack.

Definition arch_enter_user (uninit : regs) (kstack : list Z)
    (entrypoint argc argv envp stack : Z) : option user_context :=
  enter_frame (arch_enter_user_frame uninit entrypoint stack)
              argc argv envp kstack.

(** Byte-addressed memory. *)
Definition memory := Z -> Z.

Definition store8 (m : memory) (a v : Z) : memory :=
  fun x => if x =? a then wrap8 v else m x.

(** A little-endian 64-bit store through a [uintptr_t] pointer. *)
Definition store64 (m : memory) (a v : Z) : memory :=
  fold_left (fun m' i => store8 m' (a + i) (Z.shiftr v (8 * i)))
            [0; 1; 2; 3; 4; 5; 6; 7] m.

Definition load64 (m : memory) (a : Z) : Z :=
  fold_right (fun i acc => Z.lor (Z.shiftl (m (a + i)) (8 * i)) acc)
             0 [0; 1; 2; 3; 4; 5; 6; 7].

(** Modelled from the spec: the part of [process_t] and of the per-core
    data ([kernel/process.h], not part of the sources) that user.c
    reads.  [syscall_registers] is a pointer; [None] is [NULL]. *)
Record process_t := mk_process { syscall_registers : option regs }.

Record processor_local := mk_processor_local {
  cpu_id : Z;
  lapic_id : Z;
  current_process : process_t
}.

Definition SIGNAL_SENTINEL : Z := 0x00000008DEADBEEF.

(** [(rsp - 128 - 8) & 0xFFFFFFFFFFFFFFF0] in [uintptr_t] arithmetic. *)
Definition signal_rsp (old_rsp : Z) : Z :=
  Z.land (wrap64 (wrap64 (old_rsp - 128) - 8)) 0xFFFFFFFFFFFFFFF0.

Record signal_entry := mk_signal_entry {
  se_frame : regs;
  se_memory : memory;
  se_context : option user_context
}.

(** Dereferencing a [NULL] [syscall_registers] has no defined result.
    Only [signum] is passed (in rdi); [rsi0] and [rdx0] are what the
    other two argument registers happen to hold. *)
Definition arch_enter_signal_handler (this_core : processor_local)
    (uninit : regs) (rsi0 rdx0 : Z) (kstack : list Z) (mem : memory)
    (entrypoint signum : Z) : option signal_entry :=
  match syscall_registers (current_process this_core) with
  | None => None
  | Some sr =>
      let ret := user_frame uninit entrypoint (signal_rsp (rsp sr)) in
      let mem' := store64 mem (rsp ret) SIGNAL_SENTINEL in
      Some (mk_signal_entry ret mem'
              (enter_frame ret signum rsi0 rdx0 kstack))
  end.

(** ** The kernel as seen from the two files *)

(** The interrupt handlers that serial.c registers. *)
Inductive handler_fn := Fn_serial_handler_ac | Fn_serial_handler_bd.

(** The callbacks that serial.c stores into a pty. *)
Inductive pty_callback := Fn_serial_write_out | Fn_serial_fill_name.

(** One constructor per call that leaves the two files (port I/O
    included), with its arguments and, where it has one, its result. *)
Inductive event :=
| EvInportb (port val : Z)
| EvOutportb (port val : Z)
| EvSwitchTask (reason : Z)
| EvSleepOn (queue : Z)
| EvWakeupQueue (queue : Z)
| EvIrqAck (irq : Z)
| EvIrqInstallHandler (irq : Z) (handler : handler_fn) (name : string)
| EvTtyInputProcess (pty ch : Z)
| EvPtyNew (pty : Z)
| EvListCreate (name : string) (queue : Z)
| EvSpawnWorkerThread (name : string) (argp proc : Z)
| EvVfsMount (path : string) (node : Z)
| EvLapicSendIpi (dest val : Z)
| EvMmuAllocateAFrame (frame : Z)
| EvMmuMapFromPhysical (phys virt : Z)
| EvMemset (dst val len : Z)
| EvLidt (idt : Z).

(** The machine behind [inportb] and [outportb].  [yield_hw] is what the
    devices do while the running task is switched out, and [reset_hw]
    tells whether the machine has been reset. *)
Class Hardware (H : Type) := {
  inportb_hw : Z -> H -> Z * H;
  outportb_hw : Z -> Z -> H -> H;
  yield_hw : H -> H;
  reset_hw : H -> bool
}.

(** The file-scope variables of serial.c.  [pty_for_port] returns the
    address of one of them, so they live in a store indexed by name. *)
Inductive gvar :=
| G_serial_port_pty_a | G_serial_port_pty_b
| G_serial_port_pty_c | G_serial_port_pty_d
| G_sem_serial_ac | G_sem_serial_bd
| G_serial_ac_handler | G_serial_bd_handler
| G_have_installed_ac | G_have_installed_bd.

#[global] Instance gvar_eq_dec : EqDecision gvar.
Proof. solve_decision. Defined.

(** Modelled from the spec: the part of [pty_t] and [fs_node_t]
    ([kernel/pty.h], [kernel/vfs.h], not part of the sources) that
    serial.c writes: the two callback slots of the endpoint and the
    group and permission mask of its slave node. *)
Record pty_t := mk_pty {
  write_out : option pty_callback;
  fill_name : option pty_callback;
  slave : Z
}.

Record fs_node_t := mk_fs_node { gid : Z; mask : Z }.

Section Kernel.
Context {H : Type} `{Hardware H}.

Record world := mk_world {
  hw : H;                        (* the devices *)
  trace : list event;            (* calls made so far, oldest first *)
  globals : gvar -> Z;           (* serial.c's static variables *)
  ptys : gmap Z pty_t;           (* pty objects, by address *)
  nodes : gmap Z fs_node_t;      (* fs nodes, by address *)
  queues : gmap Z (list Z);      (* wait queue -> sleeping processes *)
  runnable : list Z;             (* processes marked runnable *)
  current : Z;                   (* the running process *)
  next_ptr : Z                   (* next address the allocators hand out *)
}.

Definition with_hw (w : world) (h : H) : world :=
  mk_world h (trace w) (globals w) (ptys w) (nodes w) (queues w)
           (runnable w) (current w) (next_ptr w).
Definition with_trace (w : world) (t : list event) : world :=
  mk_world (hw w) t (globals w) (ptys w) (nodes w) (queues w)
           (runnable w) (current w) (next_ptr w).
Definition with_globals (w : world) (g : gvar -> Z) : world :=
  mk_world (hw w) (trace w) g (ptys w) (nodes w) (queues w)
           (runnable w) (current w) (next_ptr w).
Definition with_ptys (w : world) (p : gmap Z pty_t) : world :=
  mk_world (hw w) (trace w) (globals w) p (nodes w) (queues w)
           (runnable w) (current w) (next_ptr w).
Definition with_nodes (w : world) (n : gmap Z fs_node_t) : world :=
  mk_world (hw w) (trace w) (globals w) (ptys w) n (queues w)
           (runnable w) (current w) (next_ptr w).
Definition with_queues (w : world) (q : gmap Z (list Z)) : world :=
  mk_world (hw w) (trace w) (globals w) (ptys w) (nodes w) q
           (runnable w) (current w) (next_ptr w).
Definition with_runnable (w : world) (r : list Z) : world :=
  mk_world (hw w) (trace w) (globals w) (ptys w) (nodes w) (queues w)
           r (current w) (next_ptr w).
Definition with_current (w : world) (c : Z) : world :=
  mk_world (hw w) (trace w) (globals w) (ptys w) (nodes w) (queues w)
           (runnable w) c (next_ptr w).
Definition with_next_ptr (w : world) (n : Z) : world :=
  mk_world (hw w) (trace w) (globals w) (ptys w) (nodes w) (queues w)
           (runnable w) (current w) n.

Definition emit (e : event) (w : world) : world :=
  with_trace w (trace w ++ [e]).

(** How a piece of kernel code can end. *)
Inductive outcome (A : Type) :=
| Ret (a : A) (w : world)      (* it returned [a] *)
| Spin (w : world)             (* still looping when the fuel ran out *)
| Undefined (w : world)        (* [__builtin_unreachable()] or a wild read *)
| Reset (w : world).           (* the machine was reset under it *)
Arguments Ret {A} a w.
Arguments Spin {A} w.
Arguments Undefined {A} w.
Arguments Reset {A} w.

Definition final {A} (o : outcome A) : world :=
  match o with Ret _ w | Spin w | Undefined w | Reset w => w end.

Definition returned {A} (o : outcome A) : bool :=
  match o with Ret _ _ => true | _ => false end.

Definition M (A : Type) : Type := world -> outcome A.

Definition ret {A} (a : A) : M A := fun w => Ret a w.

Definition bind {A B} (m : M A) (k : A -> M B) : M B :=
  fun w =>
    match m w with
    | Ret a w' => k a w'
    | Spin w' => Spin w'
    | Undefined w' => Undefined w'
    | Reset w' => Reset w'
    end.

Definition get_global (g : gvar) : M Z := fun w => Ret (globals w g) w.

Definition set_global (g : gvar) (v : Z) : M unit :=
  fun w =>
    Ret tt (with_globals w
              (fun g' => if decide (g' = g) then v else globals w g')).

Definition call (e : event) : M unit := fun w => Ret tt (emit e w).

Definition undefined {A} : M A := fun w => Undefined w.

Definition spin {A} : M A := fun w => Spin w.

End Kernel.

Arguments world H : clear implicits.
Arguments outcome H A : clear implicits.
Arguments M H A : clear implicits.
Arguments Ret {H A} a w.
Arguments Spin {H A} w.
Arguments Undefined {H A} w.
Arguments Reset {H A} w.

Declare Scope kernel_scope.
Delimit Scope kernel_scope with kernel.
Notation "x <- m ;; k" := (bind m (fun x => k))
  (at level 100, m at next level, right associativity) : kernel_scope.
Notation "m ;; k" := (bind m (fun _ => k))
  (at level 100, right associativity) : kernel_scope.

Local Open Scope kernel_scope.

Section Externals.
Context {H : Type} `{Hardware H}.

(** ** The collaborators of the two files *)

(** Modelled from the spec: [inportb] and [outportb] of
    [kernel/arch/x86_64/ports.h] (not part of the sources): one byte
    read from, or written to, a 16-bit I/O port. *)
Definition inportb (port : Z) : M H Z :=
  fun w =>
    let r := inportb_hw (wrap16 port) (hw w) in
    let v := wrap8 (fst r) in
    Ret v (emit (EvInportb (wrap16 port) v) (with_hw w (snd r))).

Definition outportb (port val : Z) : M H unit :=
  fun w =>
    Ret tt (emit (EvOutportb (wrap16 port) (wrap8 val))
              (with_hw w (outportb_hw (wrap16 port) (wrap8 val) (hw w)))).

(** Modelled from the spec: the scheduler's voluntary yield; the devices
    move on while the task is switched out. *)
Definition switch_task (reason : Z) : M H unit :=
  fun w => Ret tt (emit (EvSwitchTask reason) (with_hw w (yield_hw (hw w)))).

Definition waiters (w : world H) (queue : Z) : list Z :=
  default [] (queues w !! queue).

(** Modelled from the spec: [sleep_on] enqueues the current waiter on
    the wait queue and suspends it. *)
Definition sleep_on (queue : Z) : M H unit :=
  fun w =>
    Ret tt (emit (EvSleepOn queue)
      (with_runnable
         (with_queues w
            (<[queue := waiters w queue ++ [current w]]> (queues w)))
         (filter (fun p => p <> current w) (runnable w)))).

(** Modelled from the spec: [wakeup_queue] dequeues every waiter of the
    wait queue and marks it runnable. *)
Definition wakeup_queue (queue : Z) : M H unit :=
  fun w =>
    Ret tt (emit (EvWakeupQueue queue)
      (with_runnable
         (with_queues w (<[queue := []]> (queues w)))
         (runnable w ++ waiters w queue))).

(** Modelled from the spec: the interrupt controller interface,
    [irq_ack(line)] and [irq_install_handler(line, handler, name)]. *)
Definition irq_ack (irq : Z) : M H unit := call (EvIrqAck irq).

Definition irq_install_handler (irq : Z) (f : handler_fn) (name : string)
  : M H unit := call (EvIrqInstallHandler irq f name).

(** Modelled from the spec: [feed_input(endpoint, byte)], the line
    discipline's input side; its byte parameter is a [uint8_t]. *)
Definition tty_input_process (pty ch : Z) : M H unit :=
  call (EvTtyInputProcess pty (wrap8 ch)).

(** The allocators hand out consecutive, never [NULL], addresses. *)
Definition fresh : M H Z :=
  fun w => Ret (next_ptr w) (with_next_ptr w (next_ptr w + 1)).

(** Modelled from the spec: [pty_new] creates a line-discipline endpoint
    with empty callback slots and its own slave node. *)
Definition pty_new (size flags : Z) : M H Z :=
  pty <- fresh;;
  node <- fresh;;
  (fun w =>
     Ret tt (with_nodes
               (with_ptys w (<[pty := mk_pty None None node]> (ptys w)))
               (<[node := mk_fs_node 0 0]> (nodes w))));;
  call (EvPtyNew pty);;
  ret pty.

(** Stores through a [pty_t *]; a pointer to no pty is a wild write. *)
Definition store_pty (pty : Z) (f : pty_t -> pty_t) : M H unit :=
  fun w =>
    match ptys w !! pty with
    | Some p => Ret tt (with_ptys w (<[pty := f p]> (ptys w)))
    | None => Undefined w
    end.

Definition load_pty_slave (pty : Z) : M H Z :=
  fun w =>
    match ptys w !! pty with
    | Some p => Ret (slave p) w
    | None => Undefined w
    end.

Definition store_node (node : Z) (f : fs_node_t -> fs_node_t) : M H unit :=
  fun w =>
    match nodes w !! node with
    | Some n => Ret tt (with_nodes w (<[node := f n]> (nodes w)))
    | None => Undefined w
    end.

(** Modelled from the spec: [list_create] makes an empty wait queue. *)
Definition list_create (name : string) : M H Z :=
  q <- fresh;;
  (fun w => Ret tt (with_queues w (<[q := []]> (queues w))));;
  call (EvListCreate name q);;
  ret q.

(** Modelled from the spec: [spawn_worker_thread(entry, name, arg)]
    creates a runnable Worker bound to its argument. *)
Definition spawn_worker_thread (name : string) (argp : Z) : M H Z :=
  p <- fresh;;
  (fun w => Ret tt (with_runnable w (runnable w ++ [p])));;
  call (EvSpawnWorkerThread name argp p);;
  ret p.

Definition vfs_mount (path : string) (node : Z) : M H unit :=
  call (EvVfsMount path node).

Definition lapic_send_ipi (dest val : Z) : M H unit :=
  call (EvLapicSendIpi dest val).

Definition mmu_allocate_a_frame : M H Z :=
  frame <- fresh;; call (EvMmuAllocateAFrame frame);; ret frame.

Definition mmu_map_from_physical (phys : Z) : M H Z :=
  virt <- fresh;; call (EvMmuMapFromPhysical phys virt);; ret virt.

Definition memset (dst val len : Z) : M H unit := call (EvMemset dst val len).

Definition lidt (idt : Z) : M H unit := call (EvLidt idt).

End Externals.

(** ** serial.c *)

Definition SERIAL_PORT_A : Z := 0x3F8.
Definition SERIAL_PORT_B : Z := 0x2F8.
Definition SERIAL_PORT_C : Z := 0x3E8.
Definition SERIAL_PORT_D : Z := 0x2E8.

Definition SERIAL_IRQ_AC : Z := 4.
Definition SERIAL_IRQ_BD : Z := 3.

Definition DEV_PATH : string := "/dev/".
Definition TTY_A : string := "ttyS0".
Definition TTY_B : string := "ttyS1".
Definition TTY_C : string := "ttyS2".
Definition TTY_D : string := "ttyS3".

(** The [switch] of [pty_for_port]: the case a port selects, if any. *)
Definition pty_for_port_case (port : Z) : option gvar :=
  if port =? SERIAL_PORT_A then Some G_serial_port_pty_a
  else if port =? SERIAL_PORT_B then Some G_serial_port_pty_b
  else if port =? SERIAL_PORT_C then Some G_serial_port_pty_c
  else if port =? SERIAL_PORT_D then Some G_serial_port_pty_d
  else None.

Section Serial.
Context {H : Type} `{Hardware H}.

(** Returns the address of the matching static; falling out of the
    [switch] runs into [__builtin_unreachable()]. *)
Definition pty_for_port (port : Z) : M H gvar :=
  match pty_for_port_case port with
  | Some g => ret g
  | None => undefined
  end.

Definition serial_rcvd (device : Z) : M H Z :=
  v <- inportb (device + 5);; ret (Z.land v 1).

(** [while (serial_rcvd(device) == 0) switch_task(1);] then the read.
    One unit of fuel pays for one poll. *)
Fixpoint serial_recv (fuel : nat) (device : Z) : M H Z :=
  match fuel with
  | O => spin
  | S fuel' =>
      r <- serial_rcvd device;;
      if r =? 0 then switch_task 1;; serial_recv fuel' device
      else v <- inportb device;; ret (to_char v)
  end.

Definition serial_transmit_empty (device : Z) : M H Z :=
  v <- inportb (device + 5);; ret (Z.land v 0x20).

Fixpoint serial_send (fuel : nat) (device out : Z) : M H unit :=
  match fuel with
  | O => spin
  | S fuel' =>
      e <- serial_transmit_empty device;;
      if e =? 0 then switch_task 1;; serial_send fuel' device out
      else outportb device out
  end.

(** The [do ... while (next)] of [process_serial], for the chosen
    [port].  One unit of fuel pays for one character. *)
Fixpoint process_serial_drain (fuel : nat) (port : Z) : M H unit :=
  match fuel with
  | O => spin
  | S fuel' =>
      ch <- serial_recv fuel port;;
      g <- pty_for_port port;;
      pty <- get_global g;;
      tty_input_process pty ch;;
      next <- serial_rcvd port;;
      if next =? 0 then ret tt
      else switch_task 1;; process_serial_drain fuel' port
  end.

(** The first line of [process_serial]. *)
Definition process_serial_portBase (argp : Z) : M H Z :=
  ac <- get_global G_sem_serial_ac;;
  ret (if argp =? ac then SERIAL_PORT_A else SERIAL_PORT_B).

(** One pass through the body of [while (1)], from the return of
    [sleep_on] to the end of the [do ... while]. *)
Definition process_serial_wake (fuel : nat) (portBase : Z) : M H unit :=
  v <- inportb (portBase + 1);;
  let port :=
    if Z.land v 0x01 =? 0 then portBase - 0x100 else portBase in
  process_serial_drain fuel port.

(** [process_serial] blocks inside [sleep_on], so it is cut there: the
    entry runs up to the first [sleep_on] and leaves the Worker
    suspended; every wakeup resumes it for one pass, which ends in the
    next [sleep_on]. *)
Definition process_serial_entry (argp : Z) : M H Z :=
  portBase <- process_serial_portBase argp;;
  sleep_on argp;;
  ret portBase.

Definition process_serial_resume (fuel : nat) (portBase argp : Z)
  : M H unit :=
  process_serial_wake fuel portBase;;
  sleep_on argp.

Definition serial_handler_ac : M H Z :=
  irq_ack SERIAL_IRQ_AC;;
  q <- get_global G_sem_serial_ac;;
  wakeup_queue q;;
  ret 1.

Definition serial_handler_bd : M H Z :=
  irq_ack SERIAL_IRQ_BD;;
  q <- get_global G_sem_serial_bd;;
  wakeup_queue q;;
  ret 1.

Definition serial_enable (port : Z) : M H unit :=
  outportb (port + 1) 0x00;;  (* Disable interrupts *)
  outportb (port + 3) 0x80;;  (* Enable divisor mode *)
  outportb (port + 0) 0x01;;  (* Div Low:  01 Set the port to 115200 bps *)
  outportb (port + 1) 0x00;;  (* Div High: 00 *)
  outportb (port + 3) 0x03;;  (* Disable divisor mode, set parity *)
  outportb (port + 2) 0xC7;;  (* Enable FIFO and clear *)
  outportb (port + 4) 0x0B;;  (* Enable interrupts *)
  outportb (port + 1) 0x01.   (* Enable interrupts *)

Definition when (b : bool) (m : M H unit) : M H unit :=
  if b then m else ret tt.

Definition serial_write_out (fuel : nat) (pty c : Z) : M H unit :=
  a <- get_global G_serial_port_pty_a;;
  when (pty =? a) (serial_send fuel SERIAL_PORT_A c);;
  b <- get_global G_serial_port_pty_b;;
  when (pty =? b) (serial_send fuel SERIAL_PORT_B c);;
  c' <- get_global G_serial_port_pty_c;;
  when (pty =? c') (serial_send fuel SERIAL_PORT_C c);;
  d <- get_global G_serial_port_pty_d;;
  when (pty =? d) (serial_send fuel SERIAL_PORT_D c).

(** [name] is the caller's buffer; the result is what it holds after. *)
Definition serial_fill_name (pty : Z) (name : string) : M H string :=
  a <- get_global G_serial_port_pty_a;;
  let name := if pty =? a then DEV_PATH +:+ TTY_A else name in
  b <- get_global G_serial_port_pty_b;;
  let name := if pty =? b then DEV_PATH +:+ TTY_B else name in
  c <- get_global G_serial_port_pty_c;;
  let name := if pty =? c then DEV_PATH +:+ TTY_C else name in
  d <- get_global G_serial_port_pty_d;;
  let name := if pty =? d then DEV_PATH +:+ TTY_D else name in
  ret name.

Definition serial_device_create (port : Z) : M H Z :=
  pty <- pty_new 0 0;;
  g <- pty_for_port port;;
  set_global g pty;;
  store_pty pty (fun p => mk_pty (Some Fn_serial_write_out)
                                 (fill_name p) (slave p));;
  store_pty pty (fun p => mk_pty (write_out p)
                                 (Some Fn_serial_fill_name) (slave p));;
  serial_enable port;;
  (if (port =? SERIAL_PORT_A) || (port =? SERIAL_PORT_C) then
     installed <- get_global G_have_installed_ac;;
     when (installed =? 0)
       (irq_install_handler SERIAL_IRQ_AC Fn_serial_handler_ac "serial ac";;
        set_global G_have_installed_ac 1)
   else
     installed <- get_global G_have_installed_bd;;
     when (installed =? 0)
       (irq_install_handler SERIAL_IRQ_BD Fn_serial_handler_bd "serial bd";;
        set_global G_have_installed_bd 1));;
  node <- load_pty_slave pty;;
  store_node node (fun n => mk_fs_node 2 (mask n));;     (* dialout group *)
  store_node node (fun n => mk_fs_node (gid n) 432);;    (* 0660 *)
  ret node.

Definition serial_initialize : M H unit :=
  ac <- list_create "serial ac semaphore";;
  set_global G_sem_serial_ac ac;;
  bd <- list_create "serial bd semaphore";;
  set_global G_sem_serial_bd bd;;
  ac <- get_global G_sem_serial_ac;;
  pa <- spawn_worker_thread "[serial ac]" ac;;
  set_global G_serial_ac_handler pa;;
  bd <- get_global G_sem_serial_bd;;
  pb <- spawn_worker_thread "[serial bd]" bd;;
  set_global G_serial_bd_handler pb;;
  ttyS0 <- serial_device_create SERIAL_PORT_A;;
  vfs_mount (DEV_PATH +:+ TTY_A) ttyS0;;
  ttyS1 <- serial_device_create SERIAL_PORT_B;;
  vfs_mount (DEV_PATH +:+ TTY_B) ttyS1;;
  ttyS2 <- serial_device_create SERIAL_PORT_C;;
  vfs_mount (DEV_PATH +:+ TTY_C) ttyS2;;
  ttyS3 <- serial_device_create SERIAL_PORT_D;;
  vfs_mount (DEV_PATH +:+ TTY_D) ttyS3.

(** ** user.c: fatal halt and reboot *)

Section Processors.
Variable processor_count : Z.
Variable processor_local_data : list processor_local.
Variable this_core : processor_local.

(** The [for] loop of [arch_fatal_prepare], with [n] iterations to go
    from index [i]; reading past the end of [processor_local_data] has
    no defined result. *)
Fixpoint arch_fatal_prepare_from (n : nat) (i : Z) : M H unit :=
  match n with
  | O => ret tt
  | S n' =>
      if i =? cpu_id this_core then arch_fatal_prepare_from n' (i + 1)
      else
        match processor_local_data !! Z.to_nat i with
        | Some core =>
            lapic_send_ipi (lapic_id core) 0x447D;;
            arch_fatal_prepare_from n' (i + 1)
        | None => undefined
        end
  end.

Definition arch_fatal_prepare : M H unit :=
  arch_fatal_prepare_from (Z.to_nat processor_count) 0.

(** [cli; hlt] for ever: no amount of fuel makes it return. *)
Definition arch_fatal : M H unit :=
  arch_fatal_prepare;; spin.

End Processors.

(** [while ((out & 0x02) != 0) out = inportb(0x64);] *)
Fixpoint arch_reboot_wait (fuel : nat) (out : Z) : M H unit :=
  if Z.land out 0x02 =? 0 then ret tt
  else
    match fuel with
    | O => spin
    | S fuel' => v <- inportb 0x64;; arch_reboot_wait fuel' v
    end.

(** Where the keyboard controller honours the reset command the
    processor restarts and the [return] is never reached. *)
Definition reset_line : M H unit :=
  fun w => if reset_hw (hw w) then Reset w else Ret tt w.

Definition arch_reboot (fuel : nat) : M H Z :=
  frame <- mmu_allocate_a_frame;;
  idt <- mmu_map_from_physical (wrap64 (Z.shiftl frame 12));;
  memset idt 0 0x1000;;
  lidt idt;;
  arch_reboot_wait fuel 0x02;;
  outportb 0x64 0xFE;;  (* Reset *)
  reset_line;;
  ret 0.

End Serial.

(** ** Reading traces *)

Definition count_if (P : event -> bool) (t : list event) : nat :=
  length (List.filter P t).

Definition is_tty_input (e : event) : bool :=
  match e with EvTtyInputProcess _ _ => true | _ => false end.


Definition is_install (irq : Z) (e : event) : bool :=
  match e with EvIrqInstallHandler i _ _ => i =? irq | _ => false end.

Definition is_ipi_to (dest : Z) (e : event) : bool :=
  match e with EvLapicSendIpi d _ => d =? dest | _ => false end.

Definition is_port_io (e : event) : bool :=
  match e with EvInportb _ _ | EvOutportb _ _ => true | _ => false end.

Definition is_blocking (e : event) : bool :=
  match e with EvSwitchTask _ | EvSleepOn _ => true | _ => false end.

Definition is_allocation (e : event) : bool :=
  match e with
  | EvPtyNew _ | EvListCreate _ _ | EvSpawnWorkerThread _ _ _
  | EvMmuAllocateAFrame _ | EvMmuMapFromPhysical _ _ => true
  | _ => false
  end.

(** What one pass of the Worker over a single [port], whose endpoint is
    [pty] (none for a port without a [case]), may do. *)
Definition drain_event (port : Z) (pty : option Z) (e : event) : bool :=
  match e with
  | EvInportb p _ => (p =? wrap16 port) || (p =? wrap16 (port + 5))
  | EvTtyInputProcess q _ =>
      match pty with Some q' => q =? q' | None => false end
  | EvSwitchTask r => r =? 1
  | _ => false
  end.

Definition serial_ports : list Z :=
  [SERIAL_PORT_A; SERIAL_PORT_B; SERIAL_PORT_C; SERIAL_PORT_D].

Definition known_port (port : Z) : bool :=
  existsb (Z.eqb port) serial_ports.

Definition on_line_ac (port : Z) : bool :=
  (port =? SERIAL_PORT_A) || (port =? SERIAL_PORT_C).

Definition on_line_bd (port : Z) : bool :=
  (port =? SERIAL_PORT_B) || (port =? SERIAL_PORT_D).

(** ** Driving the kernel *)

Section Drivers.
Context {H : Type} `{Hardware H}.

(** The kernel before [serial_initialize]: statics zeroed, nothing
    allocated, nothing called. *)
Definition boot_world (h : H) : world H :=
  mk_world h [] (fun _ => 0) ∅ ∅ ∅ [] 0 1.

(** The endpoint bound to [port] in [w]. *)
Definition endpoint (w : world H) (port : Z) : option Z :=
  match pty_for_port_case port with
  | Some g => Some (globals w g)
  | None => None
  end.

(** A sequence of device bring-up calls, in the given order. *)
Fixpoint bring_up (ports : list Z) : M H unit :=
  match ports with
  | [] => ret tt
  | port :: rest => serial_device_create port;; bring_up rest
  end.

(** The scheduler dispatches process [p] to run [m]. *)
Definition run_as {A} (p : Z) (m : M H A) : M H A :=
  fun w => m (with_current w p).

(** Something happens in the devices, outside the kernel. *)
Definition device_event (f : H -> H) : M H unit :=
  fun w => Ret tt (with_hw w (f (hw w))).

(** Both Workers run up to their first [sleep_on]. *)
Definition start_workers : M H (Z * Z) :=
  pa <- get_global G_serial_ac_handler;;
  qa <- get_global G_sem_serial_ac;;
  base_ac <- run_as pa (process_serial_entry qa);;
  pb <- get_global G_serial_bd_handler;;
  qb <- get_global G_sem_serial_bd;;
  base_bd <- run_as pb (process_serial_entry qb);;
  ret (base_ac, base_bd).

(** IRQ 4 fires once: the handler runs, then the Worker it woke. *)
Definition fire_irq_ac (fuel : nat) (base_ac : Z) : M H unit :=
  serial_handler_ac;;
  pa <- get_global G_serial_ac_handler;;
  qa <- get_global G_sem_serial_ac;;
  run_as pa (process_serial_resume fuel base_ac qa).

(** IRQ 3 fires once. *)
Definition fire_irq_bd (fuel : nat) (base_bd : Z) : M H unit :=
  serial_handler_bd;;
  pb <- get_global G_serial_bd_handler;;
  qb <- get_global G_sem_serial_bd;;
  run_as pb (process_serial_resume fuel base_bd qb).

(** A process is Suspended on [queue] when it waits there. *)
Definition suspended_on (w : world H) (p queue : Z) : bool :=
  existsb (Z.eqb p) (waiters w queue).

(** The status port of the keyboard controller reports "input buffer
    empty" within [n] reads. *)
Fixpoint kbd_ready_within (n : nat) (out : Z) (h : H) : bool :=
  if Z.land out 0x02 =? 0 then true
  else
    match n with
    | O => false
    | S n' =>
        let r := inportb_hw (wrap16 0x64) h in
        kbd_ready_within n' (wrap8 (fst r)) (snd r)
    end.

(** The devices as [arch_reboot_wait] leaves them after its reads. *)
Fixpoint kbd_after_wait (n : nat) (out : Z) (h : H) : H :=
  if Z.land out 0x02 =? 0 then h
  else
    match n with
    | O => h
    | S n' =>
        let r := inportb_hw (wrap16 0x64) h in
        kbd_after_wait n' (wrap8 (fst r)) (snd r)
    end.

End Drivers.

(** ** A test bench: a PC with four 16550 UARTs and a keyboard controller

    Used for the concrete runs only; the general results below hold for
    every [Hardware]. *)

Record uart := mk_uart {
  rx : list Z;       (* receive FIFO, oldest byte first *)
  tx : list Z;       (* bytes sent so far *)
  ier : Z;           (* interrupt enable register *)
  lcr : Z;           (* line control; bit 7 is DLAB *)
  dll : Z; dlm : Z;  (* divisor latch *)
  fcr : Z;           (* FIFO control *)
  mcr : Z            (* modem control *)
}.

Definition idle_uart : uart := mk_uart [] [] 0 0 0 0 0 0.

Record pc := mk_pc {
  com1 : uart; com2 : uart; com3 : uart; com4 : uart;
  kbd_status : Z;          (* what port 0x64 reads *)
  kbd_honours_reset : bool;
  was_reset : bool
}.

Inductive com := COM1 | COM2 | COM3 | COM4.

Definition com_base (c : com) : Z :=
  match c with
  | COM1 => SERIAL_PORT_A | COM2 => SERIAL_PORT_B
  | COM3 => SERIAL_PORT_C | COM4 => SERIAL_PORT_D
  end.

Definition get_com (c : com) (m : pc) : uart :=
  match c with
  | COM1 => com1 m | COM2 => com2 m | COM3 => com3 m | COM4 => com4 m
  end.

Definition set_com (c : com) (u : uart) (m : pc) : pc :=
  match c with
  | COM1 => mk_pc u (com2 m) (com3 m) (com4 m)
                  (kbd_status m) (kbd_honours_reset m) (was_reset m)
  | COM2 => mk_pc (com1 m) u (com3 m) (com4 m)
                  (kbd_status m) (kbd_honours_reset m) (was_reset m)
  | COM3 => mk_pc (com1 m) (com2 m) u (com4 m)
                  (kbd_status m) (kbd_honours_reset m) (was_reset m)
  | COM4 => mk_pc (com1 m) (com2 m) (com3 m) u
                  (kbd_status m) (kbd_honours_reset m) (was_reset m)
  end.

(** Which UART, and which of its eight registers, a port addresses. *)
Definition decode_port (port : Z) : option (com * Z) :=
  let hit c := (com_base c <=? port) && (port <? com_base c + 8) in
  if hit COM1 then Some (COM1, port - com_base COM1)
  else if hit COM2 then Some (COM2, port - com_base COM2)
  else if hit COM3 then Some (COM3, port - com_base COM3)
  else if hit COM4 then Some (COM4, port - com_base COM4)
  else None.

Definition dlab (u : uart) : bool := negb (Z.land (lcr u) 0x80 =? 0).

Definition uart_read (off : Z) (u : uart) : Z * uart :=
  if off =? 0 then
    if dlab u then (dll u, u)
    else (hd 0 (rx u),
          mk_uart (tl (rx u)) (tx u) (ier u) (lcr u) (dll u) (dlm u)
                  (fcr u) (mcr u))
  else if off =? 1 then (if dlab u then dlm u else ier u, u)
  else if off =? 2 then
    (Z.lor 0xC0 (match rx u with
                 | [] => 0x01
                 | _ => if Z.land (ier u) 1 =? 0 then 0x01 else 0x04
                 end), u)
  else if off =? 3 then (lcr u, u)
  else if off =? 4 then (mcr u, u)
  else if off =? 5 then
    (Z.lor 0x60 (match rx u with [] => 0 | _ => 1 end), u)
  else (0, u).

Definition uart_write (off v : Z) (u : uart) : uart :=
  if off =? 0 then
    if dlab u
    then mk_uart (rx u) (tx u) (ier u) (lcr u) v (dlm u) (fcr u) (mcr u)
    else mk_uart (rx u) (tx u ++ [v]) (ier u) (lcr u) (dll u) (dlm u)
                 (fcr u) (mcr u)
  else if off =? 1 then
    if dlab u
    then mk_uart (rx u) (tx u) (ier u) (lcr u) (dll u) v (fcr u) (mcr u)
    else mk_uart (rx u) (tx u) v (lcr u) (dll u) (dlm u) (fcr u) (mcr u)
  else if off =? 2 then
    mk_uart (if Z.land v 0x02 =? 0 then rx u else [])
            (tx u) (ier u) (lcr u) (dll u) (dlm u) v (mcr u)
  else if off =? 3 then
    mk_uart (rx u) (tx u) (ier u) v (dll u) (dlm u) (fcr u) (mcr u)
  else if off =? 4 then
    mk_uart (rx u) (tx u) (ier u) (lcr u) (dll u) (dlm u) (fcr u) v
  else u.

(** Ports nothing answers on read as 0xFF. *)
Definition pc_in (port : Z) (m : pc) : Z * pc :=
  match decode_port port with
  | Some (c, off) =>
      let r := uart_read off (get_com c m) in (fst r, set_com c (snd r) m)
  | None => if port =? 0x64 then (kbd_status m, m) else (0xFF, m)
  end.

Definition pc_out (port v : Z) (m : pc) : pc :=
  match decode_port port with
  | Some (c, off) => set_com c (uart_write off v (get_com c m)) m
  | None =>
      if (port =? 0x64) && (v =? 0xFE) && kbd_honours_reset m
      then mk_pc (com1 m) (com2 m) (com3 m) (com4 m)
                 (kbd_status m) (kbd_honours_reset m) true
      else m
  end.

#[global] Instance pc_hardware : Hardware pc := {
  inportb_hw := pc_in;
  outportb_hw := pc_out;
  yield_hw := fun m => m;
  reset_hw := was_reset
}.

(** A byte arrives on the wire of a UART. *)
Definition receive (c : com) (byte : Z) (m : pc) : pc :=
  let u := get_com c m in
  set_com c (mk_uart (rx u ++ [byte]) (tx u) (ier u) (lcr u) (dll u)
                     (dlm u) (fcr u) (mcr u)) m.

(** Something other than serial.c rewrites a UART's interrupt enable
    register. *)
Definition poke_ier (c : com) (v : Z) (m : pc) : pc :=
  let u := get_com c m in
  set_com c (mk_uart (rx u) (tx u) v (lcr u) (dll u) (dlm u)
                     (fcr u) (mcr u)) m.

(** A quiet machine whose keyboard controller reads [status] and
    honours the reset command or not. *)
Definition quiet_pc (status : Z) (honours : bool) : pc :=
  mk_pc idle_uart idle_uart idle_uart idle_uart status honours false.

(** [serial_initialize], then both Workers reach their [sleep_on]. *)
Definition bench_boot : M pc (Z * Z) :=
  serial_initialize;; start_workers.

(** All four ports up, one byte on the second port of the first pair
    (0x3E8, IRQ 4), one interrupt. *)
Definition bench_one_byte_on_c (byte : Z) (fuel : nat) : M pc unit :=
  bases <- bench_boot;;
  device_event (receive COM3 byte);;
  fire_irq_ac fuel (fst bases).

(** All four ports up, data pending on both ports of IRQ 4, one
    interrupt. *)
Definition bench_both_pending (a c : Z) (fuel : nat) : M pc unit :=
  bases <- bench_boot;;
  device_event (receive COM1 a);;
  device_event (receive COM3 c);;
  fire_irq_ac fuel (fst bases).

(** All four ports up, the interrupt enable register of 0x2F8 cleared
    from outside, one byte on 0x2E8, one interrupt on IRQ 3. *)
Definition bench_bd_ier_clear (byte : Z) (fuel : nat) : M pc unit :=
  bases <- bench_boot;;
  device_event (poke_ier COM2 0);;
  device_event (receive COM4 byte);;
  fire_irq_bd fuel (snd bases).

(** All four ports up, one byte on the first port of the first pair
    (0x3F8, IRQ 4), one interrupt. *)
Definition bench_one_byte_on_a (byte : Z) (fuel : nat) : M pc unit :=
  bases <- bench_boot;;
  device_event (receive COM1 byte);;
  fire_irq_ac fuel (fst bases).

(** All four ports up, the line discipline writes one byte out through
    the endpoint of the port at 0x3E8. *)
Definition bench_write_to_c (byte : Z) (fuel : nat) : M pc unit :=
  bench_boot;;
  pty <- get_global G_serial_port_pty_c;;
  serial_write_out fuel pty byte.

(** The devices of the test bench once [bench_boot] has run on a quiet
    machine. *)
Definition booted_pc : pc :=
  Eval vm_compute in hw (final (bench_boot (boot_world (quiet_pc 0 false)))).

(** ** Vocabulary of the statements *)

(** A read accessor hands back one field, as a [long] with the same
    64-bit pattern, and leaves the structure as it found it. *)
Definition reads_field (acc : on_regs Z) (field : regs -> Z) (r : regs)
  : Prop :=
  snd (acc r) = r /\
  fst (acc r) = to_long (field r) /\
  wrap64 (fst (acc r)) = wrap64 (field r).

(** Two register files that agree everywhere except, possibly, in rax. *)
Definition same_but_rax (r r' : regs) : Prop :=
  r15 r' = r15 r /\ r14 r' = r14 r /\ r13 r' = r13 r /\ r12 r' = r12 r /\
  r11 r' = r11 r /\ r10 r' = r10 r /\ r9 r' = r9 r /\ r8 r' = r8 r /\
  rbp r' = rbp r /\ rdi r' = rdi r /\ rsi r' = rsi r /\ rdx r' = rdx r /\
  rcx r' = rcx r /\ rbx r' = rbx r /\
  int_no r' = int_no r /\ err_code r' = err_code r /\
  rip r' = rip r /\ cs r' = cs r /\ rflags r' = rflags r /\
  rsp r' = rsp r /\ ss r' = ss r.

(** The requested privilege level of a segment selector. *)
Definition rpl (selector : Z) : Z := Z.land selector 3.

Definition zero_regs : regs :=
  mk_regs 0 0 0 0 0 0 0 0 0 0 0 0 0 0 0 0 0 0 0 0 0 0.

(** A core whose current thread trapped with stack pointer [sp]. *)
Definition core_trapped_at (id sp : Z) : processor_local :=
  mk_processor_local id id (mk_process (Some (set_rsp zero_regs sp))).

(** A core with nothing recorded for its current thread. *)
Definition core_numbered (id apic : Z) : processor_local :=
  mk_processor_local id apic (mk_process None).

(** The kernel's return convention: 0 reports success, a negative
    [errno] a failure. *)
Definition reports_failure (retval : Z) : bool := retval <? 0.

(** The indices the loop of [arch_fatal_prepare] visits: [n] of them,
    from [i] up. *)
Fixpoint cores_from (n : nat) (i : Z) : list Z :=
  match n with
  | O => []
  | S n' => i :: cores_from n' (i + 1)
  end.

(** The cores other than [c] among the first [count]. *)
Definition other_cores (count c : Z) : list Z :=
  List.filter (fun i => negb (i =? c)) (cores_from (Z.to_nat count) 0).

(** [processor_local_data[i].lapic_id]. *)
Definition lapic_of (data : list processor_local) (i : Z) : Z :=
  match data !! Z.to_nat i with
  | Some core => lapic_id core
  | None => 0
  end.

Definition HALT_IPI : Z := 0x447D.

Definition halt_ipi (data : list processor_local) (i : Z) : event :=
  EvLapicSendIpi (lapic_of data i) HALT_IPI.

Definition occurrences (j : Z) (l : list Z) : nat :=
  length (List.filter (Z.eqb j) l).

(** The eight register writes of [serial_enable]. *)
Definition enable_writes (port : Z) : list event :=
  [EvOutportb (wrap16 (port + 1)) 0x00; EvOutportb (wrap16 (port + 3)) 0x80;
   EvOutportb (wrap16 (port + 0)) 0x01; EvOutportb (wrap16 (port + 1)) 0x00;
   EvOutportb (wrap16 (port + 3)) 0x03; EvOutportb (wrap16 (port + 2)) 0xC7;
   EvOutportb (wrap16 (port + 4)) 0x0B; EvOutportb (wrap16 (port + 1)) 0x01].

(** The registration, if any, that bringing up [port] performs when the
    one-time flags stand as in [globals]. *)
Definition installs (port : Z) (flags : gvar -> Z) : list event :=
  if on_line_ac port then
    if flags G_have_installed_ac =? 0
    then [EvIrqInstallHandler SERIAL_IRQ_AC Fn_serial_handler_ac "serial ac"]
    else []
  else
    if flags G_have_installed_bd =? 0
    then [EvIrqInstallHandler SERIAL_IRQ_BD Fn_serial_handler_bd "serial bd"]
    else [].

(** What an interrupt handler may do to the kernel: acknowledge [irq],
    then wake [queue], and nothing else. *)
Definition acks_then_wakes {H : Type} (irq queue : Z) (w w' : world H)
  : Prop :=
  trace w' = trace w ++ [EvIrqAck irq; EvWakeupQueue queue] /\
  hw w' = hw w /\
  globals w' = globals w /\
  ptys w' = ptys w /\ nodes w' = nodes w /\ next_ptr w' = next_ptr w /\
  current w' = current w /\
  queues w' !! queue = Some [] /\
  (forall q, q <> queue -> queues w' !! q = queues w !! q) /\
  runnable w' = runnable w ++ default [] (queues w !! queue).

(** Two states of the kernel that differ in the devices and in the
    trace at most. *)
Definition quiet {H : Type} (w w' : world H) : Prop :=
  globals w' = globals w /\ queues w' = queues w /\
  runnable w' = runnable w /\ current w' = current w /\
  ptys w' = ptys w /\ nodes w' = nodes w /\ next_ptr w' = next_ptr w.

(** The line-status byte [serial_rcvd] would read from [dev] now. *)
Definition lsr {H : Type} `{Hardware H} (dev : Z) (h : H) : Z :=
  wrap8 (fst (inportb_hw (wrap16 (dev + 5)) h)).

(** A machine at rest with nothing received on [dev]: the line-status
    register shows no data ready, and neither reading it nor a yield
    changes the state of the devices.  This is a particular case of a
    device that never becomes ready, the one of the test bench. *)
Definition at_rest {H : Type} `{Hardware H} (dev : Z) (h : H) : Prop :=
  Z.land (lsr dev h) 1 = 0 /\
  snd (inportb_hw (wrap16 (dev + 5)) h) = h /\
  yield_hw h = h.

(** A read of one of the eight registers of the UART at [base]. *)
Definition reads_uart (base : Z) (e : event) : bool :=
  match e with
  | EvInportb p _ => (base <=? p) && (p <? base + 8)
  | _ => false
  end.

(** ** Vocabulary of the further statements *)

Definition is_yield (e : event) : bool :=
  match e with EvSwitchTask _ => true | _ => false end.

Definition is_outportb (e : event) : bool :=
  match e with EvOutportb _ _ => true | _ => false end.

(** A read of exactly the port [p]. *)
Definition is_read_of (p : Z) (e : event) : bool :=
  match e with EvInportb q _ => q =? p | _ => false end.

(** The line-status register of [dev] first shows one of the bits of
    [mask] at its poll number [k] (counting from 0), the caller polling
    and yielding in turn as [serial_recv] and [serial_send] do. *)
Fixpoint ready_at {H : Type} `{Hardware H}
    (mask : Z) (k : nat) (dev : Z) (h : H) : bool :=
  match k with
  | O => negb (Z.land (lsr dev h) mask =? 0)
  | S k' =>
      (Z.land (lsr dev h) mask =? 0)
      && ready_at mask k' dev (yield_hw (snd (inportb_hw (wrap16 (dev + 5)) h)))
  end.

(** The devices just after that poll. *)
Fixpoint after_ready_poll {H : Type} `{Hardware H}
    (k : nat) (dev : Z) (h : H) : H :=
  match k with
  | O => snd (inportb_hw (wrap16 (dev + 5)) h)
  | S k' =>
      after_ready_poll k' dev (yield_hw (snd (inportb_hw (wrap16 (dev + 5)) h)))
  end.

(** What those polls leave in the trace: each unsuccessful read of the
    line-status register is followed by a yield, the successful one is
    not. *)
Fixpoint poll_trace {H : Type} `{Hardware H}
    (k : nat) (dev : Z) (h : H) : list event :=
  match k with
  | O => [EvInportb (wrap16 (dev + 5)) (lsr dev h)]
  | S k' =>
      EvInportb (wrap16 (dev + 5)) (lsr dev h) :: EvSwitchTask 1
      :: poll_trace k' dev (yield_hw (snd (inportb_hw (wrap16 (dev + 5)) h)))
  end.

(** The bytes read from the data register of [port], oldest first. *)
Definition data_reads (port : Z) (l : list event) : list Z :=
  flat_map (fun e => match e with
                     | EvInportb p v => if p =? wrap16 port then [v] else []
                     | _ => []
                     end) l.

(** The bytes handed to [tty_input_process], oldest first. *)
Definition forwarded (l : list event) : list Z :=
  flat_map (fun e => match e with
                     | EvTtyInputProcess _ c => [c]
                     | _ => []
                     end) l.

(** The port a pass of the Worker selects when the register at
    [portBase + 1] reads [v]. *)
Definition selected_port (portBase v : Z) : Z :=
  if Z.land v 0x01 =? 0 then portBase - 0x100 else portBase.



(** The line-status register of [dev] shows none of the bits of [mask]
    at any poll, however long the caller polls and yields in turn.  The
    devices may change state as they are read and as time passes: only
    the bits read are constrained. *)
Definition never_shows {H : Type} `{Hardware H}
    (mask dev : Z) (h : H) : Prop :=
  forall k, ready_at mask k dev h = false.

(** A device whose line-status register never shows "data ready". *)
Definition never_ready {H : Type} `{Hardware H} (dev : Z) (h : H) : Prop :=
  never_shows 0x01 dev h.

(** A device whose transmit buffer never empties. *)
Definition never_empty {H : Type} `{Hardware H} (dev : Z) (h : H) : Prop :=
  never_shows 0x20 dev h.

(** What [n] unsuccessful polls leave in the trace: each read of the
    line-status register, with the value the devices gave then, is
    followed by a yield. *)
Fixpoint idle_polls {H : Type} `{Hardware H}
    (n : nat) (dev : Z) (h : H) : list event :=
  match n with
  | O => []
  | S n' =>
      EvInportb (wrap16 (dev + 5)) (lsr dev h) :: EvSwitchTask 1
      :: idle_polls n' dev (yield_hw (snd (inportb_hw (wrap16 (dev + 5)) h)))
  end.

(** The devices after those polls and yields. *)
Fixpoint after_idle_polls {H : Type} `{Hardware H}
    (n : nat) (dev : Z) (h : H) : H :=
  match n with
  | O => h
  | S n' =>
      after_idle_polls n' dev (yield_hw (snd (inportb_hw (wrap16 (dev + 5)) h)))
  end.

(** A machine on which every port reads 0 and whose state, the number
    of accesses and yields so far, changes with each of them. *)
#[global] Instance ticking_bus : Hardware nat := {
  inportb_hw := fun _ n => (0, S n);
  outportb_hw := fun _ _ n => S n;
  yield_hw := fun n => S n;
  reset_hw := fun _ => false
}.

(** A machine on which nothing answers and every port reads 0. *)
#[global] Instance dead_bus : Hardware unit := {
  inportb_hw := fun _ h => (0, h);
  outportb_hw := fun _ _ h => h;
  yield_hw := fun h => h;
  reset_hw := fun _ => false
}.

(** The devices once the port writes of a trace have been made. *)
Definition after_writes {H : Type} `{Hardware H} (l : list event) (h : H) : H :=
  fold_left (fun h' e => match e with
                         | EvOutportb p v => outportb_hw p v h'
                         | _ => h'
                         end) l h.

(** Octal 0660: read and write for owner and group. *)
Definition MODE_0660 : Z := 6 * 64 + 6 * 8 + 0.

(** The group [serial_device_create] gives its nodes ("dialout"). *)
Definition GID_DIALOUT : Z := 2.

(** What bringing up [port] with the new endpoint [pty] and mounting
    its node at [path] leaves in the trace; [install] is the
    registration made on the way, if any. *)
Definition created_trace (port pty : Z) (install : list event)
    (path : string) : list event :=
  [EvPtyNew pty] ++ enable_writes port ++ install
  ++ [EvVfsMount path (pty + 1)].

(** The calls of [serial_initialize] when the allocators start handing
    out addresses at [x] and neither interrupt handler has been
    registered yet. *)
Definition serial_initialize_trace (x : Z) : list event :=
  [EvListCreate "serial ac semaphore" x;
   EvListCreate "serial bd semaphore" (x + 1);
   EvSpawnWorkerThread "[serial ac]" x (x + 2);
   EvSpawnWorkerThread "[serial bd]" (x + 1) (x + 3)]
  ++ created_trace SERIAL_PORT_A (x + 4)
       [EvIrqInstallHandler SERIAL_IRQ_AC Fn_serial_handler_ac "serial ac"]
       "/dev/ttyS0"
  ++ created_trace SERIAL_PORT_B (x + 6)
       [EvIrqInstallHandler SERIAL_IRQ_BD Fn_serial_handler_bd "serial bd"]
       "/dev/ttyS1"
  ++ created_trace SERIAL_PORT_C (x + 8) [] "/dev/ttyS2"
  ++ created_trace SERIAL_PORT_D (x + 10) [] "/dev/ttyS3".

(** The ports whose static holds [pty], in the order in which
    [serial_write_out] and [serial_fill_name] test them. *)
Definition bound_ports (gl : gvar -> Z) (pty : Z) : list Z :=
  List.filter
    (fun port =>
       match pty_for_port_case port with
       | Some g => pty =? gl g
       | None => false
       end)
    serial_ports.

(** [serial_send] of the same byte to each port of the list in turn. *)
Fixpoint send_each {H : Type} `{Hardware H}
    (fuel : nat) (ports : list Z) (c : Z) : M H unit :=
  match ports with
  | [] => ret tt
  | [port] => serial_send fuel port c
  | port :: rest => serial_send fuel port c;; send_each fuel rest c
  end.

(** The path [serial_initialize] mounts the node of [port] at. *)
Definition device_path (port : Z) : string :=
  if port =? SERIAL_PORT_A then DEV_PATH +:+ TTY_A
  else if port =? SERIAL_PORT_B then DEV_PATH +:+ TTY_B
  else if port =? SERIAL_PORT_C then DEV_PATH +:+ TTY_C
  else DEV_PATH +:+ TTY_D.

(** ** user.c: resuming a new thread (lines 93-116) *)

(** The general-purpose registers [arch_resume_user] pops. *)
Inductive gpr :=
| R15 | R14 | R13 | R12 | R11 | R10 | R9 | R8
| RBP | RDI | RSI | RDX | RCX | RBX | RAX.

#[global] Instance gpr_eq_dec : EqDecision gpr.
Proof. solve_decision. Defined.

(** [pop %reg]: the top word of the kernel stack goes to the register. *)
Definition pop (reg : gpr) (st : (gpr -> Z) * list Z)
  : option ((gpr -> Z) * list Z) :=
  match snd st with
  | v :: stk => Some (fun r => if decide (r = reg) then v else fst st r, stk)
  | [] => None
  end.

(** [add $16, %rsp]: two words are stepped over without being read. *)
Definition add_rsp_16 (st : (gpr -> Z) * list Z) : (gpr -> Z) * list Z :=
  (fst st, skipn 2 (snd st)).

(** The body of [arch_resume_user], entered with the registers [file]
    and the kernel stack [kstack] (top first). *)
Definition arch_resume_user (file : gpr -> Z) (kstack : list Z)
  : option ((gpr -> Z) * user_context) :=
  st ← pop R15 (file, kstack);
  st ← pop R14 st;
  st ← pop R13 st;
  st ← pop R12 st;
  st ← pop R11 st;
  st ← pop R10 st;
  st ← pop R9 st;
  st ← pop R8 st;
  st ← pop RBP st;
  st ← pop RDI st;
  st ← pop RSI st;
  st ← pop RDX st;
  st ← pop RCX st;
  st ← pop RBX st;
  st ← pop RAX st;
  let st := add_rsp_16 st in
  ctx ← swapgs_iretq (fst st RDI) (fst st RSI) (fst st RDX) (snd st);
  Some (fst st, ctx).

(** A [struct regs] as it lies in memory, lowest address first. *)
Definition regs_image (r : regs) : list Z :=
  [r15 r; r14 r; r13 r; r12 r; r11 r; r10 r; r9 r; r8 r;
   rbp r; rdi r; rsi r; rdx r; rcx r; rbx r; rax r;
   int_no r; err_code r; rip r; cs r; rflags r; rsp r; ss r].

(** The field of a [struct regs] that belongs to a register. *)
Definition reg_of (g : gpr) (r : regs) : Z :=
  match g with
  | R15 => r15 r | R14 => r14 r | R13 => r13 r | R12 => r12 r
  | R11 => r11 r | R10 => r10 r | R9 => r9 r | R8 => r8 r
  | RBP => rbp r | RDI => rdi r | RSI => rsi r | RDX => rdx r
  | RCX => rcx r | RBX => rbx r | RAX => rax r
  end.

(** ** Reading the trace of [arch_reboot] *)

(** Bit 1 of the keyboard controller's status: input buffer full. *)
Definition kbd_busy (status : Z) : Prop := Z.land status 0x02 <> 0.

(** The calls with which [arch_reboot] replaces the interrupt table by
    a zeroed page, when the allocators hand out [x] and [x + 1]. *)
Definition null_idt_trace (x : Z) : list event :=
  [EvMmuAllocateAFrame x;
   EvMmuMapFromPhysical (wrap64 (Z.shiftl x 12)) (x + 1);
   EvMemset (x + 1) 0 0x1000;
   EvLidt (x + 1)].

Definition RESET_COMMAND : event := EvOutportb 0x64 0xFE.

(* ===================================================================== *)
(** * Part II: theorems                                                  *)
(* ===================================================================== *)

(** ** Integer conversions *)

Lemma wrap64_idem x : wrap64 (wrap64 x) = wrap64 x.
Proof. unfold wrap64. apply Z.mod_mod. lia. Qed.

Lemma wrap64_range x : 0 <= wrap64 x < 2 ^ 64.
Proof. unfold wrap64. apply Z.mod_pos_bound. lia. Qed.

Lemma wrap64_small x : 0 <= x < 2 ^ 64 -> wrap64 x = x.
Proof. intros Hx. unfold wrap64. apply Z.mod_small. exact Hx. Qed.

Lemma to_long_wrap64 x : to_long (wrap64 x) = to_long x.
Proof. unfold to_long. now rewrite wrap64_idem. Qed.

Lemma wrap64_to_long x : wrap64 (to_long x) = wrap64 x.
Proof.
  unfold to_long. destruct (wrap64 x <? 2 ^ 63).
  - apply wrap64_idem.
  - unfold wrap64.
    rewrite <- (Z.mod_add (x mod 2 ^ 64 - 2 ^ 64) 1 (2 ^ 64)) by lia.
    replace (x mod 2 ^ 64 - 2 ^ 64 + 1 * 2 ^ 64) with (x mod 2 ^ 64) by lia.
    apply Z.mod_mod. lia.
Qed.

Lemma wrap8_range x : 0 <= wrap8 x < 256.
Proof. unfold wrap8. apply Z.mod_pos_bound. lia. Qed.

Lemma wrap8_idem x : wrap8 (wrap8 x) = wrap8 x.
Proof. unfold wrap8. apply Z.mod_mod. lia. Qed.

(** A byte survives the trip through [char] into a [uint8_t] parameter. *)
Lemma wrap8_to_char x : wrap8 (to_char x) = wrap8 x.
Proof.
  unfold to_char. destruct (wrap8 x <? 128).
  - apply wrap8_idem.
  - unfold wrap8.
    rewrite <- (Z.mod_add (x mod 256 - 256) 1 256) by lia.
    replace (x mod 256 - 256 + 1 * 256) with (x mod 256) by lia.
    apply Z.mod_mod. lia.
Qed.

(** ** user.c: the accessors *)

Lemma reads_field_intro (field : regs -> Z) (r : regs) :
  reads_field (fun r0 => (to_long (field r0), r0)) field r.
Proof.
  unfold reads_field. cbn [fst snd].
  repeat split. apply wrap64_to_long.
Qed.

(** C9.  [arch_syscall_return] changes rax, to the value it is given,
    and no other field of the saved registers; each read accessor
    ([arch_syscall_number], [arch_syscall_arg0] to [arch_syscall_arg4],
    [arch_stack_pointer], [arch_user_ip]) returns its own field (rax,
    rbx, rcx, rdx, rsi, rdi, rsp, rip) and leaves the structure
    unchanged. *)
Theorem arch_syscall_accessors_frame (r : regs) (v : Z) :
  (rax (snd (arch_syscall_return v r)) = wrap64 v /\
   to_long (rax (snd (arch_syscall_return v r))) = to_long v /\
   same_but_rax r (snd (arch_syscall_return v r))) /\
  reads_field arch_syscall_number rax r /\
  reads_field arch_syscall_arg0 rbx r /\
  reads_field arch_syscall_arg1 rcx r /\
  reads_field arch_syscall_arg2 rdx r /\
  reads_field arch_syscall_arg3 rsi r /\
  reads_field arch_syscall_arg4 rdi r /\
  reads_field arch_stack_pointer rsp r /\
  reads_field arch_user_ip rip r.
Proof.
  split.
  - cbn [arch_syscall_return snd set_rax rax]. split; [reflexivity|].
    split; [apply to_long_wrap64|].
    unfold same_but_rax. cbn. repeat split.
  - repeat split; try apply wrap64_to_long.
    + cbn. apply to_long_wrap64.
    + cbn. rewrite to_long_wrap64. apply wrap64_to_long.
Qed.

(** ** user.c: entering user mode *)

Lemma user_frame_fields uninit ip sp :
  cs (user_frame uninit ip sp) = 0x1B /\
  ss (user_frame uninit ip sp) = 0x23 /\
  rip (user_frame uninit ip sp) = ip /\
  rflags (user_frame uninit ip sp) = 0x200200 /\
  rsp (user_frame uninit ip sp) = sp.
Proof. repeat split. Qed.

(** C3.  For every entry point, argument triple and stack, the frame
    [arch_enter_user] builds has selectors with requested privilege
    level 3, rip equal to the entry point, rsp equal to the stack, and
    flags equal to bit 9 (interrupts enabled) plus bit 21, the second bit
    the code sets by convention; [iretq] then loads exactly these, with
    argc, argv and envp in rdi, rsi and rdx. *)
Theorem arch_enter_user_frame_is_user_mode
    (uninit : regs) (kstack : list Z)
    (entrypoint argc argv envp stack : Z) :
  let ret := arch_enter_user_frame uninit entrypoint stack in
  rpl (cs ret) = 3 /\ rpl (ss ret) = 3 /\
  rip ret = entrypoint /\ rsp ret = stack /\
  Z.testbit (rflags ret) 9 = true /\ Z.testbit (rflags ret) 21 = true /\
  rflags ret = Z.lor (2 ^ 21) (2 ^ 9) /\
  arch_enter_user uninit kstack entrypoint argc argv envp stack =
    Some (mk_user_context (cs ret) (ss ret) entrypoint (rflags ret) stack
                          argc argv envp true).
Proof. cbv zeta. repeat split. Qed.

(** ** user.c: entering a signal handler *)

Lemma mask16_aligned x : Z.land x 0xFFFFFFFFFFFFFFF0 mod 16 = 0.
Proof.
  change 16 with (2 ^ 4). rewrite <- Z.land_ones by lia.
  rewrite <- Z.land_assoc.
  change (Z.land 0xFFFFFFFFFFFFFFF0 (Z.ones 4)) with 0.
  apply Z.land_0_r.
Qed.

(** Masking the low four bits rounds down to a multiple of 16. *)
Lemma mask16_floor y :
  0 <= y < 2 ^ 64 -> Z.land y 0xFFFFFFFFFFFFFFF0 = y - y mod 16.
Proof.
  intros Hy.
  assert (E : y = Z.lor (Z.land y 0xFFFFFFFFFFFFFFF0) (Z.land y (Z.ones 4))).
  { rewrite <- Z.land_lor_distr_r.
    change (Z.lor 0xFFFFFFFFFFFFFFF0 (Z.ones 4)) with (Z.ones 64).
    rewrite Z.land_ones by lia. symmetry. apply Z.mod_small. lia. }
  assert (D : Z.land (Z.land y 0xFFFFFFFFFFFFFFF0) (Z.land y (Z.ones 4)) = 0).
  { rewrite (Z.land_comm y (Z.ones 4)), Z.land_assoc, <- (Z.land_assoc y).
    change (Z.land 0xFFFFFFFFFFFFFFF0 (Z.ones 4)) with 0.
    rewrite Z.land_0_r. apply Z.land_0_l. }
  rewrite <- Z.lxor_lor in E by exact D.
  rewrite <- Z.add_nocarry_lxor in E by exact D.
  rewrite (Z.land_ones y 4) in E by lia. change (2 ^ 4) with 16 in E. lia.
Qed.

Lemma signal_rsp_range old : 0 <= signal_rsp old < 2 ^ 64.
Proof.
  unfold signal_rsp.
  pose proof (wrap64_range (wrap64 (old - 128) - 8)) as Hw.
  rewrite mask16_floor by exact Hw.
  pose proof (Z.mod_pos_bound (wrap64 (wrap64 (old - 128) - 8)) 16).
  pose proof (Z.mod_le (wrap64 (wrap64 (old - 128) - 8)) 16).
  lia.
Qed.

(** With at least 136 bytes below it, the new stack pointer lands in the
    16 bytes that end 136 below the old one. *)
Lemma signal_rsp_no_wrap old :
  136 <= old < 2 ^ 64 ->
  old - 136 - 15 <= signal_rsp old <= old - 136.
Proof.
  intros Ho. unfold signal_rsp.
  rewrite (wrap64_small (old - 128)) by lia.
  rewrite (wrap64_small (old - 128 - 8)) by lia.
  rewrite mask16_floor by lia.
  pose proof (Z.mod_pos_bound (old - 128 - 8) 16). lia.
Qed.

(** With less, the subtraction wraps to the top of the address space. *)
Lemma signal_rsp_wraps old :
  0 <= old < 136 -> 2 ^ 64 - 136 - 15 <= signal_rsp old.
Proof.
  intros Ho. unfold signal_rsp.
  assert (E : wrap64 (wrap64 (old - 128) - 8) = old - 136 + 2 ^ 64).
  { destruct (Z_lt_le_dec old 128).
    - assert (E1 : wrap64 (old - 128) = old - 128 + 2 ^ 64).
      { unfold wrap64. rewrite <- (Z.mod_add _ 1) by lia.
        apply Z.mod_small. lia. }
      rewrite E1, wrap64_small; lia.
    - rewrite (wrap64_small (old - 128)) by lia.
      unfold wrap64. rewrite <- (Z.mod_add _ 1) by lia.
      rewrite Z.mod_small by lia. lia. }
  rewrite E. rewrite mask16_floor by lia.
  pose proof (Z.mod_pos_bound (old - 136 + 2 ^ 64) 16). lia.
Qed.

Lemma load64_store64_sentinel m a :
  load64 (store64 m a SIGNAL_SENTINEL) a = SIGNAL_SENTINEL.
Proof.
  unfold load64, store64, store8. cbn [fold_left fold_right].
  repeat match goal with
  | |- context [?x =? ?y] => destruct (Z.eqb_spec x y); [ try lia | try lia ]
  end.
  reflexivity.
Qed.

(** The claim of C2 fails where the recorded stack pointer is below 136:
    a thread that trapped with rsp = 100 is handed a stack pointer at
    the top of the address space, far above 100. *)
Lemma signal_rsp_above_old_at_100 :
  exists e,
    arch_enter_signal_handler (core_trapped_at 0 100) zero_regs 0 0 []
                              (fun _ => 0) 0x400000 2 = Some e /\
    rsp (se_frame e) = 0xFFFFFFFFFFFFFFD0 /\
    ~ rsp (se_frame e) < 100.
Proof.
  eexists. split; [reflexivity|].
  split; [vm_compute; reflexivity|]. vm_compute. discriminate.
Qed.

(** C2, amended.  For every signal delivery with a recorded trap-entry
    stack pointer (a 64-bit value), the computed stack pointer is a
    multiple of 16 and the sentinel 0x00000008DEADBEEF is stored at the
    word it addresses; it is strictly below the recorded stack pointer
    (by 136 to 151 bytes) whenever that is at least 136, and above it
    otherwise, the subtraction having wrapped. *)
Theorem arch_enter_signal_handler_stack
    (core : processor_local) (uninit sr : regs) (rsi0 rdx0 : Z)
    (kstack : list Z) (mem : memory) (entrypoint signum : Z) :
  syscall_registers (current_process core) = Some sr ->
  0 <= rsp sr < 2 ^ 64 ->
  exists e,
    arch_enter_signal_handler core uninit rsi0 rdx0 kstack mem
                              entrypoint signum = Some e /\
    rsp (se_frame e) mod 16 = 0 /\
    0 <= rsp (se_frame e) < 2 ^ 64 /\
    load64 (se_memory e) (rsp (se_frame e)) = SIGNAL_SENTINEL /\
    (136 <= rsp sr ->
       rsp (se_frame e) < rsp sr /\
       rsp sr - 151 <= rsp (se_frame e) <= rsp sr - 136) /\
    (rsp sr < 136 -> rsp sr < rsp (se_frame e)) /\
    rpl (cs (se_frame e)) = 3 /\ rip (se_frame e) = entrypoint /\
    se_context e =
      Some (mk_user_context 0x1B 0x23 entrypoint 0x200200
                            (rsp (se_frame e)) signum rsi0 rdx0 true).
Proof.
  intros Hsr Hrange. unfold arch_enter_signal_handler. rewrite Hsr.
  eexists. split; [reflexivity|].
  cbn [se_frame se_memory se_context].
  destruct (user_frame_fields uninit entrypoint (signal_rsp (rsp sr)))
    as (Hcs & Hss & Hrip & Hfl & Hrsp).
  rewrite Hrsp.
  split; [apply mask16_aligned|].
  split; [apply signal_rsp_range|].
  split; [apply load64_store64_sentinel|].
  split.
  { intros Hge. pose proof (signal_rsp_no_wrap (rsp sr)). lia. }
  split.
  { intros Hlt. pose proof (signal_rsp_wraps (rsp sr)). lia. }
  rewrite Hcs. repeat split.
Qed.

Lemma arch_enter_signal_handler_stack_witness :
  exists e,
    arch_enter_signal_handler (core_trapped_at 0 0x7FFFFFFFE000) zero_regs
                              0 0 [] (fun _ => 0) 0x400000 2 = Some e /\
    rsp (se_frame e) = 0x7FFFFFFFDF70 /\
    load64 (se_memory e) 0x7FFFFFFFDF70 = SIGNAL_SENTINEL.
Proof.
  destruct (arch_enter_signal_handler_stack
              (core_trapped_at 0 0x7FFFFFFFE000) zero_regs
              (set_rsp zero_regs 0x7FFFFFFFE000) 0 0 [] (fun _ => 0)
              0x400000 2)
    as (e & He & _ & _ & Hload & _).
  - reflexivity.
  - cbn. lia.
  - exists e. split; [exact He|].
    cbn in He. injection He as <-. cbn in *. split; [reflexivity|exact Hload].
Defined.

(** ** The kernel monad *)

Section MonadFacts.
Context {H : Type} `{Hardware H}.

Lemma bind_Ret {A B} (m : M H A) (k : A -> M H B) w a w' :
  m w = Ret a w' -> bind m k w = k a w'.
Proof. intros E. unfold bind. now rewrite E. Qed.

Lemma bind_not_returned {A B} (m : M H A) (k : A -> M H B) w :
  returned (m w) = false ->
  returned (bind m k w) = false /\ final (bind m k w) = final (m w).
Proof. unfold bind. destruct (m w); cbn; intros; try discriminate; auto. Qed.

Lemma count_if_app P (l1 l2 : list event) :
  count_if P (l1 ++ l2) = (count_if P l1 + count_if P l2)%nat.
Proof. unfold count_if. now rewrite List.filter_app, length_app. Qed.

Lemma count_if_none P (l : list event) :
  forallb (fun e => negb (P e)) l = true -> count_if P l = 0%nat.
Proof.
  unfold count_if. induction l as [|e l IH]; cbn; [reflexivity|].
  intros Hl. apply andb_prop in Hl as [He Hl].
  destruct (P e); [discriminate|]. now apply IH.
Qed.

End MonadFacts.

(** ** user.c: stopping the other cores *)

Lemma occurrences_cores_from n i j :
  occurrences j (cores_from n i) =
  if (i <=? j) && (j <? i + Z.of_nat n) then 1%nat else 0%nat.
Proof.
  unfold occurrences. revert i. induction n as [|n IH]; intros i.
  - cbn [cores_from List.filter length].
    destruct (Z.leb_spec i j), (Z.ltb_spec j (i + Z.of_nat 0)); cbn; lia.
  - cbn [cores_from List.filter]. rewrite Nat2Z.inj_succ.
    destruct (Z.eqb_spec j i) as [->|Hne]; cbn [length]; rewrite IH.
    + destruct (Z.leb_spec (i + 1) i), (Z.leb_spec i i),
        (Z.ltb_spec i (i + 1 + Z.of_nat n)), (Z.ltb_spec i (i + Z.succ (Z.of_nat n)));
        cbn; lia.
    + destruct (Z.leb_spec (i + 1) j), (Z.leb_spec i j),
        (Z.ltb_spec j (i + 1 + Z.of_nat n)), (Z.ltb_spec j (i + Z.succ (Z.of_nat n)));
        cbn; lia.
Qed.

Lemma occurrences_filter_ne j c l :
  occurrences j (List.filter (fun i => negb (i =? c)) l) =
  if j =? c then 0%nat else occurrences j l.
Proof.
  unfold occurrences. induction l as [|x l IH]; cbn [List.filter].
  - now destruct (j =? c).
  - destruct (Z.eqb_spec x c) as [->|Hx]; cbn [negb List.filter].
    + rewrite IH. destruct (Z.eqb_spec j c) as [->|Hj]; [reflexivity|].
      destruct (Z.eqb_spec j c); [lia|reflexivity].
    + destruct (Z.eqb_spec j x) as [->|Hjx]; cbn [length]; rewrite IH.
      * destruct (Z.eqb_spec x c); [lia|reflexivity].
      * reflexivity.
Qed.

(** Every core but the caller is listed once, the caller never. *)
Lemma occurrences_other_cores count c j :
  0 <= j < count ->
  occurrences j (other_cores count c) = if j =? c then 0%nat else 1%nat.
Proof.
  intros Hj. unfold other_cores.
  rewrite occurrences_filter_ne, occurrences_cores_from.
  rewrite Z2Nat.id by lia.
  destruct (j =? c); [reflexivity|].
  destruct (Z.leb_spec 0 j), (Z.ltb_spec j (0 + count)); cbn; lia.
Qed.

Lemma in_cores_from n i j :
  In j (cores_from n i) -> i <= j < i + Z.of_nat n.
Proof.
  revert i. induction n as [|n IH]; intros i; cbn [cores_from In].
  - tauto.
  - intros [<-|Hin]; [lia|]. apply IH in Hin. lia.
Qed.

Lemma count_halt_ipis data count j (l : list Z) :
  (forall i, In i l -> 0 <= i < count) ->
  0 <= j < count ->
  (forall i k, 0 <= i < count -> 0 <= k < count ->
               lapic_of data i = lapic_of data k -> i = k) ->
  count_if (is_ipi_to (lapic_of data j)) (List.map (halt_ipi data) l) =
  occurrences j l.
Proof.
  intros Hl Hj Hinj. unfold count_if, occurrences.
  induction l as [|x l IH]; [reflexivity|].
  cbn [List.map List.filter halt_ipi is_ipi_to].
  assert (Hx : 0 <= x < count) by (apply Hl; now left).
  assert (IH' : length (List.filter (is_ipi_to (lapic_of data j))
                          (List.map (halt_ipi data) l))
                = length (List.filter (Z.eqb j) l)).
  { apply IH. intros i Hi. apply Hl. now right. }
  destruct (Z.eqb_spec (lapic_of data x) (lapic_of data j)) as [E|E];
    destruct (Z.eqb_spec j x) as [E'|E']; cbn [length]; try congruence.
  exfalso. apply E'. symmetry. now apply Hinj.
Qed.

Section FatalPrepare.
Context {H : Type} `{Hardware H}.
Variable data : list processor_local.
Variable this_core : processor_local.

Lemma arch_fatal_prepare_from_trace n i (w : world H) :
  0 <= i -> (Z.to_nat i + n <= length data)%nat ->
  arch_fatal_prepare_from data this_core n i w =
    Ret tt (with_trace w
              (trace w ++
               List.map (halt_ipi data)
                 (List.filter (fun k => negb (k =? cpu_id this_core))
                              (cores_from n i)))).
Proof.
  revert i w. induction n as [|n IH]; intros i w Hi Hlen.
  - cbn. rewrite app_nil_r. now destruct w.
  - cbn [arch_fatal_prepare_from cores_from List.filter].
    destruct (Z.eqb_spec i (cpu_id this_core)) as [E|E]; cbn [negb].
    + apply IH; [lia|]. rewrite Z2Nat.inj_add by lia. cbn. lia.
    + destruct (data !! Z.to_nat i) as [core|] eqn:L.
      2:{ apply lookup_ge_None in L. lia. }
      unfold bind at 1, lapic_send_ipi, call.
      rewrite IH by (try rewrite Z2Nat.inj_add by lia; cbn; lia).
      cbn [List.map]. unfold halt_ipi at 2, lapic_of. rewrite L.
      unfold emit, with_trace. cbn. rewrite <- app_assoc. reflexivity.
Qed.

End FatalPrepare.

(** C4.  With [count] processors and the caller on core [c],
    [arch_fatal_prepare] returns having sent the halt IPI (0x447D) once
    for every core index other than [c], in index order, and nothing
    else: [count - 1] IPIs in all, one per other core and none for [c];
    counted by destination, where the cores' APIC ids are distinct,
    each other core's APIC is addressed exactly once and the caller's
    never. *)
Theorem arch_fatal_prepare_halts_others
    {H : Type} `{Hardware H}
    (count : Z) (data : list processor_local)
    (this_core : processor_local) (w : world H) :
  0 <= cpu_id this_core < count ->
  (Z.to_nat count <= length data)%nat ->
  exists w',
    arch_fatal_prepare count data this_core w = Ret tt w' /\
    hw w' = hw w /\
    trace w' =
      trace w ++ List.map (halt_ipi data) (other_cores count (cpu_id this_core)) /\
    Z.of_nat (length (other_cores count (cpu_id this_core))) = count - 1 /\
    (forall j, 0 <= j < count ->
       occurrences j (other_cores count (cpu_id this_core)) =
       if j =? cpu_id this_core then 0%nat else 1%nat) /\
    ((forall i k, 0 <= i < count -> 0 <= k < count ->
                  lapic_of data i = lapic_of data k -> i = k) ->
     forall j, 0 <= j < count ->
       count_if (is_ipi_to (lapic_of data j))
                (List.map (halt_ipi data)
                          (other_cores count (cpu_id this_core))) =
       if j =? cpu_id this_core then 0%nat else 1%nat).
Proof.
  intros Hc Hlen. unfold arch_fatal_prepare.
  rewrite arch_fatal_prepare_from_trace by (cbn; lia).
  eexists. split; [reflexivity|]. split; [reflexivity|].
  split; [reflexivity|].
  assert (Hocc : forall j, 0 <= j < count ->
            occurrences j (other_cores count (cpu_id this_core)) =
            if j =? cpu_id this_core then 0%nat else 1%nat)
    by (intros j Hj; now apply occurrences_other_cores).
  split; [|split; [exact Hocc|]].
  - unfold other_cores.
    assert (G : forall n i c, i <= c < i + Z.of_nat n ->
              S (length (List.filter (fun k => negb (k =? c)) (cores_from n i))) = n).
    { induction n as [|n IH]; intros i c Hr; [cbn in Hr; lia|].
      cbn [cores_from List.filter].
      destruct (Z.eqb_spec i c) as [->|Hne]; cbn [negb length].
      - f_equal. clear IH Hr. 
        assert (G' : forall m k, c < k ->
                  length (List.filter (fun k0 => negb (k0 =? c)) (cores_from m k)) = m).
        { induction m as [|m IHm]; intros k Hk; [reflexivity|].
          cbn [cores_from List.filter].
          destruct (Z.eqb_spec k c); [lia|]. cbn [negb length].
          f_equal. apply IHm. lia. }
        apply G'. lia.
      - f_equal. apply IH. lia. }
    specialize (G (Z.to_nat count) 0 (cpu_id this_core)).
    rewrite Z2Nat.id in G by lia. specialize (G ltac:(lia)). lia.
  - intros Hinj j Hj. rewrite (count_halt_ipis data count); auto.
    intros i Hi. unfold other_cores in Hi.
    apply List.filter_In in Hi as [Hi _]. apply in_cores_from in Hi. lia.
Qed.

Lemma arch_fatal_prepare_halts_others_witness :
  exists w',
    arch_fatal_prepare 4
      [core_numbered 0 0; core_numbered 1 2; core_numbered 2 4;
       core_numbered 3 6]
      (core_numbered 2 4) (boot_world (quiet_pc 0 false)) = Ret tt w' /\
    trace w' = [EvLapicSendIpi 0 0x447D; EvLapicSendIpi 2 0x447D;
                EvLapicSendIpi 6 0x447D].
Proof.
  destruct (arch_fatal_prepare_halts_others 4
              [core_numbered 0 0; core_numbered 1 2; core_numbered 2 4;
               core_numbered 3 6]
              (core_numbered 2 4) (boot_world (quiet_pc 0 false)))
    as (w' & Hrun & _ & Htrace & _).
  - cbn. lia.
  - cbn. lia.
  - exists w'. split; [exact Hrun|]. rewrite Htrace. reflexivity.
Defined.

(** ** user.c: reboot *)

Section Reboot.
Context {H : Type} `{Hardware H}.

Lemma arch_reboot_wait_eq fuel out :
  arch_reboot_wait (H := H) fuel out =
  if Z.land out 0x02 =? 0 then ret tt
  else match fuel with
       | O => spin
       | S fuel' => v <- inportb 0x64;; arch_reboot_wait fuel' v
       end.
Proof. destruct fuel; reflexivity. Qed.

Lemma arch_reboot_wait_ready n :
  forall fuel out (w : world H),
    kbd_ready_within n out (hw w) = true -> (n <= fuel)%nat ->
    exists w',
      arch_reboot_wait fuel out w = Ret tt w' /\
      hw w' = kbd_after_wait n out (hw w).
Proof.
  induction n as [|n IH]; intros fuel out w Hready Hfuel;
    rewrite arch_reboot_wait_eq;
    cbn [kbd_ready_within kbd_after_wait] in *;
    destruct (Z.land out 2 =? 0); try discriminate; try (now eexists).
  destruct fuel as [|fuel]; [lia|].
  unfold bind at 1, inportb.
  apply IH; [exact Hready|lia].
Qed.

Lemma arch_reboot_wait_busy :
  forall fuel out (w : world H),
    (forall n, kbd_ready_within n out (hw w) = false) ->
    returned (arch_reboot_wait fuel out w) = false.
Proof.
  induction fuel as [|fuel IH]; intros out w Hbusy;
    pose proof (Hbusy 0%nat) as Hnow; cbn in Hnow;
    rewrite arch_reboot_wait_eq;
    destruct (Z.land out 2 =? 0) eqn:E; try discriminate; [reflexivity|].
  unfold bind at 1, inportb. apply IH. intros n.
  specialize (Hbusy (S n)). cbn [kbd_ready_within] in Hbusy.
  now rewrite E in Hbusy.
Qed.

(** What [arch_reboot] does before it polls leaves the devices alone. *)
Lemma arch_reboot_unfold fuel (w : world H) :
  exists w1,
    hw w1 = hw w /\
    arch_reboot fuel w =
      (arch_reboot_wait fuel 0x02;; outportb 0x64 0xFE;; reset_line;; ret 0) w1.
Proof. eexists. split; [|reflexivity]. reflexivity. Qed.

(** Whenever [arch_reboot] returns, it returns 0. *)
Lemma arch_reboot_value fuel (w : world H) r w' :
  arch_reboot fuel w = Ret r w' -> r = 0.
Proof.
  destruct (arch_reboot_unfold fuel w) as (w1 & _ & ->).
  unfold bind at 1. destruct (arch_reboot_wait fuel 2 w1); try discriminate.
  unfold bind at 1, outportb. unfold bind at 1, reset_line.
  cbn [hw with_hw emit with_trace].
  destruct (reset_hw _); [discriminate|].
  cbn. now intros [= <- _].
Qed.

(** A controller that never reports its input buffer empty keeps
    [arch_reboot] in its polling loop whatever the fuel. *)
Lemma arch_reboot_hangs fuel (w : world H) :
  (forall n, kbd_ready_within n 0x02 (hw w) = false) ->
  returned (arch_reboot fuel w) = false.
Proof.
  intros Hbusy. destruct (arch_reboot_unfold fuel w) as (w1 & Hhw & ->).
  apply bind_not_returned. apply arch_reboot_wait_busy.
  now rewrite Hhw.
Qed.

End Reboot.

(** The claim of C6 fails on its second half: where the controller is
    ready at once and ignores the reset command, [arch_reboot] returns,
    the machine has not been reset, and the value returned is 0, the
    value that reports success; no amount of fuel yields a return
    value that reports a failure. *)
Lemma arch_reboot_ignored_returns_success :
  (exists w',
     arch_reboot 1 (boot_world (quiet_pc 0 false)) = Ret 0 w' /\
     was_reset (hw w') = false /\
     last (trace w') = Some (EvOutportb 0x64 0xFE)) /\
  reports_failure 0 = false /\
  forall fuel, ~ exists r w',
    arch_reboot fuel (boot_world (quiet_pc 0 false)) = Ret r w' /\
    reports_failure r = true.
Proof.
  split; [|split].
  - eexists. split; [vm_compute; reflexivity|]. split; reflexivity.
  - reflexivity.
  - intros fuel (r & w' & Hrun & Hfail).
    apply arch_reboot_value in Hrun. subst r. discriminate.
Qed.

(** On a controller whose status port always reads "input buffer full"
    [arch_reboot] never gets as far as the reset command. *)
Lemma arch_reboot_hangs_on_busy_controller fuel :
  returned (arch_reboot fuel (boot_world (quiet_pc 0x02 false))) = false.
Proof.
  apply arch_reboot_hangs. intros n.
  induction n as [|n IH]; [reflexivity|exact IH].
Qed.

(** C6, amended.  Where the keyboard controller reports its input
    buffer empty within [n] reads of port 0x64 and does not honour the
    reset command written next, [arch_reboot] (given fuel for [n] reads)
    returns to its caller, having written 0xFE to port 0x64 last; the
    value it returns is 0, as in every run in which it returns, so the
    return value carries no failure indication. *)
Theorem arch_reboot_returns_zero
    {H : Type} `{Hardware H} (n fuel : nat) (w : world H) :
  kbd_ready_within n 0x02 (hw w) = true ->
  (n <= fuel)%nat ->
  reset_hw (outportb_hw 0x64 0xFE (kbd_after_wait n 0x02 (hw w))) = false ->
  (exists w',
     arch_reboot fuel w = Ret 0 w' /\
     last (trace w') = Some (EvOutportb 0x64 0xFE) /\
     hw w' = outportb_hw 0x64 0xFE (kbd_after_wait n 0x02 (hw w))) /\
  reports_failure 0 = false /\
  (forall fuel' r w', arch_reboot fuel' w = Ret r w' -> r = 0).
Proof.
  intros Hready Hfuel Hignored.
  split; [|split; [reflexivity|]].
  - destruct (arch_reboot_unfold fuel w) as (w1 & Hhw & ->).
    rewrite <- Hhw in Hready, Hignored |- *.
    destruct (arch_reboot_wait_ready n fuel 2 w1 Hready Hfuel) as (w2 & E2 & H2).
    rewrite (bind_Ret _ _ _ _ _ E2).
    unfold bind at 1, outportb. unfold bind at 1, reset_line.
    cbn [hw with_hw emit with_trace]. rewrite H2.
    change (wrap16 100) with 100. change (wrap8 254) with 254.
    rewrite Hignored. eexists. split; [reflexivity|].
    cbn [trace hw with_hw]. split; [apply last_snoc|reflexivity].
  - intros fuel' r w'. apply arch_reboot_value.
Qed.

Lemma arch_reboot_returns_zero_witness :
  exists w',
    arch_reboot 3 (boot_world (quiet_pc 0 false)) = Ret 0 w' /\
    last (trace w') = Some (EvOutportb 0x64 0xFE).
Proof.
  destruct (arch_reboot_returns_zero 1 3 (boot_world (quiet_pc 0 false)))
    as ((w' & Hrun & Hlast & _) & _).
  - reflexivity.
  - lia.
  - reflexivity.
  - exists w'. split; [exact Hrun|exact Hlast].
Defined.

(** ** serial.c: the interrupt handlers *)

Section Handlers.
Context {H : Type} `{Hardware H}.

Lemma ack_then_wake (irq queue : Z) (w : world H) :
  exists w',
    (irq_ack irq;; wakeup_queue queue;; ret 1) w = Ret 1 w' /\
    acks_then_wakes irq queue w w'.
Proof.
  eexists. split; [reflexivity|]. unfold acks_then_wakes. cbn.
  rewrite <- app_assoc.
  repeat split; try reflexivity.
  - apply lookup_insert_eq.
  - intros q Hq. now apply lookup_insert_ne.
Qed.

End Handlers.

(** C8.  On every invocation, [serial_handler_ac] and
    [serial_handler_bd] return 1 having made exactly two calls, in this
    order: [irq_ack] on their line (4, 3), then [wakeup_queue] on their
    wait queue, which leaves that queue empty and all its waiters
    runnable.  They read and write no I/O port (the devices are as
    before), make no blocking call and allocate nothing. *)
Theorem serial_handlers_ack_then_wake
    {H : Type} `{Hardware H} (w : world H) :
  (exists w',
     serial_handler_ac w = Ret 1 w' /\
     acks_then_wakes SERIAL_IRQ_AC (globals w G_sem_serial_ac) w w' /\
     forallb (fun e => negb (is_port_io e || is_blocking e || is_allocation e))
             [EvIrqAck SERIAL_IRQ_AC;
              EvWakeupQueue (globals w G_sem_serial_ac)] = true) /\
  (exists w',
     serial_handler_bd w = Ret 1 w' /\
     acks_then_wakes SERIAL_IRQ_BD (globals w G_sem_serial_bd) w w' /\
     forallb (fun e => negb (is_port_io e || is_blocking e || is_allocation e))
             [EvIrqAck SERIAL_IRQ_BD;
              EvWakeupQueue (globals w G_sem_serial_bd)] = true).
Proof.
  split.
  - destruct (ack_then_wake SERIAL_IRQ_AC (globals w G_sem_serial_ac) w)
      as (w' & Hrun & Heff).
    exists w'. split; [exact Hrun|]. split; [exact Heff|reflexivity].
  - destruct (ack_then_wake SERIAL_IRQ_BD (globals w G_sem_serial_bd) w)
      as (w' & Hrun & Heff).
    exists w'. split; [exact Hrun|]. split; [exact Heff|reflexivity].
Qed.

(** ** serial.c: device bring-up *)

Section BringUp.
Context {H : Type} `{Hardware H}.

Lemma pty_new_runs size flags (w : world H) :
  exists w1,
    pty_new size flags w = Ret (next_ptr w) w1 /\
    trace w1 = trace w ++ [EvPtyNew (next_ptr w)] /\
    globals w1 = globals w /\
    ptys w1 !! next_ptr w = Some (mk_pty None None (next_ptr w + 1)) /\
    nodes w1 !! (next_ptr w + 1) = Some (mk_fs_node 0 0).
Proof.
  eexists. split; [reflexivity|]. cbn.
  repeat split; apply lookup_insert_eq.
Qed.

Lemma store_pty_runs p f x (w : world H) :
  ptys w !! p = Some x ->
  exists w1,
    store_pty p f w = Ret tt w1 /\
    trace w1 = trace w /\ globals w1 = globals w /\
    ptys w1 !! p = Some (f x) /\ nodes w1 = nodes w.
Proof.
  intros E. unfold store_pty. rewrite E. eexists. split; [reflexivity|].
  cbn. repeat split. apply lookup_insert_eq.
Qed.

Lemma store_node_runs n f x (w : world H) :
  nodes w !! n = Some x ->
  exists w1,
    store_node n f w = Ret tt w1 /\
    trace w1 = trace w /\ globals w1 = globals w /\
    nodes w1 !! n = Some (f x).
Proof.
  intros E. unfold store_node. rewrite E. eexists. split; [reflexivity|].
  cbn. repeat split. apply lookup_insert_eq.
Qed.

Lemma serial_enable_runs port (w : world H) :
  exists w1,
    serial_enable port w = Ret tt w1 /\
    trace w1 = trace w ++ enable_writes port /\
    globals w1 = globals w /\ ptys w1 = ptys w /\ nodes w1 = nodes w.
Proof.
  eexists. split; [reflexivity|]. cbn.
  repeat split. repeat rewrite <- app_assoc. reflexivity.
Qed.

(** The guarded registration: it happens if the flag is 0, and then
    sets the flag. *)
Lemma install_once_runs irq f name flag (w : world H) :
  exists w1,
    (installed <- get_global flag;;
     when (installed =? 0)
       (irq_install_handler irq f name;; set_global flag 1)) w = Ret tt w1 /\
    trace w1 = trace w ++
      (if globals w flag =? 0 then [EvIrqInstallHandler irq f name] else []) /\
    (forall g, globals w1 g =
       if decide (g = flag)
       then (if globals w flag =? 0 then 1 else globals w flag)
       else globals w g) /\
    ptys w1 = ptys w /\ nodes w1 = nodes w.
Proof.
  unfold bind at 1, get_global. unfold when.
  destruct (globals w flag =? 0) eqn:E.
  - eexists. split; [reflexivity|]. cbn. repeat split.
  - eexists. split; [reflexivity|]. rewrite app_nil_r. repeat split.
    intros g. destruct (decide (g = flag)) as [->|]; reflexivity.
Qed.

Lemma pty_for_port_case_not_flag port g :
  pty_for_port_case port = Some g ->
  g <> G_have_installed_ac /\ g <> G_have_installed_bd.
Proof.
  unfold pty_for_port_case. intros Hg.
  repeat match type of Hg with
  | (if ?c then _ else _) = _ => destruct c
  end; inversion Hg; split; discriminate.
Qed.

(** One bring-up call on a port that has a [case]: it returns the slave
    node, binds the new endpoint to the port, and its calls are
    [pty_new], the eight register writes, and the registration the
    flags allow. *)
Lemma serial_device_create_runs port g (w : world H) :
  pty_for_port_case port = Some g ->
  exists w',
    serial_device_create port w = Ret (next_ptr w + 1) w' /\
    trace w' = trace w ++ [EvPtyNew (next_ptr w)] ++ enable_writes port
                       ++ installs port (globals w) /\
    globals w' G_have_installed_ac =
      (if on_line_ac port && (globals w G_have_installed_ac =? 0)
       then 1 else globals w G_have_installed_ac) /\
    globals w' G_have_installed_bd =
      (if negb (on_line_ac port) && (globals w G_have_installed_bd =? 0)
       then 1 else globals w G_have_installed_bd) /\
    globals w' g = next_ptr w.
Proof.
  intros Hg.
  destruct (pty_for_port_case_not_flag port g Hg) as [Hac Hbd].
  unfold serial_device_create.
  destruct (pty_new_runs 0 0 w) as (w1 & E1 & T1 & G1 & P1 & N1).
  rewrite (bind_Ret _ _ _ _ _ E1). clear E1.
  rewrite (bind_Ret _ _ w1 g w1) by (unfold pty_for_port; now rewrite Hg).
  unfold bind at 1, set_global.
  set (w2 := with_globals w1 _).
  assert (T2 : trace w2 = trace w1) by reflexivity.
  assert (G2 : forall g', globals w2 g' =
                 if decide (g' = g) then next_ptr w else globals w g').
  { intros g'. subst w2. cbn. now rewrite G1. }
  assert (P2 : ptys w2 = ptys w1) by reflexivity.
  assert (N2 : nodes w2 = nodes w1) by reflexivity.
  clearbody w2. rewrite <- P2 in P1. rewrite <- N2 in N1.
  destruct (store_pty_runs (next_ptr w)
              (fun p => mk_pty (Some Fn_serial_write_out) (fill_name p) (slave p))
              _ w2 P1) as (w3 & E3 & T3 & G3 & P3 & N3).
  rewrite (bind_Ret _ _ _ _ _ E3). clear E3.
  destruct (store_pty_runs (next_ptr w)
              (fun p => mk_pty (write_out p) (Some Fn_serial_fill_name) (slave p))
              _ w3 P3) as (w4 & E4 & T4 & G4 & P4 & N4).
  rewrite (bind_Ret _ _ _ _ _ E4). clear E4.
  destruct (serial_enable_runs port w4) as (w5 & E5 & T5 & G5 & P5 & N5).
  rewrite (bind_Ret _ _ _ _ _ E5). clear E5.
  assert (Hblock : exists w6,
    (if (port =? SERIAL_PORT_A) || (port =? SERIAL_PORT_C)
     then installed <- get_global G_have_installed_ac;;
          when (installed =? 0)
            (irq_install_handler SERIAL_IRQ_AC Fn_serial_handler_ac "serial ac";;
             set_global G_have_installed_ac 1)
     else installed <- get_global G_have_installed_bd;;
          when (installed =? 0)
            (irq_install_handler SERIAL_IRQ_BD Fn_serial_handler_bd "serial bd";;
             set_global G_have_installed_bd 1)) w5 = Ret tt w6 /\
    trace w6 = trace w5 ++ installs port (globals w) /\
    globals w6 G_have_installed_ac =
      (if on_line_ac port && (globals w G_have_installed_ac =? 0)
       then 1 else globals w G_have_installed_ac) /\
    globals w6 G_have_installed_bd =
      (if negb (on_line_ac port) && (globals w G_have_installed_bd =? 0)
       then 1 else globals w G_have_installed_bd) /\
    globals w6 g = next_ptr w /\
    ptys w6 = ptys w5 /\ nodes w6 = nodes w5).
  { assert (F : forall g', globals w5 g' =
                  if decide (g' = g) then next_ptr w else globals w g').
    { intros g'. now rewrite G5, G4, G3, G2. }
    assert (Fac : globals w5 G_have_installed_ac = globals w G_have_installed_ac).
    { rewrite F. destruct (decide (G_have_installed_ac = g)); congruence. }
    assert (Fbd : globals w5 G_have_installed_bd = globals w G_have_installed_bd).
    { rewrite F. destruct (decide (G_have_installed_bd = g)); congruence. }
    assert (Fg : globals w5 g = next_ptr w).
    { rewrite F. destruct (decide (g = g)); congruence. }
    unfold installs, on_line_ac.
    destruct ((port =? SERIAL_PORT_A) || (port =? SERIAL_PORT_C)); cbn [negb andb].
    - destruct (install_once_runs SERIAL_IRQ_AC Fn_serial_handler_ac "serial ac"
                  G_have_installed_ac w5) as (w6 & E6 & T6 & G6 & P6 & N6).
      exists w6. split; [exact E6|]. rewrite Fac in *.
      split; [exact T6|].
      repeat split; auto; rewrite G6.
      + destruct (decide (G_have_installed_ac = G_have_installed_ac)); congruence.
      + destruct (decide (G_have_installed_bd = G_have_installed_ac)); congruence.
      + destruct (decide (g = G_have_installed_ac)); congruence.
    - destruct (install_once_runs SERIAL_IRQ_BD Fn_serial_handler_bd "serial bd"
                  G_have_installed_bd w5) as (w6 & E6 & T6 & G6 & P6 & N6).
      exists w6. split; [exact E6|]. rewrite Fbd in *.
      split; [exact T6|].
      repeat split; auto; rewrite G6.
      + destruct (decide (G_have_installed_ac = G_have_installed_bd)); congruence.
      + destruct (decide (G_have_installed_bd = G_have_installed_bd)); congruence.
      + destruct (decide (g = G_have_installed_bd)); congruence. }
  destruct Hblock as (w6 & E6 & T6 & Gac & Gbd & Gg & P6 & N6).
  rewrite (bind_Ret _ _ _ _ _ E6). clear E6.
  assert (P : ptys w6 !! next_ptr w =
              Some (mk_pty (Some Fn_serial_write_out)
                           (Some Fn_serial_fill_name) (next_ptr w + 1))).
  { rewrite P6, P5. exact P4. }
  rewrite (bind_Ret _ _ w6 (next_ptr w + 1) w6)
    by (unfold load_pty_slave; now rewrite P).
  assert (N : nodes w6 !! (next_ptr w + 1) = Some (mk_fs_node 0 0)).
  { rewrite N6, N5, N4, N3. exact N1. }
  destruct (store_node_runs (next_ptr w + 1)
              (fun n => mk_fs_node 2 (mask n)) _ w6 N)
    as (w7 & E7 & T7 & G7 & N7).
  rewrite (bind_Ret _ _ _ _ _ E7). clear E7.
  destruct (store_node_runs (next_ptr w + 1)
              (fun n => mk_fs_node (gid n) 432) _ w7 N7)
    as (w8 & E8 & T8 & G8 & N8).
  rewrite (bind_Ret _ _ _ _ _ E8). clear E8.
  exists w8. split; [reflexivity|].
  rewrite G8, G7, T8, T7, T6, T5, T4, T3, T2, T1.
  repeat rewrite <- app_assoc. auto.
Qed.

Lemma known_port_case port :
  known_port port = true ->
  exists g, pty_for_port_case port = Some g /\
            on_line_bd port = negb (on_line_ac port).
Proof.
  unfold known_port, serial_ports, pty_for_port_case, on_line_ac, on_line_bd.
  cbn [existsb].
  destruct (Z.eqb_spec port SERIAL_PORT_A) as [->|];
    [eexists; split; reflexivity|].
  destruct (Z.eqb_spec port SERIAL_PORT_B) as [->|];
    [eexists; split; reflexivity|].
  destruct (Z.eqb_spec port SERIAL_PORT_C) as [->|];
    [eexists; split; reflexivity|].
  destruct (Z.eqb_spec port SERIAL_PORT_D) as [->|];
    [eexists; split; reflexivity|].
  discriminate.
Qed.

(** What a sequence of bring-up calls adds to the registrations of each
    line, and does to its flag, from any state of the flags. *)
Lemma bring_up_runs (ports : list Z) :
  forall w : world H,
    forallb known_port ports = true ->
    exists w',
      bring_up ports w = Ret tt w' /\
      count_if (is_install SERIAL_IRQ_AC) (trace w') =
        (count_if (is_install SERIAL_IRQ_AC) (trace w) +
         if existsb on_line_ac ports && (globals w G_have_installed_ac =? 0)%Z
         then 1 else 0)%nat /\
      count_if (is_install SERIAL_IRQ_BD) (trace w') =
        (count_if (is_install SERIAL_IRQ_BD) (trace w) +
         if existsb on_line_bd ports && (globals w G_have_installed_bd =? 0)%Z
         then 1 else 0)%nat /\
      globals w' G_have_installed_ac =
        (if existsb on_line_ac ports && (globals w G_have_installed_ac =? 0)
         then 1 else globals w G_have_installed_ac) /\
      globals w' G_have_installed_bd =
        (if existsb on_line_bd ports && (globals w G_have_installed_bd =? 0)
         then 1 else globals w G_have_installed_bd).
Proof.
  induction ports as [|port rest IH]; intros w Hknown.
  - exists w. cbn. repeat split; lia.
  - cbn [forallb] in Hknown. apply andb_prop in Hknown as [Hport Hrest].
    destruct (known_port_case port Hport) as (g & Hg & Hbd).
    destruct (serial_device_create_runs port g w Hg)
      as (w1 & E1 & T1 & Gac & Gbd & _).
    cbn [bring_up]. rewrite (bind_Ret _ _ _ _ _ E1).
    destruct (IH w1 Hrest) as (w' & E' & Cac & Cbd & Fac & Fbd).
    exists w'. split; [exact E'|].
    rewrite Cac, Cbd, Fac, Fbd, Gac, Gbd, T1.
    rewrite !count_if_app. cbn [existsb]. rewrite Hbd.
    unfold installs.
    destruct (on_line_ac port); cbn [negb andb orb];
      destruct (globals w G_have_installed_ac =? 0) eqn:Eac;
      destruct (globals w G_have_installed_bd =? 0) eqn:Ebd;
      destruct (existsb on_line_ac rest), (existsb on_line_bd rest);
      cbn; rewrite ?Eac, ?Ebd; cbn; repeat split; lia.
Qed.

End BringUp.

(** C7.  Starting with both one-time flags clear and no registration
    made, every sequence of [serial_device_create] calls on the four
    ports, in any order and with any repetition, completes with exactly
    one [irq_install_handler] call for IRQ 4 if it brings up a port of
    that line (0x3F8 or 0x3E8) and none otherwise, and likewise for IRQ
    3 (0x2F8, 0x2E8); the line's flag is set exactly when its
    registration has been made. *)
Theorem irq_handler_installed_once
    {H : Type} `{Hardware H} (ports : list Z) (w : world H) :
  forallb known_port ports = true ->
  globals w G_have_installed_ac = 0 ->
  globals w G_have_installed_bd = 0 ->
  count_if (is_install SERIAL_IRQ_AC) (trace w) = 0%nat ->
  count_if (is_install SERIAL_IRQ_BD) (trace w) = 0%nat ->
  exists w',
    bring_up ports w = Ret tt w' /\
    count_if (is_install SERIAL_IRQ_AC) (trace w') =
      (if existsb on_line_ac ports then 1%nat else 0%nat) /\
    count_if (is_install SERIAL_IRQ_BD) (trace w') =
      (if existsb on_line_bd ports then 1%nat else 0%nat) /\
    globals w' G_have_installed_ac = (if existsb on_line_ac ports then 1 else 0) /\
    globals w' G_have_installed_bd = (if existsb on_line_bd ports then 1 else 0).
Proof.
  intros Hknown Fac Fbd Cac Cbd.
  destruct (bring_up_runs ports w Hknown) as (w' & E & Cac' & Cbd' & Fac' & Fbd').
  exists w'. split; [exact E|].
  rewrite Cac', Cbd', Fac', Fbd', Fac, Fbd, Cac, Cbd. cbn.
  rewrite !andb_true_r.
  destruct (existsb on_line_ac ports), (existsb on_line_bd ports); auto.
Qed.

Lemma irq_handler_installed_once_witness :
  exists w',
    bring_up [SERIAL_PORT_C; SERIAL_PORT_A; SERIAL_PORT_C]
             (boot_world (quiet_pc 0 false)) = Ret tt w' /\
    count_if (is_install SERIAL_IRQ_AC) (trace w') = 1%nat /\
    count_if (is_install SERIAL_IRQ_BD) (trace w') = 0%nat.
Proof.
  destruct (irq_handler_installed_once
              [SERIAL_PORT_C; SERIAL_PORT_A; SERIAL_PORT_C]
              (boot_world (quiet_pc 0 false)))
    as (w' & Hrun & Hac & Hbd & _); try reflexivity.
  exists w'. split; [exact Hrun|]. split; [exact Hac|exact Hbd].
Defined.

(** ** serial.c: the Worker *)

Section Worker.
Context {H : Type} `{Hardware H}.

Lemma quiet_refl (w : world H) : quiet w w.
Proof. repeat split. Qed.

Lemma quiet_trans (w1 w2 w3 : world H) : quiet w1 w2 -> quiet w2 w3 -> quiet w1 w3.
Proof.
  unfold quiet. intros (A1&A2&A3&A4&A5&A6&A7) (B1&B2&B3&B4&B5&B6&B7).
  repeat split; congruence.
Qed.

Lemma endpoint_quiet (w w' : world H) port : quiet w w' -> endpoint w' port = endpoint w port.
Proof. intros (G & _). unfold endpoint. now rewrite G. Qed.


Lemma serial_rcvd_runs dev (w : world H) :
  exists w1,
    serial_rcvd dev w = Ret (Z.land (lsr dev (hw w)) 1) w1 /\
    trace w1 = trace w ++ [EvInportb (wrap16 (dev + 5)) (lsr dev (hw w))] /\
    hw w1 = snd (inportb_hw (wrap16 (dev + 5)) (hw w)) /\
    quiet w w1.
Proof. eexists. split; [reflexivity|]. repeat split. Qed.

Lemma serial_recv_eq fuel dev :
  serial_recv (H:=H) fuel dev =
  match fuel with
  | O => spin
  | S fuel' =>
      r <- serial_rcvd dev;;
      if r =? 0 then switch_task 1;; serial_recv fuel' dev
      else v <- inportb dev;; ret (to_char v)
  end.
Proof. destruct fuel; reflexivity. Qed.

Lemma drain_event_lsr port pty v : drain_event port pty (EvInportb (wrap16 (port + 5)) v) = true.
Proof. cbn. rewrite Z.eqb_refl. apply orb_true_r. Qed.

Lemma drain_event_data port pty v : drain_event port pty (EvInportb (wrap16 port) v) = true.
Proof. cbn. now rewrite Z.eqb_refl. Qed.

(** Whatever the fuel and however it ends, [serial_recv] only touches
    its device and the scheduler. *)
Lemma serial_recv_confined fuel : forall dev pty (w : world H),
  quiet w (final (serial_recv fuel dev w)) /\
  exists l,
    trace (final (serial_recv fuel dev w)) = trace w ++ l /\
    forallb (drain_event dev pty) l = true /\
    count_if is_tty_input l = 0%nat.
Proof.
  induction fuel as [|fuel IH]; intros dev pty w.
  - cbn. split; [apply quiet_refl|]. exists []. now rewrite app_nil_r.
  - rewrite serial_recv_eq.
    destruct (serial_rcvd_runs dev w) as (w1 & E1 & T1 & _ & Q1).
    rewrite (bind_Ret _ _ _ _ _ E1).
    destruct (Z.land (lsr dev (hw w)) 1 =? 0).
    + set (w2 := emit (EvSwitchTask 1) (with_hw w1 (yield_hw (hw w1)))).
      rewrite (bind_Ret _ _ w1 tt w2) by reflexivity.
      destruct (IH dev pty w2) as (Q & l & T & F & C).
      split.
      * eapply quiet_trans; [|exact Q]. eapply quiet_trans; [exact Q1|]. repeat split.
      * exists (EvInportb (wrap16 (dev + 5)) (lsr dev (hw w)) :: EvSwitchTask 1 :: l).
        rewrite T. subst w2. cbn [trace emit with_trace with_hw]. rewrite T1.
        rewrite <- !app_assoc. split; [reflexivity|].
        split.
        -- cbn [forallb]. rewrite drain_event_lsr, F. reflexivity.
        -- exact C.
    + set (v := wrap8 (fst (inportb_hw (wrap16 dev) (hw w1)))).
      set (w2 := emit (EvInportb (wrap16 dev) v)
                      (with_hw w1 (snd (inportb_hw (wrap16 dev) (hw w1))))).
      rewrite (bind_Ret _ _ w1 v w2) by reflexivity.
      cbn [ret final].
      split.
      * eapply quiet_trans; [exact Q1|]. repeat split.
      * eexists [_; _]. subst w2. cbn [trace emit with_trace with_hw]. rewrite T1.
        rewrite <- !app_assoc. split; [reflexivity|].
        split; [|reflexivity].
        cbn [forallb]. now rewrite drain_event_lsr, drain_event_data.
Qed.

Lemma process_serial_drain_eq fuel port :
  process_serial_drain (H:=H) fuel port =
  match fuel with
  | O => spin
  | S fuel' =>
      ch <- serial_recv fuel port;;
      g <- pty_for_port port;;
      pty <- get_global g;;
      tty_input_process pty ch;;
      next <- serial_rcvd port;;
      if next =? 0 then ret tt
      else switch_task 1;; process_serial_drain fuel' port
  end.
Proof. destruct fuel; reflexivity. Qed.

Lemma forallb_app_intro {A} (f : A -> bool) l1 l2 :
  forallb f l1 = true -> forallb f l2 = true -> forallb f (l1 ++ l2) = true.
Proof. intros H1 H2. rewrite forallb_app. now rewrite H1, H2. Qed.

Lemma process_serial_drain_confined fuel : forall port (w : world H),
  quiet w (final (process_serial_drain fuel port w)) /\
  exists l,
    trace (final (process_serial_drain fuel port w)) = trace w ++ l /\
    forallb (drain_event port (endpoint w port)) l = true /\
    (returned (process_serial_drain fuel port w) = true ->
     (exists l' s, l = l' ++ [EvInportb (wrap16 (port + 5)) s] /\
                   Z.land s 1 = 0) /\
     (1 <= count_if is_tty_input l)%nat).
Proof.
  induction fuel as [|fuel IH]; intros port w.
  - cbn. split; [apply quiet_refl|]. exists []. rewrite app_nil_r.
    repeat split; discriminate.
  - rewrite process_serial_drain_eq.
    destruct (serial_recv_confined (S fuel) port (endpoint w port) w)
      as (Q0 & l0 & T0 & F0 & _).
    destruct (serial_recv (S fuel) port w) as [ch w1|w1|w1|w1] eqn:E0;
      [rewrite (bind_Ret _ _ _ _ _ E0)
      | match goal with
        | |- context [bind ?m ?k w] =>
            destruct (bind_not_returned m k w) as [R Fi];
            [rewrite E0; reflexivity|]; rewrite R, Fi, E0
        end ..];
      cbn [final returned] in *;
      try (split; [exact Q0|]; exists l0; repeat split; auto; discriminate).
    unfold pty_for_port. unfold endpoint in *.
    destruct (pty_for_port_case port) as [g|] eqn:Hg.
    2:{ cbn [bind undefined final returned]. split; [exact Q0|].
        exists l0. repeat split; auto; discriminate. }
    rewrite (bind_Ret _ _ w1 g w1) by reflexivity.
    rewrite (bind_Ret _ _ w1 (globals w1 g) w1) by reflexivity.
    set (tty := EvTtyInputProcess (globals w1 g) (wrap8 ch)).
    rewrite (bind_Ret _ _ w1 tt (emit tty w1)) by reflexivity.
    destruct (serial_rcvd_runs port (emit tty w1)) as (w3 & E3 & T3 & _ & Q3).
    rewrite (bind_Ret _ _ _ _ _ E3).
    set (s := lsr port (hw (emit tty w1))) in *.
    assert (Q13 : quiet w w3).
    { eapply quiet_trans; [exact Q0|]. eapply quiet_trans; [|exact Q3]. repeat split. }
    assert (Ftty : drain_event port (Some (globals w g)) tty = true).
    { subst tty. cbn. destruct Q0 as (-> & _). apply Z.eqb_refl. }
    assert (T13 : trace w3 = trace w ++ l0 ++ [tty; EvInportb (wrap16 (port + 5)) s]).
    { rewrite T3. cbn [trace emit with_trace]. rewrite T0.
      rewrite <- !app_assoc. reflexivity. }
    assert (C13 : (1 <= count_if is_tty_input (l0 ++ [tty; EvInportb (wrap16 (port + 5)) s]))%nat).
    { rewrite count_if_app. subst tty. cbn. lia. }
    destruct (Z.eqb_spec (Z.land s 1) 0) as [Es|Es].
    + cbn [ret final returned]. split; [exact Q13|].
      exists (l0 ++ [tty; EvInportb (wrap16 (port + 5)) s]).
      split; [exact T13|]. split.
      * apply forallb_app_intro; [exact F0|]. cbn [forallb].
        now rewrite Ftty, drain_event_lsr.
      * intros _. split; [|exact C13].
        exists (l0 ++ [tty]), s. rewrite <- app_assoc. split; [reflexivity|exact Es].
    + set (w4 := emit (EvSwitchTask 1) (with_hw w3 (yield_hw (hw w3)))).
      rewrite (bind_Ret _ _ w3 tt w4) by reflexivity.
      assert (Q34 : quiet w3 w4) by (repeat split).
      destruct (IH port w4) as (Q & l & T & F & R).
      assert (Q14 : quiet w w4) by (eapply quiet_trans; eauto).
      split; [eapply quiet_trans; eauto|].
      exists ((l0 ++ [tty; EvInportb (wrap16 (port + 5)) s]) ++ EvSwitchTask 1 :: l).
      split.
      { rewrite T. subst w4. cbn [trace emit with_trace with_hw]. rewrite T13.
        rewrite <- !app_assoc. reflexivity. }
      split.
      { apply forallb_app_intro.
        - apply forallb_app_intro; [exact F0|]. cbn [forallb].
          now rewrite Ftty, drain_event_lsr.
        - cbn [forallb]. cbn [drain_event]. rewrite Z.eqb_refl. cbn [andb].
          destruct Q14 as (G14 & _). unfold endpoint in F. rewrite Hg, G14 in F.
          exact F. }
      intros Hret. destruct (R Hret) as ((l' & s' & El & Es') & C).
      split.
      * exists ((l0 ++ [tty; EvInportb (wrap16 (port + 5)) s]) ++ EvSwitchTask 1 :: l'), s'.
        rewrite El. rewrite <- !app_assoc. split; [reflexivity|exact Es'].
      * rewrite count_if_app. lia.
Qed.



(** On a machine at rest [serial_recv] keeps yielding for ever and
    leaves the devices as they are. *)
Lemma serial_recv_starved fuel : forall dev (w : world H),
  at_rest dev (hw w) ->
  returned (serial_recv fuel dev w) = false /\
  hw (final (serial_recv fuel dev w)) = hw w.
Proof.
  induction fuel as [|fuel IH]; intros dev w (Hs & Hh & Hy); [now split|].
  rewrite serial_recv_eq.
  destruct (serial_rcvd_runs dev w) as (w1 & E1 & _ & H1 & _).
  rewrite (bind_Ret _ _ _ _ _ E1). rewrite Hs. cbn [Z.eqb].
  set (w2 := emit (EvSwitchTask 1) (with_hw w1 (yield_hw (hw w1)))).
  rewrite (bind_Ret _ _ w1 tt w2) by reflexivity.
  assert (E : hw w2 = hw w).
  { subst w2. cbn [hw emit with_trace with_hw]. now rewrite H1, Hh, Hy. }
  destruct (IH dev w2) as (R & F); [now rewrite E|].
  split; [exact R|]. now rewrite F.
Qed.

Lemma process_serial_wake_eq fuel base (w : world H) :
  process_serial_wake fuel base w =
  process_serial_drain fuel
    (if Z.land (wrap8 (fst (inportb_hw (wrap16 (base + 1)) (hw w)))) 1 =? 0
     then base - 0x100 else base)
    (emit (EvInportb (wrap16 (base + 1))
                     (wrap8 (fst (inportb_hw (wrap16 (base + 1)) (hw w)))))
          (with_hw w (snd (inportb_hw (wrap16 (base + 1)) (hw w))))).
Proof. reflexivity. Qed.

Lemma process_serial_resume_starved fuel base argp (w : world H) :
  Z.land (wrap8 (fst (inportb_hw (wrap16 (base + 1)) (hw w)))) 1 <> 0 ->
  at_rest base (snd (inportb_hw (wrap16 (base + 1)) (hw w))) ->
  returned (process_serial_resume fuel base argp w) = false /\
  hw (final (process_serial_resume fuel base argp w)) =
    snd (inportb_hw (wrap16 (base + 1)) (hw w)) /\
  count_if is_tty_input (trace (final (process_serial_resume fuel base argp w))) =
    count_if is_tty_input (trace w) /\
  quiet w (final (process_serial_resume fuel base argp w)).
Proof.
  intros Hbit Hstarved. unfold process_serial_resume.
  assert (D : returned (process_serial_wake fuel base w) = false /\
              hw (final (process_serial_wake fuel base w)) =
                snd (inportb_hw (wrap16 (base + 1)) (hw w)) /\
              count_if is_tty_input (trace (final (process_serial_wake fuel base w))) =
                count_if is_tty_input (trace w) /\
              quiet w (final (process_serial_wake fuel base w))).
  { rewrite process_serial_wake_eq.
    destruct (Z.eqb_spec (Z.land (wrap8 (fst (inportb_hw (wrap16 (base + 1)) (hw w)))) 1) 0)
      as [E|_]; [contradiction|].
    set (w1 := emit _ _).
    rewrite process_serial_drain_eq. destruct fuel as [|fuel].
    - cbn. repeat split. subst w1. unfold count_if. cbn [trace emit with_trace with_hw].
      rewrite List.filter_app, length_app. cbn. lia.
    - destruct (serial_recv_starved (S fuel) base w1 Hstarved) as (R & Fh).
      destruct (serial_recv_confined (S fuel) base None w1) as (Q & l & T & _ & C).
      match goal with
      | |- context [bind ?m ?k w1] =>
          destruct (bind_not_returned m k w1 R) as [R' Fi]; rewrite R', Fi
      end.
      split; [reflexivity|]. split; [exact Fh|]. split.
      + rewrite T, count_if_app, C. subst w1. cbn [trace emit with_trace with_hw].
        rewrite count_if_app. cbn. lia.
      + eapply quiet_trans; [|exact Q]. repeat split. }
  destruct D as (R & Hh & C & Q).
  destruct (bind_not_returned (process_serial_wake fuel base)
              (fun _ => sleep_on argp) w R) as [R' Fi].
  rewrite R', Fi. auto.
Qed.


Lemma sleep_on_suspends argp (w : world H) :
  exists w',
    sleep_on argp w = Ret tt w' /\
    trace w' = trace w ++ [EvSleepOn argp] /\
    hw w' = hw w /\
    suspended_on w' (current w) argp = true.
Proof.
  eexists. split; [reflexivity|]. split; [reflexivity|]. split; [reflexivity|].
  unfold suspended_on, waiters. cbn [queues emit with_trace with_queues with_runnable].
  rewrite lookup_insert_eq. cbn [default from_option id].
  rewrite existsb_app. cbn. rewrite Z.eqb_refl. apply orb_true_r.
Qed.

End Worker.




(** The Worker of IRQ 4, on any hardware and with any fuel, reads no
    register of the UART at 0x3E8 in a pass: the two ports it can
    select are 0x3F8 and 0x3F8 - 0x100 = 0x2F8. *)
Lemma worker_ac_never_reads_port_c
    {H : Type} `{Hardware H} (fuel : nat) (w : world H) :
  exists l,
    trace (final (process_serial_wake fuel SERIAL_PORT_A w)) = trace w ++ l /\
    forallb (fun e => negb (reads_uart SERIAL_PORT_C e)) l = true.
Proof.
  rewrite process_serial_wake_eq.
  set (v := wrap8 (fst (inportb_hw (wrap16 (SERIAL_PORT_A + 1)) (hw w)))).
  set (w1 := emit _ _).
  set (port := if Z.land v 1 =? 0 then SERIAL_PORT_A - 256 else SERIAL_PORT_A).
  destruct (process_serial_drain_confined fuel port w1) as (_ & l & T & F & _).
  exists (EvInportb (wrap16 (SERIAL_PORT_A + 1)) v :: l).
  split.
  { rewrite T. subst w1. cbn [trace emit with_trace with_hw].
    now rewrite <- app_assoc. }
  cbn [forallb reads_uart negb andb].
  replace ((SERIAL_PORT_C <=? wrap16 (SERIAL_PORT_A + 1))
           && (wrap16 (SERIAL_PORT_A + 1) <? SERIAL_PORT_C + 8)) with false
    by reflexivity.
  cbn [negb andb]. clear T.
  revert F. generalize (endpoint w1 port). intros ep F.
  induction l as [|e l IH]; [reflexivity|].
  cbn [forallb] in *. apply andb_prop in F as [Fe Fl].
  rewrite (IH Fl), andb_true_r. clear IH Fl.
  destruct e; try reflexivity. cbn [drain_event reads_uart] in *.
  subst port. destruct (Z.land v 1 =? 0);
    apply orb_prop in Fe as [Fe|Fe]; apply Z.eqb_eq in Fe; subst; reflexivity.
Qed.

(** ** The test bench *)

Lemma bench_boot_facts :
  match bench_boot (boot_world (quiet_pc 0 false)) with
  | Ret bases w =>
      bases = (SERIAL_PORT_A, SERIAL_PORT_B) /\
      hw w = booted_pc /\
      count_if is_tty_input (trace w) = 0%nat /\
      suspended_on w (globals w G_serial_ac_handler)
                     (globals w G_sem_serial_ac) = true /\
      suspended_on w (globals w G_serial_bd_handler)
                     (globals w G_sem_serial_bd) = true
  | _ => False
  end.
Proof. vm_compute. repeat split. Qed.

(** A byte on the port at 0x3F8 does reach its endpoint, once, and the
    Worker goes back to Suspended. *)
Lemma byte_on_port_a_delivered (byte : Z) (fuel : nat) :
  match bench_one_byte_on_a byte (S fuel) (boot_world (quiet_pc 0 false)) with
  | Ret _ w' =>
      List.filter is_tty_input (trace w') =
        [EvTtyInputProcess (globals w' G_serial_port_pty_a) (wrap8 (to_char (wrap8 byte)))] /\
      rx (com1 (hw w')) = [] /\
      suspended_on w' (globals w' G_serial_ac_handler)
                      (globals w' G_sem_serial_ac) = true
  | _ => False
  end.
Proof. vm_compute. repeat split. Qed.

(** The output path does address the port at 0x3E8: a byte written
    through its endpoint is sent by that UART. *)
Lemma write_to_port_c_sent (byte : Z) (fuel : nat) :
  match bench_write_to_c byte (S fuel) (boot_world (quiet_pc 0 false)) with
  | Ret _ w' =>
      tx (com3 (hw w')) = [wrap8 byte] /\
      tx (com1 (hw w')) = [] /\ tx (com2 (hw w')) = [] /\ tx (com4 (hw w')) = []
  | _ => False
  end.
Proof. vm_compute. repeat split. Qed.

(** C1 fails on the code.  On the test bench, with all four ports
    brought up and both Workers suspended, a byte arrives on the port at
    0x3E8 and IRQ 4 fires: the handler wakes the Worker, which reads
    the interrupt enable register of 0x3F8 (bit 0 set, as [serial_enable]
    left it), selects 0x3F8 and polls that port, which has no data.
    Whatever the fuel, the pass has not returned, [tty_input_process]
    has been called on no endpoint at all, the byte is still in the
    receive FIFO of 0x3E8, and the Worker is not back on its queue. *)
Theorem byte_on_port_c_never_delivered (byte : Z) (fuel : nat) :
  let o := bench_one_byte_on_c byte fuel (boot_world (quiet_pc 0 false)) in
  returned o = false /\
  count_if is_tty_input (trace (final o)) = 0%nat /\
  rx (com3 (hw (final o))) = [byte] /\
  suspended_on (final o) (globals (final o) G_serial_ac_handler)
               (globals (final o) G_sem_serial_ac) = false.
Proof.
  cbv zeta. unfold bench_one_byte_on_c.
  pose proof bench_boot_facts as Hboot.
  destruct (bench_boot (boot_world (quiet_pc 0 false))) as [bases wb| | |] eqn:Eb;
    try contradiction.
  destruct Hboot as (-> & Hhw & Htty & Hsus & _).
  rewrite (bind_Ret _ _ _ _ _ Eb). cbn [fst].
  set (w2 := with_hw wb (receive COM3 byte (hw wb))).
  rewrite (bind_Ret _ _ wb tt w2) by reflexivity.
  unfold fire_irq_ac.
  destruct (ack_then_wake SERIAL_IRQ_AC (globals w2 G_sem_serial_ac) w2)
    as (w3 & E3 & T3 & H3 & G3 & _ & _ & _ & C3 & Q3 & Qo & R3).
  rewrite (bind_Ret _ _ w2 1 w3) by exact E3.
  rewrite (bind_Ret _ _ w3 (globals w3 G_serial_ac_handler) w3) by reflexivity.
  rewrite (bind_Ret _ _ w3 (globals w3 G_sem_serial_ac) w3) by reflexivity.
  unfold run_as.
  set (w4 := with_current w3 (globals w3 G_serial_ac_handler)).
  assert (H4 : hw w4 = receive COM3 byte booted_pc).
  { subst w4 w2. cbn [hw with_current]. rewrite H3. cbn [hw with_hw].
    now rewrite Hhw. }
  destruct (process_serial_resume_starved fuel SERIAL_PORT_A
              (globals w3 G_sem_serial_ac) w4) as (R & Hh & C & Q).
  { rewrite H4. vm_compute. discriminate. }
  { rewrite H4. vm_compute. repeat split. }
  split; [exact R|]. split.
  { rewrite C. subst w4. cbn [trace with_current]. rewrite T3.
    rewrite count_if_app. subst w2. cbn [trace with_hw]. rewrite Htty.
    reflexivity. }
  split.
  { rewrite Hh, H4. vm_compute. reflexivity. }
  destruct Q as (Qg & Qq & _). unfold suspended_on, waiters.
  rewrite Qg, Qq. subst w4. cbn [globals queues with_current].
  rewrite G3. rewrite Q3. reflexivity.
Qed.

(** With a byte pending on 0x3F8 and another on 0x3E8, one interrupt
    and one wakeup make the Worker forward the byte of 0x3F8 and go back
    to Suspended, whatever fuel it is given beyond the first unit. *)
Lemma both_pending_any_fuel (fuel : nat) :
  match bench_both_pending 0x41 0x42 (S fuel)
                           (boot_world (quiet_pc 0 false)) with
  | Ret _ w' =>
      suspended_on w' (globals w' G_serial_ac_handler)
                      (globals w' G_sem_serial_ac) = true /\
      List.filter is_tty_input (trace w') =
        [EvTtyInputProcess (globals w' G_serial_port_pty_a) 0x41] /\
      rx (com3 (hw w')) = [0x42]
  | _ => False
  end.
Proof. vm_compute. repeat split. Qed.


(** C10 fails on the code.  Whenever the Worker of IRQ 3 wakes to find
    bit 0 clear in the register at 0x2F9 and bit 0 set in the one at
    0x1FD, it selects port 0x2F8 - 0x100 = 0x1F8, which is none of the
    four ports, reads a byte from it and calls [pty_for_port] with it:
    the pass ends in [__builtin_unreachable()]. *)
Theorem worker_bd_runs_into_unreachable
    {H : Type} `{Hardware H} (fuel : nat) (w : world H) :
  Z.land (wrap8 (fst (inportb_hw (wrap16 (SERIAL_PORT_B + 1)) (hw w)))) 1 = 0 ->
  Z.land (lsr (SERIAL_PORT_B - 0x100)
              (snd (inportb_hw (wrap16 (SERIAL_PORT_B + 1)) (hw w)))) 1 <> 0 ->
  exists w' v,
    process_serial_wake (S fuel) SERIAL_PORT_B w = Undefined w' /\
    last (trace w') = Some (EvInportb (SERIAL_PORT_B - 0x100) v) /\
    known_port (SERIAL_PORT_B - 0x100) = false /\
    pty_for_port_case (SERIAL_PORT_B - 0x100) = None.
Proof.
  intros Hier Hlsr. rewrite process_serial_wake_eq, Hier. cbn [Z.eqb].
  set (w1 := emit _ _).
  rewrite process_serial_drain_eq, serial_recv_eq.
  destruct (serial_rcvd_runs (SERIAL_PORT_B - 256) w1) as (w2 & E2 & T2 & H2 & _).
  unfold bind at 1. rewrite (bind_Ret _ _ _ _ _ E2).
  assert (Ehw : hw w1 = snd (inportb_hw (wrap16 (SERIAL_PORT_B + 1)) (hw w)))
    by reflexivity.
  rewrite Ehw.
  destruct (Z.eqb_spec
              (Z.land (lsr (SERIAL_PORT_B - 256)
                           (snd (inportb_hw (wrap16 (SERIAL_PORT_B + 1)) (hw w)))) 1)
              0) as [E|_]; [contradiction|].
  eexists _, _. split; [reflexivity|].
  cbn [trace emit with_trace with_hw]. split; [apply last_snoc|].
  split; reflexivity.
Qed.

Lemma worker_bd_runs_into_unreachable_witness :
  exists w' v,
    process_serial_wake 1 SERIAL_PORT_B
      (boot_world (poke_ier COM2 0 (quiet_pc 0 false))) = Undefined w' /\
    last (trace w') = Some (EvInportb 0x1F8 v).
Proof.
  destruct (worker_bd_runs_into_unreachable 0
              (boot_world (poke_ier COM2 0 (quiet_pc 0 false))))
    as (w' & v & Hrun & Hlast & _).
  - reflexivity.
  - vm_compute. discriminate.
  - exists w', v. split; [exact Hrun|exact Hlast].
Defined.

(** The same on the booted test bench: the interrupt enable register of
    0x2F8 is cleared from outside, a byte arrives on 0x2E8, IRQ 3 fires. *)
Lemma bench_bd_ier_clear_undefined (byte : Z) (fuel : nat) :
  match bench_bd_ier_clear byte (S fuel) (boot_world (quiet_pc 0 false)) with
  | Undefined w' =>
      last (trace w') = Some (EvInportb 0x1F8 0xFF) /\
      count_if is_tty_input (trace w') = 0%nat /\
      rx (com4 (hw w')) = [byte]
  | _ => False
  end.
Proof. vm_compute. repeat split. Qed.

(* ===================================================================== *)
(** * Part III: further properties                                       *)
(* ===================================================================== *)

(** ** Further properties: the accessors *)

Lemma to_long_signed v : - 2 ^ 63 <= v < 2 ^ 63 -> to_long (wrap64 v) = v.
Proof.
  intros Hv. rewrite to_long_wrap64. unfold to_long, wrap64.
  destruct (Z_lt_le_dec v 0).
  - rewrite <- (Z.mod_add v 1) by lia. rewrite Z.mod_small by lia.
    destruct (Z.ltb_spec (v + 1 * 2 ^ 64) (2 ^ 63)); lia.
  - rewrite Z.mod_small by lia.
    destruct (Z.ltb_spec v (2 ^ 63)); lia.
Qed.

(** X1.  A value stored with [arch_syscall_return] is what
    [arch_syscall_number] reads back, the two sharing rax, while the
    five argument accessors, the stack pointer and the instruction
    pointer read what they read before. *)
Theorem arch_syscall_return_then_read (r : regs) (v : Z) :
  - 2 ^ 63 <= v < 2 ^ 63 ->
  let r' := snd (arch_syscall_return v r) in
  fst (arch_syscall_number r') = v /\
  fst (arch_syscall_arg0 r') = fst (arch_syscall_arg0 r) /\
  fst (arch_syscall_arg1 r') = fst (arch_syscall_arg1 r) /\
  fst (arch_syscall_arg2 r') = fst (arch_syscall_arg2 r) /\
  fst (arch_syscall_arg3 r') = fst (arch_syscall_arg3 r) /\
  fst (arch_syscall_arg4 r') = fst (arch_syscall_arg4 r) /\
  fst (arch_stack_pointer r') = fst (arch_stack_pointer r) /\
  fst (arch_user_ip r') = fst (arch_user_ip r).
Proof.
  intros Hv. cbv zeta. cbn. rewrite to_long_wrap64.
  split; [now apply to_long_signed|]. repeat split.
Qed.

Lemma arch_syscall_return_then_read_witness :
  fst (arch_syscall_number (snd (arch_syscall_return (-38) zero_regs))) = -38.
Proof.
  apply (arch_syscall_return_then_read zero_regs (-38)). lia.
Defined.

(** ** Further properties: serial.c, the endpoint table *)

Lemma pty_for_port_table {H : Type} `{Hardware H} (port : Z) (w : world H) :
  match pty_for_port_case port with
  | Some g =>
      known_port port = true /\
      pty_for_port port w = Ret g w /\
      (forall other, pty_for_port_case other = Some g -> other = port) /\
      g <> G_sem_serial_ac /\ g <> G_sem_serial_bd /\
      g <> G_serial_ac_handler /\ g <> G_serial_bd_handler /\
      g <> G_have_installed_ac /\ g <> G_have_installed_bd
  | None =>
      known_port port = false /\ pty_for_port port w = Undefined w
  end.
Proof.
  unfold pty_for_port, known_port, serial_ports. cbn [existsb].
  unfold pty_for_port_case.
  destruct (Z.eqb_spec port SERIAL_PORT_A) as [->|HA];
  [|destruct (Z.eqb_spec port SERIAL_PORT_B) as [->|HB];
  [|destruct (Z.eqb_spec port SERIAL_PORT_C) as [->|HC];
  [|destruct (Z.eqb_spec port SERIAL_PORT_D) as [->|HD]]]];
    cbn [orb]; try (split; reflexivity).
  all: split; [reflexivity|]; split; [reflexivity|];
    split; [|repeat split; discriminate].
  all: intros other;
    destruct (Z.eqb_spec other SERIAL_PORT_A) as [->|];
    [reflexivity || discriminate|];
    destruct (Z.eqb_spec other SERIAL_PORT_B) as [->|];
    [reflexivity || discriminate|];
    destruct (Z.eqb_spec other SERIAL_PORT_C) as [->|];
    [reflexivity || discriminate|];
    destruct (Z.eqb_spec other SERIAL_PORT_D) as [->|];
    [reflexivity || discriminate|]; discriminate.
Qed.

(** X2.  [pty_for_port] returns a static exactly for the four port
    addresses, a different one for each, and leaves the kernel as it
    is; for every other port it runs into [__builtin_unreachable()]. *)
Theorem pty_for_port_cases {H : Type} `{Hardware H} (port : Z) (w : world H) :
  match pty_for_port_case port with
  | Some g =>
      known_port port = true /\
      pty_for_port port w = Ret g w /\
      (forall other, pty_for_port_case other = Some g -> other = port) /\
      g <> G_sem_serial_ac /\ g <> G_sem_serial_bd /\
      g <> G_serial_ac_handler /\ g <> G_serial_bd_handler /\
      g <> G_have_installed_ac /\ g <> G_have_installed_bd
  | None =>
      known_port port = false /\ pty_for_port port w = Undefined w
  end.
Proof. apply pty_for_port_table. Qed.

(** ** Further properties: serial.c, the polling primitives *)

Section Polling.
Context {H : Type} `{Hardware H}.

Lemma serial_send_eq fuel dev out :
  serial_send (H:=H) fuel dev out =
  match fuel with
  | O => spin
  | S fuel' =>
      e <- serial_transmit_empty dev;;
      if e =? 0 then switch_task 1;; serial_send fuel' dev out
      else outportb dev out
  end.
Proof. destruct fuel; reflexivity. Qed.

Lemma serial_transmit_empty_runs dev (w : world H) :
  exists w1,
    serial_transmit_empty dev w = Ret (Z.land (lsr dev (hw w)) 0x20) w1 /\
    trace w1 = trace w ++ [EvInportb (wrap16 (dev + 5)) (lsr dev (hw w))] /\
    hw w1 = snd (inportb_hw (wrap16 (dev + 5)) (hw w)) /\
    quiet w w1.
Proof. eexists. split; [reflexivity|]. repeat split. Qed.

Lemma count_yields_poll_trace k : forall dev (h : H),
  count_if is_yield (poll_trace k dev h) = k /\
  count_if is_port_io (poll_trace k dev h) = S k /\
  count_if is_tty_input (poll_trace k dev h) = 0%nat.
Proof.
  induction k as [|k IH]; intros dev h; [repeat split|].
  cbn [poll_trace].
  destruct (IH dev (yield_hw (snd (inportb_hw (wrap16 (dev + 5)) h))))
    as (Y & P & T).
  unfold count_if in *. cbn. rewrite Y, P, T. repeat split.
Qed.

Lemma serial_recv_ready k : forall fuel dev (w : world H),
  ready_at 1 k dev (hw w) = true -> (k < fuel)%nat ->
  exists w',
    serial_recv fuel dev w =
      Ret (to_char (wrap8 (fst (inportb_hw (wrap16 dev)
                                  (after_ready_poll k dev (hw w)))))) w' /\
    hw w' = snd (inportb_hw (wrap16 dev) (after_ready_poll k dev (hw w))) /\
    quiet w w' /\
    trace w' = trace w ++ poll_trace k dev (hw w) ++
      [EvInportb (wrap16 dev)
         (wrap8 (fst (inportb_hw (wrap16 dev) (after_ready_poll k dev (hw w)))))].
Proof.
  induction k as [|k IH]; intros fuel dev w Hready Hfuel;
    (destruct fuel as [|fuel]; [lia|]); rewrite serial_recv_eq;
    destruct (serial_rcvd_runs dev w) as (w1 & E1 & T1 & H1 & Q1);
    rewrite (bind_Ret _ _ _ _ _ E1); cbn [ready_at] in Hready.
  - destruct (Z.land (lsr dev (hw w)) 1 =? 0); [discriminate|].
    cbn [after_ready_poll poll_trace]. rewrite <- H1.
    eexists. split; [reflexivity|]. cbn [hw trace emit with_trace with_hw].
    split; [reflexivity|]. split.
    { eapply quiet_trans; [exact Q1|]. repeat split. }
    rewrite T1, <- app_assoc. reflexivity.
  - destruct (Z.land (lsr dev (hw w)) 1 =? 0); [|discriminate].
    cbn [andb] in Hready.
    set (w2 := emit (EvSwitchTask 1) (with_hw w1 (yield_hw (hw w1)))).
    rewrite (bind_Ret _ _ w1 tt w2) by reflexivity.
    assert (E2 : hw w2 = yield_hw (snd (inportb_hw (wrap16 (dev + 5)) (hw w)))).
    { subst w2. cbn [hw emit with_trace with_hw]. now rewrite H1. }
    destruct (IH fuel dev w2) as (w' & E & Hh & Q & T);
      [now rewrite E2|lia|].
    exists w'. rewrite E2 in *. cbn [after_ready_poll poll_trace].
    split; [exact E|]. split; [exact Hh|]. split.
    { eapply quiet_trans; [|exact Q]. eapply quiet_trans; [exact Q1|]. repeat split. }
    rewrite T. subst w2. cbn [trace emit with_trace with_hw]. rewrite T1.
    rewrite <- !app_assoc. reflexivity.
Qed.

Lemma serial_send_ready k : forall fuel dev out (w : world H),
  ready_at 0x20 k dev (hw w) = true -> (k < fuel)%nat ->
  exists w',
    serial_send fuel dev out w = Ret tt w' /\
    hw w' = outportb_hw (wrap16 dev) (wrap8 out) (after_ready_poll k dev (hw w)) /\
    quiet w w' /\
    trace w' = trace w ++ poll_trace k dev (hw w) ++
      [EvOutportb (wrap16 dev) (wrap8 out)].
Proof.
  induction k as [|k IH]; intros fuel dev out w Hready Hfuel;
    (destruct fuel as [|fuel]; [lia|]); rewrite serial_send_eq;
    destruct (serial_transmit_empty_runs dev w) as (w1 & E1 & T1 & H1 & Q1);
    rewrite (bind_Ret _ _ _ _ _ E1); cbn [ready_at] in Hready.
  - destruct (Z.land (lsr dev (hw w)) 32 =? 0); [discriminate|].
    cbn [after_ready_poll poll_trace]. rewrite <- H1.
    eexists. split; [reflexivity|]. cbn [hw trace emit with_trace with_hw].
    split; [reflexivity|]. split.
    { eapply quiet_trans; [exact Q1|]. repeat split. }
    rewrite T1, <- app_assoc. reflexivity.
  - destruct (Z.land (lsr dev (hw w)) 32 =? 0); [|discriminate].
    cbn [andb] in Hready.
    set (w2 := emit (EvSwitchTask 1) (with_hw w1 (yield_hw (hw w1)))).
    rewrite (bind_Ret _ _ w1 tt w2) by reflexivity.
    assert (E2 : hw w2 = yield_hw (snd (inportb_hw (wrap16 (dev + 5)) (hw w)))).
    { subst w2. cbn [hw emit with_trace with_hw]. now rewrite H1. }
    destruct (IH fuel dev out w2) as (w' & E & Hh & Q & T);
      [now rewrite E2|lia|].
    exists w'. rewrite E2 in *. cbn [after_ready_poll poll_trace].
    split; [exact E|]. split; [exact Hh|]. split.
    { eapply quiet_trans; [|exact Q]. eapply quiet_trans; [exact Q1|]. repeat split. }
    rewrite T. subst w2. cbn [trace emit with_trace with_hw]. rewrite T1.
    rewrite <- !app_assoc. reflexivity.
Qed.

End Polling.

(** X3.  Once the line-status register of [device] shows "data ready"
    (bit 0), at its poll number [k], [serial_recv] given fuel for more
    than [k] polls returns the byte then read from the data register,
    as a [char] that converts back to that byte; it has polled
    [k + 1] times, yielded after each of the [k] unsuccessful polls and
    done nothing else. *)
Theorem serial_recv_returns_byte
    {H : Type} `{Hardware H} (k fuel : nat) (device : Z) (w : world H) :
  ready_at 0x01 k device (hw w) = true ->
  (k < fuel)%nat ->
  exists ch w',
    serial_recv fuel device w = Ret ch w' /\
    wrap8 ch = wrap8 (fst (inportb_hw (wrap16 device)
                             (after_ready_poll k device (hw w)))) /\
    -128 <= ch < 128 /\
    hw w' = snd (inportb_hw (wrap16 device) (after_ready_poll k device (hw w))) /\
    quiet w w' /\
    trace w' = trace w ++ poll_trace k device (hw w) ++
                 [EvInportb (wrap16 device) (wrap8 ch)] /\
    count_if is_yield (poll_trace k device (hw w)) = k.
Proof.
  intros Hready Hfuel.
  destruct (serial_recv_ready k fuel device w Hready Hfuel)
    as (w' & E & Hh & Q & T).
  eexists _, w'. split; [exact E|].
  rewrite wrap8_to_char, wrap8_idem.
  split; [reflexivity|]. split.
  { unfold to_char. rewrite wrap8_idem.
    pose proof (wrap8_range (fst (inportb_hw (wrap16 device)
                                    (after_ready_poll k device (hw w))))).
    destruct (Z.ltb_spec (wrap8 (fst (inportb_hw (wrap16 device)
                 (after_ready_poll k device (hw w))))) 128); lia. }
  split; [exact Hh|]. split; [exact Q|]. split; [exact T|].
  apply count_yields_poll_trace.
Qed.

Lemma serial_recv_returns_byte_witness :
  exists ch w',
    serial_recv 4 SERIAL_PORT_A
      (boot_world (receive COM1 0xE9 (quiet_pc 0 false))) = Ret ch w' /\
    wrap8 ch = 0xE9 /\
    rx (com1 (hw w')) = [].
Proof.
  destruct (serial_recv_returns_byte 0 4 SERIAL_PORT_A
              (boot_world (receive COM1 0xE9 (quiet_pc 0 false))))
    as (ch & w' & E & Hch & Hr & Hh & _).
  - reflexivity.
  - lia.
  - exists ch, w'. split; [exact E|]. split; [exact Hch|].
    rewrite Hh. reflexivity.
Defined.

(** X4.  Once the line-status register of [device] shows "transmit buffer
    empty" (0x20), at its poll number [k], [serial_send] given fuel for
    more than [k] polls returns having written the byte to the data
    port of [device] exactly once, as its last action, after [k + 1]
    polls and [k] yields. *)
Theorem serial_send_writes_once
    {H : Type} `{Hardware H} (k fuel : nat) (device out : Z) (w : world H) :
  ready_at 0x20 k device (hw w) = true ->
  (k < fuel)%nat ->
  exists w',
    serial_send fuel device out w = Ret tt w' /\
    hw w' = outportb_hw (wrap16 device) (wrap8 out)
                        (after_ready_poll k device (hw w)) /\
    quiet w w' /\
    trace w' = trace w ++ poll_trace k device (hw w) ++
                 [EvOutportb (wrap16 device) (wrap8 out)] /\
    count_if is_yield (poll_trace k device (hw w)) = k /\
    count_if is_outportb (poll_trace k device (hw w)) = 0%nat.
Proof.
  intros Hready Hfuel.
  destruct (serial_send_ready k fuel device out w Hready Hfuel)
    as (w' & E & Hh & Q & T).
  exists w'. repeat split; try assumption; try apply Q.
  - apply count_yields_poll_trace.
  - clear. revert device. generalize (hw w). induction k as [|k IH]; intros h device;
      [reflexivity|]. cbn [poll_trace]. unfold count_if in *. cbn. apply IH.
Qed.

Lemma serial_send_writes_once_witness :
  exists w',
    serial_send 1 SERIAL_PORT_C 0x5A (boot_world (quiet_pc 0 false)) = Ret tt w' /\
    tx (com3 (hw w')) = [0x5A].
Proof.
  destruct (serial_send_writes_once 0 1 SERIAL_PORT_C 0x5A
              (boot_world (quiet_pc 0 false)))
    as (w' & E & Hh & _).
  - reflexivity.
  - lia.
  - exists w'. split; [exact E|]. rewrite Hh. reflexivity.
Defined.

Lemma wrap16_shift p d : 0 < d < 65536 -> wrap16 (p + d) <> wrap16 p.
Proof.
  intros Hd. unfold wrap16. change (2 ^ 16) with 65536.
  Z.to_euclidean_division_equations. lia.
Qed.

Lemma lsr_is_not_data port : (wrap16 (port + 5) =? wrap16 port) = false.
Proof. apply Z.eqb_neq, wrap16_shift. lia. Qed.

Section NoTimeout.
Context {H : Type} `{Hardware H}.

(** A bit that never shows is clear at the first poll and never shows
    from the state the poll and the yield lead to. *)
Lemma never_shows_step mask dev (h : H) :
  never_shows mask dev h ->
  Z.land (lsr dev h) mask = 0 /\
  never_shows mask dev (yield_hw (snd (inportb_hw (wrap16 (dev + 5)) h))).
Proof.
  intros Hn.
  assert (E : Z.land (lsr dev h) mask = 0).
  { specialize (Hn 0%nat). cbn [ready_at] in Hn.
    destruct (Z.eqb_spec (Z.land (lsr dev h) mask) 0); [assumption|discriminate]. }
  split; [exact E|]. intros k. specialize (Hn (S k)). cbn [ready_at] in Hn.
  rewrite E in Hn. exact Hn.
Qed.

(** A machine that neither the status read nor the yield changes, and
    whose status shows none of the bits now, never shows them. *)
Lemma frozen_never_shows mask dev (h : H) :
  Z.land (lsr dev h) mask = 0 ->
  snd (inportb_hw (wrap16 (dev + 5)) h) = h ->
  yield_hw h = h ->
  never_shows mask dev h.
Proof.
  intros Hs Hh Hy k. induction k as [|k IH]; cbn [ready_at].
  - now rewrite Hs.
  - now rewrite Hh, Hy, IH, andb_false_r.
Qed.

Lemma serial_recv_starved_trace fuel : forall dev (w : world H),
  never_ready dev (hw w) ->
  exists w',
    serial_recv fuel dev w = Spin w' /\
    hw w' = after_idle_polls fuel dev (hw w) /\
    quiet w w' /\
    trace w' = trace w ++ idle_polls fuel dev (hw w).
Proof.
  induction fuel as [|fuel IH]; intros dev w Hn.
  - exists w. cbn. rewrite app_nil_r. repeat split.
  - destruct (never_shows_step _ _ _ Hn) as (Hs & Hnext).
    rewrite serial_recv_eq.
    destruct (serial_rcvd_runs dev w) as (w1 & E1 & T1 & H1 & Q1).
    rewrite (bind_Ret _ _ _ _ _ E1). rewrite Hs. cbn [Z.eqb].
    set (w2 := emit (EvSwitchTask 1) (with_hw w1 (yield_hw (hw w1)))).
    rewrite (bind_Ret _ _ w1 tt w2) by reflexivity.
    assert (E : hw w2 = yield_hw (snd (inportb_hw (wrap16 (dev + 5)) (hw w)))).
    { subst w2. cbn [hw emit with_trace with_hw]. now rewrite H1. }
    destruct (IH dev w2) as (w' & E' & Hh' & Q' & T'); [now rewrite E|].
    exists w'. split; [exact E'|]. rewrite E in Hh', T'.
    split; [exact Hh'|]. split.
    { eapply quiet_trans; [|exact Q']. eapply quiet_trans; [exact Q1|].
      repeat split. }
    rewrite T'. subst w2. cbn [trace emit with_trace with_hw]. rewrite T1.
    cbn [idle_polls]. rewrite <- !app_assoc. reflexivity.
Qed.

Lemma serial_send_starved_trace fuel : forall dev out (w : world H),
  never_empty dev (hw w) ->
  exists w',
    serial_send fuel dev out w = Spin w' /\
    hw w' = after_idle_polls fuel dev (hw w) /\
    quiet w w' /\
    trace w' = trace w ++ idle_polls fuel dev (hw w).
Proof.
  induction fuel as [|fuel IH]; intros dev out w Hn.
  - exists w. cbn. rewrite app_nil_r. repeat split.
  - destruct (never_shows_step _ _ _ Hn) as (Hs & Hnext).
    rewrite serial_send_eq.
    destruct (serial_transmit_empty_runs dev w) as (w1 & E1 & T1 & H1 & Q1).
    rewrite (bind_Ret _ _ _ _ _ E1). rewrite Hs. cbn [Z.eqb].
    set (w2 := emit (EvSwitchTask 1) (with_hw w1 (yield_hw (hw w1)))).
    rewrite (bind_Ret _ _ w1 tt w2) by reflexivity.
    assert (E : hw w2 = yield_hw (snd (inportb_hw (wrap16 (dev + 5)) (hw w)))).
    { subst w2. cbn [hw emit with_trace with_hw]. now rewrite H1. }
    destruct (IH dev out w2) as (w' & E' & Hh' & Q' & T'); [now rewrite E|].
    exists w'. split; [exact E'|]. rewrite E in Hh', T'.
    split; [exact Hh'|]. split.
    { eapply quiet_trans; [|exact Q']. eapply quiet_trans; [exact Q1|].
      repeat split. }
    rewrite T'. subst w2. cbn [trace emit with_trace with_hw]. rewrite T1.
    cbn [idle_polls]. rewrite <- !app_assoc. reflexivity.
Qed.

Lemma idle_polls_counts n : forall dev (h : H),
  count_if is_yield (idle_polls n dev h) = n /\
  count_if is_port_io (idle_polls n dev h) = n /\
  count_if is_outportb (idle_polls n dev h) = 0%nat /\
  data_reads dev (idle_polls n dev h) = [].
Proof.
  unfold count_if.
  induction n as [|n IH]; intros dev h; [repeat split|].
  destruct (IH dev (yield_hw (snd (inportb_hw (wrap16 (dev + 5)) h))))
    as (IH1 & IH2 & IH3 & IH4).
  cbn [idle_polls]. cbn -[wrap16 Z.add idle_polls].
  rewrite lsr_is_not_data. cbn [app].
  rewrite IH1, IH2, IH3. repeat split. exact IH4.
Qed.

(** On the ticking machine no bit ever shows, from any state. *)
Lemma ticking_never_shows mask dev (n : nat) : never_shows mask dev n.
Proof.
  intros k. revert n. induction k as [|k IH]; intros n; cbn [ready_at].
  - reflexivity.
  - apply andb_false_iff. right. apply IH.
Qed.

End NoTimeout.

(** X5.  [serial_recv] has no timeout.  On a device whose line-status
    register never shows "data ready", however the state of the devices
    changes meanwhile, whatever fuel it is given it is still in its
    loop, having polled and yielded once per unit of fuel and never
    read the data register. *)
Theorem serial_recv_has_no_timeout
    {H : Type} `{Hardware H} (fuel : nat) (device : Z) (w : world H) :
  never_ready device (hw w) ->
  exists w',
    serial_recv fuel device w = Spin w' /\
    trace w' = trace w ++ idle_polls fuel device (hw w) /\
    hw w' = after_idle_polls fuel device (hw w) /\
    quiet w w' /\
    count_if is_yield (idle_polls fuel device (hw w)) = fuel /\
    count_if is_port_io (idle_polls fuel device (hw w)) = fuel /\
    data_reads device (idle_polls fuel device (hw w)) = [].
Proof.
  intros Hnever.
  destruct (serial_recv_starved_trace fuel device w Hnever)
    as (w' & E & Hh & Q & T).
  destruct (idle_polls_counts fuel device (hw w)) as (C1 & C2 & _ & C4).
  exists w'. repeat split; try assumption; apply Q.
Qed.

Lemma serial_recv_has_no_timeout_witness :
  exists w',
    serial_recv 3 SERIAL_PORT_B (boot_world 0%nat) = Spin w' /\
    length (trace w') = 6%nat /\ hw w' = 6%nat.
Proof.
  destruct (serial_recv_has_no_timeout 3 SERIAL_PORT_B (boot_world 0%nat))
    as (w' & E & T & Hh & _).
  - apply ticking_never_shows.
  - exists w'. split; [exact E|]. rewrite T, Hh. split; reflexivity.
Defined.

(** X6.  [serial_send] has no timeout either.  On a device whose
    transmit buffer never empties, however the state of the devices
    changes meanwhile, whatever fuel it is given it is still in its
    loop, having polled and yielded once per unit of fuel, and has
    written nothing to any port. *)
Theorem serial_send_has_no_timeout
    {H : Type} `{Hardware H} (fuel : nat) (device out : Z) (w : world H) :
  never_empty device (hw w) ->
  exists w',
    serial_send fuel device out w = Spin w' /\
    trace w' = trace w ++ idle_polls fuel device (hw w) /\
    hw w' = after_idle_polls fuel device (hw w) /\
    quiet w w' /\
    count_if is_yield (idle_polls fuel device (hw w)) = fuel /\
    count_if is_outportb (idle_polls fuel device (hw w)) = 0%nat.
Proof.
  intros Hnever.
  destruct (serial_send_starved_trace fuel device out w Hnever)
    as (w' & E & Hh & Q & T).
  destruct (idle_polls_counts fuel device (hw w)) as (C1 & _ & C3 & _).
  exists w'. repeat split; try assumption; apply Q.
Qed.

Lemma serial_send_has_no_timeout_witness :
  exists w',
    serial_send 5 SERIAL_PORT_A 0x41 (boot_world 0%nat) = Spin w' /\
    count_if is_outportb (trace w') = 0%nat /\ hw w' = 10%nat.
Proof.
  destruct (serial_send_has_no_timeout 5 SERIAL_PORT_A 0x41 (boot_world 0%nat))
    as (w' & E & T & Hh & _).
  - apply ticking_never_shows.
  - exists w'. split; [exact E|]. rewrite T, Hh. split; reflexivity.
Defined.

(** ** Further properties: serial.c, what a pass of the Worker forwards *)

Section Forwarding.
Context {H : Type} `{Hardware H}.

Lemma bind_Spin {A B} (m : M H A) (k : A -> M H B) w w' :
  m w = Spin w' -> bind m k w = Spin w'.
Proof. intros E. unfold bind. now rewrite E. Qed.

Lemma data_reads_app port l1 l2 :
  data_reads port (l1 ++ l2) = data_reads port l1 ++ data_reads port l2.
Proof. unfold data_reads. apply flat_map_app. Qed.

Lemma forwarded_app l1 l2 : forwarded (l1 ++ l2) = forwarded l1 ++ forwarded l2.
Proof. unfold forwarded. apply flat_map_app. Qed.

Lemma data_reads_lsr port s :
  data_reads port [EvInportb (wrap16 (port + 5)) s] = [].
Proof. cbn -[wrap16 Z.add]. now rewrite lsr_is_not_data. Qed.

Lemma data_reads_data port v :
  data_reads port [EvInportb (wrap16 port) v] = [v].
Proof. cbn -[wrap16]. now rewrite Z.eqb_refl. Qed.

(** [serial_recv] either is still polling, having read no data, or has
    returned the one byte it read. *)
Lemma serial_recv_reads fuel : forall dev (w : world H),
  exists l,
    trace (final (serial_recv fuel dev w)) = trace w ++ l /\
    forwarded l = [] /\
    ((exists ch w', serial_recv fuel dev w = Ret ch w' /\
                    data_reads dev l = [wrap8 ch]) \/
     (exists w', serial_recv fuel dev w = Spin w' /\ data_reads dev l = [])).
Proof.
  induction fuel as [|fuel IH]; intros dev w.
  - exists []. cbn. rewrite app_nil_r. split; [reflexivity|].
    split; [reflexivity|]. right. exists w. split; reflexivity.
  - rewrite serial_recv_eq.
    destruct (serial_rcvd_runs dev w) as (w1 & E1 & T1 & _ & _).
    rewrite (bind_Ret _ _ _ _ _ E1).
    destruct (Z.land (lsr dev (hw w)) 1 =? 0).
    + set (w2 := emit (EvSwitchTask 1) (with_hw w1 (yield_hw (hw w1)))).
      rewrite (bind_Ret _ _ w1 tt w2) by reflexivity.
      destruct (IH dev w2) as (l & T & F & D).
      exists (EvInportb (wrap16 (dev + 5)) (lsr dev (hw w)) :: EvSwitchTask 1 :: l).
      split.
      { rewrite T. subst w2. cbn [trace emit with_trace with_hw]. rewrite T1.
        now rewrite <- !app_assoc. }
      split; [exact F|].
      assert (Ed : data_reads dev
                (EvInportb (wrap16 (dev + 5)) (lsr dev (hw w)) :: EvSwitchTask 1 :: l)
              = data_reads dev l).
      { change (?a :: ?b :: l) with ([a] ++ [b] ++ l).
        rewrite !data_reads_app, data_reads_lsr. reflexivity. }
      rewrite Ed. exact D.
    + set (v := wrap8 (fst (inportb_hw (wrap16 dev) (hw w1)))).
      set (w2 := emit (EvInportb (wrap16 dev) v)
                      (with_hw w1 (snd (inportb_hw (wrap16 dev) (hw w1))))).
      rewrite (bind_Ret _ _ w1 v w2) by reflexivity.
      cbn [ret final].
      exists [EvInportb (wrap16 (dev + 5)) (lsr dev (hw w)); EvInportb (wrap16 dev) v].
      split.
      { subst w2. cbn [trace emit with_trace with_hw]. rewrite T1.
        now rewrite <- !app_assoc. }
      split; [reflexivity|]. left. exists (to_char v), w2.
      split; [reflexivity|].
      change [?a; ?b] with ([a] ++ [b]).
      rewrite data_reads_app, data_reads_lsr, data_reads_data.
      rewrite wrap8_to_char. subst v. now rewrite wrap8_idem.
Qed.

Lemma process_serial_drain_forwards fuel : forall port (w : world H),
  exists l,
    trace (final (process_serial_drain fuel port w)) = trace w ++ l /\
    match process_serial_drain fuel port w with
    | Undefined _ =>
        pty_for_port_case port = None /\
        exists b, data_reads port l = [b] /\ forwarded l = []
    | Reset _ => False
    | _ => data_reads port l = forwarded l
    end.
Proof.
  induction fuel as [|fuel IH]; intros port w.
  - exists []. cbn. now rewrite app_nil_r.
  - rewrite process_serial_drain_eq.
    destruct (serial_recv_reads (S fuel) port w) as (l0 & T0 & F0 & D0).
    destruct D0 as [(ch & w1 & E0 & D0)|(w1 & E0 & D0)].
    2:{ exists l0. rewrite (bind_Spin _ _ _ _ E0). rewrite E0 in T0.
        cbn [final] in *. split; [exact T0|]. now rewrite D0, F0. }
    rewrite (bind_Ret _ _ _ _ _ E0). rewrite E0 in T0. cbn [final] in T0.
    unfold pty_for_port.
    destruct (pty_for_port_case port) as [g|] eqn:Hg.
    2:{ exists l0. cbn [bind undefined final]. split; [exact T0|].
        split; [reflexivity|]. exists (wrap8 ch). now rewrite D0, F0. }
    rewrite (bind_Ret _ _ w1 g w1) by reflexivity.
    rewrite (bind_Ret _ _ w1 (globals w1 g) w1) by reflexivity.
    set (tty := EvTtyInputProcess (globals w1 g) (wrap8 ch)).
    rewrite (bind_Ret _ _ w1 tt (emit tty w1)) by reflexivity.
    destruct (serial_rcvd_runs port (emit tty w1)) as (w3 & E3 & T3 & _ & _).
    rewrite (bind_Ret _ _ _ _ _ E3).
    set (s := lsr port (hw (emit tty w1))) in *.
    set (l1 := l0 ++ [tty] ++ [EvInportb (wrap16 (port + 5)) s]).
    assert (T13 : trace w3 = trace w ++ l1).
    { rewrite T3. cbn [trace emit with_trace]. rewrite T0. subst l1.
      now rewrite <- !app_assoc. }
    assert (D1 : data_reads port l1 = [wrap8 ch]).
    { subst l1. rewrite !data_reads_app, D0, data_reads_lsr. reflexivity. }
    assert (F1 : forwarded l1 = [wrap8 ch]).
    { subst l1. rewrite !forwarded_app, F0. reflexivity. }
    destruct (Z.land s 1 =? 0).
    + exists l1. cbn [ret final]. split; [exact T13|]. now rewrite D1, F1.
    + set (w4 := emit (EvSwitchTask 1) (with_hw w3 (yield_hw (hw w3)))).
      rewrite (bind_Ret _ _ w3 tt w4) by reflexivity.
      destruct (IH port w4) as (l & T & R).
      exists (l1 ++ [EvSwitchTask 1] ++ l). split.
      { rewrite T. subst w4. cbn [trace emit with_trace with_hw]. rewrite T13.
        now rewrite <- !app_assoc. }
      rewrite !data_reads_app, !forwarded_app, D1, F1. cbn [data_reads forwarded flat_map app].
      destruct (process_serial_drain fuel port w4); try exact R.
      * now rewrite R.
      * now rewrite R.
      * destruct R as (R & _). congruence.
Qed.

End Forwarding.

(** X7.  In a pass of the Worker nothing is lost, made up, repeated or
    reordered between the selected port and the line discipline.  With
    any hardware and any fuel, the bytes given to [tty_input_process]
    during the pass are, in order, exactly the bytes read from the data
    register of the selected port; the one exception is a selected port
    that has no [case] in [pty_for_port], where the single byte read is
    dropped as the pass runs into [__builtin_unreachable()]. *)
Theorem worker_forwards_what_it_reads
    {H : Type} `{Hardware H} (fuel : nat) (portBase argp : Z) (w : world H) :
  exists v l,
    let port := selected_port portBase v in
    v = wrap8 (fst (inportb_hw (wrap16 (portBase + 1)) (hw w))) /\
    trace (final (process_serial_resume fuel portBase argp w)) =
      trace w ++ EvInportb (wrap16 (portBase + 1)) v :: l /\
    match process_serial_resume fuel portBase argp w with
    | Undefined _ =>
        pty_for_port_case port = None /\
        exists b, data_reads port l = [b] /\ forwarded l = []
    | Reset _ => False
    | _ => data_reads port l = forwarded l
    end.
Proof.
  set (v := wrap8 (fst (inportb_hw (wrap16 (portBase + 1)) (hw w)))).
  set (port := selected_port portBase v).
  set (w1 := emit (EvInportb (wrap16 (portBase + 1)) v)
                  (with_hw w (snd (inportb_hw (wrap16 (portBase + 1)) (hw w))))).
  assert (Ew : process_serial_wake fuel portBase w
               = process_serial_drain fuel port w1)
    by apply process_serial_wake_eq.
  destruct (process_serial_drain_forwards fuel port w1) as (l & T & R).
  assert (T1 : trace w1 = trace w ++ [EvInportb (wrap16 (portBase + 1)) v])
    by reflexivity.
  unfold process_serial_resume, bind. rewrite Ew.
  destruct (process_serial_drain fuel port w1) as [[] w2|w2|w2|w2];
    cbn [final] in *; try contradiction.
  - exists v, (l ++ [EvSleepOn argp]). cbv zeta. fold port.
    split; [reflexivity|].
    destruct (sleep_on_suspends argp w2) as (w3 & E3 & T3 & _).
    rewrite E3. cbn [final]. split.
    { rewrite T3, T, T1, <- !app_assoc. reflexivity. }
    rewrite data_reads_app, forwarded_app, R. cbn. now rewrite !app_nil_r.
  - exists v, l. cbv zeta. fold port. split; [reflexivity|]. split; [|exact R].
    rewrite T, T1, <- !app_assoc. reflexivity.
  - exists v, l. cbv zeta. fold port. split; [reflexivity|]. split; [|exact R].
    rewrite T, T1, <- !app_assoc. reflexivity.
Qed.

(** X8.  A pass of the Worker delivers a pending byte.  On any hardware,
    if after the wakeup the register at [portBase + 1] reads with bit 0
    set, [portBase] is one of the four ports, its line-status register
    shows "data ready" at its poll number [k] and no longer after the
    byte has been read, then the pass (given fuel for more than [k]
    polls) calls [tty_input_process] exactly once, with the endpoint
    bound to [portBase] and the byte read, and ends in [sleep_on] with
    the Worker waiting on its queue. *)
Theorem worker_delivers_pending_byte
    {H : Type} `{Hardware H} (k fuel : nat) (portBase argp : Z) (g : gvar)
    (w : world H) :
  let r1 := inportb_hw (wrap16 (portBase + 1)) (hw w) in
  let r3 := inportb_hw (wrap16 portBase) (after_ready_poll k portBase (snd r1)) in
  Z.land (wrap8 (fst r1)) 0x01 <> 0 ->
  pty_for_port_case portBase = Some g ->
  ready_at 0x01 k portBase (snd r1) = true ->
  Z.land (lsr portBase (snd r3)) 0x01 = 0 ->
  (k < fuel)%nat ->
  exists w',
    process_serial_resume fuel portBase argp w = Ret tt w' /\
    trace w' =
      trace w ++ [EvInportb (wrap16 (portBase + 1)) (wrap8 (fst r1))]
              ++ poll_trace k portBase (snd r1)
              ++ [EvInportb (wrap16 portBase) (wrap8 (fst r3));
                  EvTtyInputProcess (globals w g) (wrap8 (fst r3));
                  EvInportb (wrap16 (portBase + 5)) (lsr portBase (snd r3));
                  EvSleepOn argp] /\
    hw w' = snd (inportb_hw (wrap16 (portBase + 5)) (snd r3)) /\
    suspended_on w' (current w) argp = true.
Proof.
  cbv zeta. intros Hbit Hg Hready Hdone Hfuel.
  set (r1 := inportb_hw (wrap16 (portBase + 1)) (hw w)) in *.
  set (r3 := inportb_hw (wrap16 portBase)
               (after_ready_poll k portBase (snd r1))) in *.
  assert (Hwake : exists w3,
    process_serial_wake fuel portBase w = Ret tt w3 /\
    trace w3 =
      trace w ++ [EvInportb (wrap16 (portBase + 1)) (wrap8 (fst r1))]
              ++ poll_trace k portBase (snd r1)
              ++ [EvInportb (wrap16 portBase) (wrap8 (fst r3));
                  EvTtyInputProcess (globals w g) (wrap8 (fst r3));
                  EvInportb (wrap16 (portBase + 5)) (lsr portBase (snd r3))] /\
    hw w3 = snd (inportb_hw (wrap16 (portBase + 5)) (snd r3)) /\
    quiet w w3).
  { rewrite process_serial_wake_eq. fold r1.
    destruct (Z.eqb_spec (Z.land (wrap8 (fst r1)) 1) 0) as [E|_];
      [contradiction|].
    set (w1 := emit (EvInportb (wrap16 (portBase + 1)) (wrap8 (fst r1)))
                    (with_hw w (snd r1))).
    destruct fuel as [|fuel]; [lia|].
    rewrite process_serial_drain_eq.
    destruct (serial_recv_ready k (S fuel) portBase w1 Hready Hfuel)
      as (w2 & E2 & H2 & Q2 & T2).
    change (hw w1) with (snd r1) in *. fold r3 in E2, H2, T2.
    rewrite (bind_Ret _ _ _ _ _ E2).
    unfold pty_for_port. rewrite Hg.
    rewrite (bind_Ret _ _ w2 g w2) by reflexivity.
    rewrite (bind_Ret _ _ w2 (globals w2 g) w2) by reflexivity.
    set (tty := EvTtyInputProcess (globals w2 g)
                  (wrap8 (to_char (wrap8 (fst r3))))).
    rewrite (bind_Ret _ _ w2 tt (emit tty w2)) by reflexivity.
    destruct (serial_rcvd_runs portBase (emit tty w2))
      as (w3 & E3 & T3 & H3 & Q3).
    rewrite (bind_Ret _ _ _ _ _ E3).
    change (hw (emit tty w2)) with (hw w2) in *. rewrite H2 in *.
    rewrite Hdone. cbn [Z.eqb ret].
    exists w3. split; [reflexivity|]. split.
    { rewrite T3. cbn [trace emit with_trace]. rewrite T2.
      subst tty w1. cbn [trace emit with_trace with_hw].
      rewrite wrap8_to_char, wrap8_idem.
      destruct Q2 as (G2 & _). rewrite G2. cbn [globals emit with_trace with_hw].
      rewrite <- !app_assoc. reflexivity. }
    split; [exact H3|].
    eapply quiet_trans; [|eapply quiet_trans; [exact Q2|]].
    - repeat split.
    - eapply quiet_trans; [|exact Q3]. repeat split. }
  destruct Hwake as (w3 & E3 & T3 & H3 & Q3).
  unfold process_serial_resume. rewrite (bind_Ret _ _ _ _ _ E3).
  destruct (sleep_on_suspends argp w3) as (w4 & E4 & T4 & H4 & S4).
  exists w4. split; [exact E4|]. split.
  { rewrite T4, T3, <- !app_assoc. reflexivity. }
  split; [now rewrite H4, H3|].
  destruct Q3 as (_ & _ & _ & Qc & _). now rewrite <- Qc.
Qed.

Lemma worker_delivers_pending_byte_witness :
  exists w',
    process_serial_resume 2 SERIAL_PORT_B 7 
      (boot_world (receive COM2 0x41 (poke_ier COM2 1 (quiet_pc 0 false))))
      = Ret tt w' /\
    forwarded (trace w') = [0x41] /\
    rx (com2 (hw w')) = [].
Proof.
  destruct (worker_delivers_pending_byte 0 2 SERIAL_PORT_B 7
              G_serial_port_pty_b
              (boot_world (receive COM2 0x41 (poke_ier COM2 1 (quiet_pc 0 false)))))
    as (w' & E & T & Hh & _).
  - vm_compute. discriminate.
  - reflexivity.
  - reflexivity.
  - reflexivity.
  - lia.
  - exists w'. split; [exact E|]. split; [rewrite T; reflexivity|].
    rewrite Hh. reflexivity.
Defined.

(** ** Further properties: serial.c, device bring-up *)

Section Create.
Context {H : Type} `{Hardware H}.

Lemma Ret_inj {A} (a a' : A) (w w' : world H) :
  Ret a w = Ret a' w' -> a = a' /\ w = w'.
Proof. intros E. now inversion E. Qed.

Lemma serial_device_create_heap port g (w : world H) :
  pty_for_port_case port = Some g ->
  exists w',
    serial_device_create port w = Ret (next_ptr w + 1) w' /\
    ptys w' !! next_ptr w =
      Some (mk_pty (Some Fn_serial_write_out) (Some Fn_serial_fill_name)
                   (next_ptr w + 1)) /\
    nodes w' !! (next_ptr w + 1) = Some (mk_fs_node GID_DIALOUT MODE_0660) /\
    (forall p, p <> next_ptr w -> ptys w' !! p = ptys w !! p) /\
    (forall n, n <> next_ptr w + 1 -> nodes w' !! n = nodes w !! n) /\
    (forall g', g' <> g -> g' <> G_have_installed_ac ->
                g' <> G_have_installed_bd -> globals w' g' = globals w g') /\
    next_ptr w' = next_ptr w + 2 /\
    queues w' = queues w /\ runnable w' = runnable w /\
    current w' = current w /\
    hw w' = after_writes (enable_writes port) (hw w).
Proof.
  intros Hg. destruct w as [h t gl p n q r c x].
  cbv [serial_device_create pty_new fresh call pty_for_port set_global
       store_pty serial_enable outportb load_pty_slave store_node when
       get_global irq_install_handler bind ret undefined
       hw trace globals ptys nodes queues runnable current
       next_ptr with_hw with_trace with_globals with_ptys with_nodes
       with_queues with_runnable with_current with_next_ptr emit].
  rewrite Hg. rewrite !lookup_insert_eq.
  destruct ((port =? SERIAL_PORT_A) || (port =? SERIAL_PORT_C));
    cbv beta iota;
    match goal with |- context [if ?c =? 0 then _ else _] => destruct (c =? 0) end;
    cbv beta iota; rewrite ?lookup_insert_eq; cbv beta iota;
    rewrite ?lookup_insert_eq;
    (eexists; split; [reflexivity|]);
    cbv [ptys nodes globals next_ptr queues runnable current hw
         slave gid mask write_out fill_name];
    (split; [apply lookup_insert_eq|]);
    (split; [apply lookup_insert_eq|]);
    (split; [intros p0 Hp; rewrite !lookup_insert_ne by congruence; reflexivity|]);
    (split; [intros n0 Hn; rewrite !lookup_insert_ne by congruence; reflexivity|]);
    (split; [intros g' N1 N2 N3; repeat (case_decide; [contradiction|]);
             reflexivity|]);
    repeat split; lia.
Qed.


(** Everything one bring-up call on one of the four ports does. *)
Lemma serial_device_create_full port g (w : world H) :
  pty_for_port_case port = Some g ->
  exists w',
    serial_device_create port w = Ret (next_ptr w + 1) w' /\
    trace w' = trace w ++ [EvPtyNew (next_ptr w)] ++ enable_writes port
                       ++ installs port (globals w) /\
    globals w' G_have_installed_ac =
      (if on_line_ac port && (globals w G_have_installed_ac =? 0)
       then 1 else globals w G_have_installed_ac) /\
    globals w' G_have_installed_bd =
      (if negb (on_line_ac port) && (globals w G_have_installed_bd =? 0)
       then 1 else globals w G_have_installed_bd) /\
    globals w' g = next_ptr w /\
    ptys w' !! next_ptr w =
      Some (mk_pty (Some Fn_serial_write_out) (Some Fn_serial_fill_name)
                   (next_ptr w + 1)) /\
    nodes w' !! (next_ptr w + 1) = Some (mk_fs_node GID_DIALOUT MODE_0660) /\
    (forall p, p <> next_ptr w -> ptys w' !! p = ptys w !! p) /\
    (forall n, n <> next_ptr w + 1 -> nodes w' !! n = nodes w !! n) /\
    (forall g', g' <> g -> g' <> G_have_installed_ac ->
                g' <> G_have_installed_bd -> globals w' g' = globals w g') /\
    next_ptr w' = next_ptr w + 2 /\
    queues w' = queues w /\ runnable w' = runnable w /\
    current w' = current w /\
    hw w' = after_writes (enable_writes port) (hw w).
Proof.
  intros Hg.
  destruct (serial_device_create_runs port g w Hg) as (w1 & E1 & R1).
  destruct (serial_device_create_heap port g w Hg) as (w2 & E2 & R2).
  rewrite E1 in E2. apply Ret_inj in E2 as [_ <-].
  exists w1. split; [exact E1|].
  destruct R1 as (A1 & A2 & A3 & A4). repeat split; try assumption; apply R2.
Qed.

End Create.

(** X9.  [serial_device_create] on one of the four ports returns the
    slave node of a newly made endpoint and leaves that endpoint bound
    to the port, with [serial_write_out] and [serial_fill_name] in its
    callback slots and its node in group 2 with mode 0660.  The other
    endpoints, every other pty and node, the wait queues and the
    scheduler's state are as before; the devices have seen exactly the
    eight register writes of [serial_enable]. *)
Theorem serial_device_create_binds_endpoint
    {H : Type} `{Hardware H} (port : Z) (w : world H) :
  known_port port = true ->
  exists node w',
    serial_device_create port w = Ret node w' /\
    (exists pty,
       endpoint w' port = Some pty /\
       ptys w' !! pty =
         Some (mk_pty (Some Fn_serial_write_out) (Some Fn_serial_fill_name)
                      node) /\
       nodes w' !! node = Some (mk_fs_node GID_DIALOUT MODE_0660) /\
       (forall p, p <> pty -> ptys w' !! p = ptys w !! p) /\
       (forall n, n <> node -> nodes w' !! n = nodes w !! n)) /\
    (forall other, other <> port -> endpoint w' other = endpoint w other) /\
    queues w' = queues w /\ runnable w' = runnable w /\
    current w' = current w /\
    hw w' = after_writes (enable_writes port) (hw w) /\
    count_if is_port_io (skipn (length (trace w)) (trace w')) = 8%nat.
Proof.
  intros Hknown.
  destruct (known_port_case port Hknown) as (g & Hg & _).
  destruct (serial_device_create_full port g w Hg)
    as (w' & E & T & _ & _ & Gg & P & N & Pf & Nf & Gf & _ & Q & R & C & Hh).
  exists (next_ptr w + 1), w'. split; [exact E|]. split.
  { exists (next_ptr w). unfold endpoint. rewrite Hg, Gg. auto. }
  split.
  { intros other Hother. unfold endpoint.
    destruct (pty_for_port_case other) as [g'|] eqn:Hg'; [|reflexivity].
    f_equal. apply Gf.
    - intros ->. pose proof (pty_for_port_table port w) as Hc.
      rewrite Hg in Hc. destruct Hc as (_ & _ & Hinj & _).
      apply Hother. now apply Hinj.
    - apply (pty_for_port_case_not_flag other g' Hg').
    - apply (pty_for_port_case_not_flag other g' Hg'). }
  repeat split; try assumption.
  rewrite T, skipn_app, skipn_all, Nat.sub_diag. cbn [skipn app].
  unfold installs.
  destruct (on_line_ac port);
    [destruct (globals w G_have_installed_ac =? 0)
    |destruct (globals w G_have_installed_bd =? 0)]; reflexivity.
Qed.

Lemma serial_device_create_binds_endpoint_witness :
  exists node w',
    serial_device_create SERIAL_PORT_D (boot_world tt) = Ret node w' /\
    endpoint w' SERIAL_PORT_D = Some 1 /\
    nodes w' !! node = Some (mk_fs_node 2 432).
Proof.
  destruct (serial_device_create_binds_endpoint SERIAL_PORT_D (boot_world tt))
    as (node & w' & E & (pty & Hp & _ & Hn & _) & _).
  - reflexivity.
  - exists node, w'. split; [exact E|].
    assert (Ev : serial_device_create SERIAL_PORT_D (boot_world tt)
                 = Ret 2 (final (serial_device_create SERIAL_PORT_D (boot_world tt))))
      by (vm_compute; reflexivity).
    rewrite E in Ev. apply Ret_inj in Ev as [-> _]. cbn [final] in *.
    split; [|exact Hn].
    rewrite Hp. f_equal.
    assert (Ep : endpoint (final (serial_device_create SERIAL_PORT_D (boot_world tt)))
                          SERIAL_PORT_D = Some 1) by (vm_compute; reflexivity).
    rewrite E in Ep. cbn [final] in Ep. congruence.
Defined.


Section Initialize.
Context {H : Type} `{Hardware H}.

Lemma after_writes_app l1 l2 (h : H) :
  after_writes (l1 ++ l2) h = after_writes l2 (after_writes l1 h).
Proof. unfold after_writes. apply fold_left_app. Qed.

Lemma bind_assoc {A B C} (m : M H A) (f : A -> M H B) (k : B -> M H C) w :
  bind m (fun a => bind (f a) k) w = bind (bind m f) k w.
Proof. unfold bind. destruct (m w); reflexivity. Qed.

(** One [serial_device_create] followed by its [vfs_mount], from a world
    whose one-time flags are known. *)
Lemma create_and_mount port g path (w : world H) fa fb :
  pty_for_port_case port = Some g ->
  globals w G_have_installed_ac = fa ->
  globals w G_have_installed_bd = fb ->
  exists w',
    (node <- serial_device_create port;; vfs_mount path node) w = Ret tt w' /\
    trace w' = trace w
               ++ created_trace port (next_ptr w)
                    (installs port (globals w)) path /\
    globals w' G_have_installed_ac =
      (if on_line_ac port && (fa =? 0) then 1 else fa) /\
    globals w' G_have_installed_bd =
      (if negb (on_line_ac port) && (fb =? 0) then 1 else fb) /\
    globals w' g = next_ptr w /\
    (forall g', g' <> g -> g' <> G_have_installed_ac ->
                g' <> G_have_installed_bd -> globals w' g' = globals w g') /\
    next_ptr w' = next_ptr w + 2 /\
    queues w' = queues w /\ runnable w' = runnable w /\
    hw w' = after_writes (enable_writes port) (hw w).
Proof.
  intros Hg <- <-.
  destruct (serial_device_create_full port g w Hg)
    as (w1 & E & T & Fa & Fb & Gg & _ & _ & _ & _ & Gf & N & Q & R & _ & Hh).
  rewrite (bind_Ret _ _ _ _ _ E).
  exists (emit (EvVfsMount path (next_ptr w + 1)) w1).
  split; [reflexivity|].
  unfold emit. cbn [trace globals next_ptr queues runnable hw with_trace].
  rewrite T. unfold created_trace. rewrite <- !app_assoc.
  repeat split; assumption.
Qed.

Lemma serial_initialize_runs (w : world H) :
  globals w G_have_installed_ac = 0 ->
  globals w G_have_installed_bd = 0 ->
  exists w',
    serial_initialize w = Ret tt w' /\
    trace w' = trace w ++ serial_initialize_trace (next_ptr w) /\
    globals w' G_sem_serial_ac = next_ptr w /\
    globals w' G_sem_serial_bd = next_ptr w + 1 /\
    globals w' G_serial_ac_handler = next_ptr w + 2 /\
    globals w' G_serial_bd_handler = next_ptr w + 3 /\
    endpoint w' SERIAL_PORT_A = Some (next_ptr w + 4) /\
    endpoint w' SERIAL_PORT_B = Some (next_ptr w + 6) /\
    endpoint w' SERIAL_PORT_C = Some (next_ptr w + 8) /\
    endpoint w' SERIAL_PORT_D = Some (next_ptr w + 10) /\
    globals w' G_have_installed_ac = 1 /\
    globals w' G_have_installed_bd = 1 /\
    queues w' = <[next_ptr w + 1 := []]> (<[next_ptr w := []]> (queues w)) /\
    runnable w' = runnable w ++ [next_ptr w + 2; next_ptr w + 3] /\
    next_ptr w' = next_ptr w + 12 /\
    hw w' = after_writes (enable_writes SERIAL_PORT_A
                          ++ enable_writes SERIAL_PORT_B
                          ++ enable_writes SERIAL_PORT_C
                          ++ enable_writes SERIAL_PORT_D) (hw w).
Proof.
  intros Fa Fb.
  destruct w as [h t gl p n q r c x].
  cbn [globals next_ptr trace queues runnable hw] in *.
  unfold serial_initialize.
  cbn [bind list_create spawn_worker_thread fresh call
       set_global get_global ret with_globals with_trace with_queues
       with_next_ptr with_runnable emit hw trace globals ptys nodes queues
       runnable current next_ptr].
  repeat match goal with
  | |- context [decide (?a = ?b)] =>
      first [ rewrite (decide_True (P := a = b)) by reflexivity
            | rewrite (decide_False (P := a = b)) by discriminate ]
  end.
  match goal with
  | |- context [bind (serial_device_create SERIAL_PORT_A) ?k ?W] =>
      set (w4 := W)
  end.
  assert (T4 : trace w4 = t ++ [EvListCreate "serial ac semaphore" x;
             EvListCreate "serial bd semaphore" (x + 1);
             EvSpawnWorkerThread "[serial ac]" x (x + 2);
             EvSpawnWorkerThread "[serial bd]" (x + 1) (x + 3)]).
  { subst w4. cbn [trace with_globals with_trace emit with_runnable
                  with_next_ptr with_queues].
    rewrite <- !app_assoc. cbn [app].
    replace (x + 1 + 1) with (x + 2) by lia.
    replace (x + 2 + 1) with (x + 3) by lia. reflexivity. }
  assert (Sa4 : globals w4 G_sem_serial_ac = x) by reflexivity.
  assert (Sb4 : globals w4 G_sem_serial_bd = x + 1) by reflexivity.
  assert (Ha4 : globals w4 G_serial_ac_handler = x + 2)
    by (change (x + 1 + 1 = x + 2); lia).
  assert (Hb4 : globals w4 G_serial_bd_handler = x + 3)
    by (change (x + 1 + 1 + 1 = x + 3); lia).
  assert (Fa4 : globals w4 G_have_installed_ac = 0) by exact Fa.
  assert (Fb4 : globals w4 G_have_installed_bd = 0) by exact Fb.
  assert (N4 : next_ptr w4 = x + 4)
    by (change (x + 1 + 1 + 1 + 1 = x + 4); lia).
  assert (Q4 : queues w4 = <[x + 1 := []]> (<[x := []]> q)) by reflexivity.
  assert (R4 : runnable w4 = r ++ [x + 2; x + 3]).
  { change (runnable w4) with ((r ++ [x + 1 + 1]) ++ [x + 1 + 1 + 1]).
    rewrite <- app_assoc. cbn [app].
    replace (x + 1 + 1) with (x + 2) by lia.
    replace (x + 2 + 1) with (x + 3) by lia. reflexivity. }
  assert (H4 : hw w4 = h) by reflexivity.
  clearbody w4.
  rewrite bind_assoc.
  destruct (create_and_mount SERIAL_PORT_A G_serial_port_pty_a
              (DEV_PATH +:+ TTY_A) w4 0 0 eq_refl Fa4 Fb4)
    as (w5 & E5 & T5 & Fa5 & Fb5 & Ga5 & Gf5 & N5 & Q5 & R5 & H5).
  rewrite (bind_Ret _ _ _ _ _ E5). clear E5.
  change (globals w5 G_have_installed_ac = 1) in Fa5.
  change (globals w5 G_have_installed_bd = 0) in Fb5.
  rewrite bind_assoc.
  destruct (create_and_mount SERIAL_PORT_B G_serial_port_pty_b
              (DEV_PATH +:+ TTY_B) w5 1 0 eq_refl Fa5 Fb5)
    as (w6 & E6 & T6 & Fa6 & Fb6 & Ga6 & Gf6 & N6 & Q6 & R6 & H6).
  rewrite (bind_Ret _ _ _ _ _ E6). clear E6.
  change (globals w6 G_have_installed_ac = 1) in Fa6.
  change (globals w6 G_have_installed_bd = 1) in Fb6.
  rewrite bind_assoc.
  destruct (create_and_mount SERIAL_PORT_C G_serial_port_pty_c
              (DEV_PATH +:+ TTY_C) w6 1 1 eq_refl Fa6 Fb6)
    as (w7 & E7 & T7 & Fa7 & Fb7 & Ga7 & Gf7 & N7 & Q7 & R7 & H7).
  rewrite (bind_Ret _ _ _ _ _ E7). clear E7.
  change (globals w7 G_have_installed_ac = 1) in Fa7.
  change (globals w7 G_have_installed_bd = 1) in Fb7.
  destruct (create_and_mount SERIAL_PORT_D G_serial_port_pty_d
              (DEV_PATH +:+ TTY_D) w7 1 1 eq_refl Fa7 Fb7)
    as (w8 & E8 & T8 & Fa8 & Fb8 & Ga8 & Gf8 & N8 & Q8 & R8 & H8).
  change (globals w8 G_have_installed_ac = 1) in Fa8.
  change (globals w8 G_have_installed_bd = 1) in Fb8.
  exists w8. split; [exact E8|].
  split.
  { rewrite T8, T7, T6, T5, T4, N7, N6, N5, N4.
    unfold installs. rewrite Fa4, Fb5, Fa6, Fb7.
    unfold serial_initialize_trace.
    replace (x + 4 + 2) with (x + 6) by lia.
    replace (x + 6 + 2) with (x + 8) by lia.
    replace (x + 8 + 2) with (x + 10) by lia.
    rewrite <- !app_assoc. reflexivity. }
  split. { rewrite Gf8, Gf7, Gf6, Gf5 by discriminate. exact Sa4. }
  split. { rewrite Gf8, Gf7, Gf6, Gf5 by discriminate. exact Sb4. }
  split. { rewrite Gf8, Gf7, Gf6, Gf5 by discriminate. exact Ha4. }
  split. { rewrite Gf8, Gf7, Gf6, Gf5 by discriminate. exact Hb4. }
  split.
  { unfold endpoint. cbn [pty_for_port_case]. f_equal.
    rewrite Gf8, Gf7, Gf6 by discriminate. lia. }
  split.
  { unfold endpoint. f_equal.
    change (globals w8 G_serial_port_pty_b = x + 6).
    rewrite Gf8, Gf7 by discriminate. lia. }
  split.
  { unfold endpoint. f_equal.
    change (globals w8 G_serial_port_pty_c = x + 8).
    rewrite Gf8 by discriminate. lia. }
  split.
  { unfold endpoint. f_equal.
    change (globals w8 G_serial_port_pty_d = x + 10). lia. }
  split; [exact Fa8|]. split; [exact Fb8|].
  split; [congruence|]. split; [congruence|].
  split; [lia|].
  rewrite H8, H7, H6, H5, H4, !after_writes_app. reflexivity.
Qed.

End Initialize.

(** X11.  From a state in which neither interrupt handler has been
    registered, [serial_initialize] returns after exactly the calls of
    [serial_initialize_trace]: two wait lists and two workers are made,
    each worker bound to its own list; the four ports are brought up in
    the order A, B, C, D, each with an endpoint of its own and its node
    mounted at ttyS0 to ttyS3; the handler of each interrupt line is
    registered once, by the first port on the line. *)
Theorem serial_initialize_brings_up_four_ports
    {H : Type} `{Hardware H} (w : world H) :
  globals w G_have_installed_ac = 0 ->
  globals w G_have_installed_bd = 0 ->
  exists w',
    serial_initialize w = Ret tt w' /\
    trace w' = trace w ++ serial_initialize_trace (next_ptr w) /\
    globals w' G_sem_serial_ac = next_ptr w /\
    globals w' G_sem_serial_bd = next_ptr w + 1 /\
    globals w' G_serial_ac_handler = next_ptr w + 2 /\
    globals w' G_serial_bd_handler = next_ptr w + 3 /\
    endpoint w' SERIAL_PORT_A = Some (next_ptr w + 4) /\
    endpoint w' SERIAL_PORT_B = Some (next_ptr w + 6) /\
    endpoint w' SERIAL_PORT_C = Some (next_ptr w + 8) /\
    endpoint w' SERIAL_PORT_D = Some (next_ptr w + 10) /\
    globals w' G_have_installed_ac = 1 /\
    globals w' G_have_installed_bd = 1 /\
    queues w' = <[next_ptr w + 1 := []]> (<[next_ptr w := []]> (queues w)) /\
    runnable w' = runnable w ++ [next_ptr w + 2; next_ptr w + 3] /\
    next_ptr w' = next_ptr w + 12 /\
    hw w' = after_writes (enable_writes SERIAL_PORT_A
                          ++ enable_writes SERIAL_PORT_B
                          ++ enable_writes SERIAL_PORT_C
                          ++ enable_writes SERIAL_PORT_D) (hw w).
Proof. apply serial_initialize_runs. Qed.

Lemma serial_initialize_brings_up_four_ports_witness :
  exists w',
    serial_initialize (boot_world (quiet_pc 0 false)) = Ret tt w' /\
    endpoint w' SERIAL_PORT_C = Some 9 /\
    count_if (is_install SERIAL_IRQ_AC) (trace w') = 1%nat.
Proof.
  destruct (serial_initialize_brings_up_four_ports
              (boot_world (quiet_pc 0 false)))
    as (w' & E & T & _ & _ & _ & _ & _ & _ & Hc & _).
  - reflexivity.
  - reflexivity.
  - exists w'. split; [exact E|]. split; [exact Hc|].
    rewrite T. reflexivity.
Defined.

(** ** Further properties: serial.c, the endpoint callbacks *)

Section Callbacks.
Context {H : Type} `{Hardware H}.

(** [serial_send] either returns, having touched the devices and the
    trace only, or is still polling when the fuel runs out. *)
Lemma serial_send_outcome fuel : forall dev out (w : world H),
  (exists w1, serial_send fuel dev out w = Ret tt w1 /\ quiet w w1) \/
  (exists w1, serial_send fuel dev out w = Spin w1).
Proof.
  induction fuel as [|fuel IH]; intros dev out w.
  { right. eexists. reflexivity. }
  rewrite serial_send_eq.
  destruct (serial_transmit_empty_runs dev w) as (w1 & E1 & _ & _ & Q1).
  rewrite (bind_Ret _ _ _ _ _ E1).
  destruct (Z.land (lsr dev (hw w)) 32 =? 0).
  - set (w2 := emit (EvSwitchTask 1) (with_hw w1 (yield_hw (hw w1)))).
    rewrite (bind_Ret _ _ w1 tt w2) by reflexivity.
    assert (Q2 : quiet w w2).
    { eapply quiet_trans; [exact Q1|]. repeat split. }
    destruct (IH dev out w2) as [(w3 & E & Q)|(w3 & E)].
    + left. exists w3. split; [exact E|]. eapply quiet_trans; eassumption.
    + right. exists w3. exact E.
  - left. eexists. split; [reflexivity|].
    eapply quiet_trans; [exact Q1|]. repeat split.
Qed.

Lemma send_each_cons fuel port rest c (w : world H) :
  send_each fuel (port :: rest) c w =
  (serial_send fuel port c;; send_each fuel rest c) w.
Proof.
  destruct rest as [|p rest]; [|reflexivity].
  cbn [send_each]. unfold bind.
  destruct (serial_send fuel port c w) as [[] ?| | |]; reflexivity.
Qed.

(** One [if (pty == static) serial_send(...)] line of
    [serial_write_out], followed by the rest [k] of the function. *)
Lemma serial_write_out_line g port fuel pty c (k : M H unit) rest gl
    (w : world H) :
  globals w = gl ->
  (forall w1, globals w1 = gl -> k w1 = send_each fuel rest c w1) ->
  (v <- get_global g;; when (pty =? v) (serial_send fuel port c);; k) w =
  send_each fuel (if pty =? gl g then port :: rest else rest) c w.
Proof.
  intros G K.
  rewrite (bind_Ret _ _ w (globals w g) w) by reflexivity.
  rewrite G. destruct (pty =? gl g); cbn [when].
  - rewrite send_each_cons.
    destruct (serial_send_outcome fuel port c w) as [(w1 & E & Q)|(w1 & E)].
    + rewrite !(bind_Ret _ _ _ _ _ E). apply K.
      destruct Q as (Q & _). congruence.
    + now rewrite !(bind_Spin _ _ _ _ E).
  - rewrite (bind_Ret _ _ w tt w) by reflexivity. now apply K.
Qed.

Lemma serial_write_out_sends fuel pty c (w : world H) :
  serial_write_out fuel pty c w =
  send_each fuel (bound_ports (globals w) pty) c w.
Proof.
  unfold serial_write_out, bound_ports, serial_ports.
  set (f := fun port : Z => match pty_for_port_case port with Some g => _ | None => _ end).
  apply (serial_write_out_line G_serial_port_pty_a SERIAL_PORT_A fuel pty c _
           (List.filter f [SERIAL_PORT_B; SERIAL_PORT_C; SERIAL_PORT_D])
           (globals w) w eq_refl).
  intros w1 G1.
  apply (serial_write_out_line G_serial_port_pty_b SERIAL_PORT_B fuel pty c _
           (List.filter f [SERIAL_PORT_C; SERIAL_PORT_D])
           (globals w) w1 G1).
  intros w2 G2.
  apply (serial_write_out_line G_serial_port_pty_c SERIAL_PORT_C fuel pty c _
           (List.filter f [SERIAL_PORT_D])
           (globals w) w2 G2).
  intros w3 G3.
  rewrite (bind_Ret _ _ w3 (globals w3 G_serial_port_pty_d) w3) by reflexivity.
  rewrite G3. subst f. cbn [List.filter].
  change (pty_for_port_case SERIAL_PORT_D) with (Some G_serial_port_pty_d).
  cbv beta iota.
  destruct (pty =? globals w G_serial_port_pty_d); reflexivity.
Qed.

Lemma serial_fill_name_last pty name (w : world H) :
  serial_fill_name pty name w =
  Ret (match last (bound_ports (globals w) pty) with
       | Some port => device_path port
       | None => name
       end) w.
Proof.
  unfold serial_fill_name, bound_ports, serial_ports, get_global, bind, ret.
  cbn [List.filter pty_for_port_case].
  change (pty_for_port_case SERIAL_PORT_A) with (Some G_serial_port_pty_a).
  change (pty_for_port_case SERIAL_PORT_B) with (Some G_serial_port_pty_b).
  change (pty_for_port_case SERIAL_PORT_C) with (Some G_serial_port_pty_c).
  change (pty_for_port_case SERIAL_PORT_D) with (Some G_serial_port_pty_d).
  cbv beta iota.
  destruct (pty =? globals w G_serial_port_pty_a),
           (pty =? globals w G_serial_port_pty_b),
           (pty =? globals w G_serial_port_pty_c),
           (pty =? globals w G_serial_port_pty_d); reflexivity.
Qed.

End Callbacks.

(** X12.  [serial_write_out] sends the byte, with [serial_send], to every
    port whose static holds [pty], in the order A, B, C, D, and does
    nothing else: to no port when [pty] is none of the four endpoints,
    to several when several statics hold the same pointer (as all four
    do before [serial_initialize], when they are [NULL]). *)
Theorem serial_write_out_sends_to_bound_ports
    {H : Type} `{Hardware H} (fuel : nat) (pty c : Z) (w : world H) :
  serial_write_out fuel pty c w =
  send_each fuel (bound_ports (globals w) pty) c w.
Proof. apply serial_write_out_sends. Qed.

(** X13.  [serial_fill_name] leaves the state alone and writes into the
    buffer the path of the last of the ports A, B, C, D whose static
    holds [pty]; when none does, the buffer keeps what it held. *)
Theorem serial_fill_name_last_match_wins
    {H : Type} `{Hardware H} (pty : Z) (name : string) (w : world H) :
  serial_fill_name pty name w =
  Ret (match last (bound_ports (globals w) pty) with
       | Some port => device_path port
       | None => name
       end) w.
Proof. apply serial_fill_name_last. Qed.

Section Routing.
Context {H : Type} `{Hardware H}.

Lemma serial_initialize_routes (w : world H) port :
  globals w G_have_installed_ac = 0 ->
  globals w G_have_installed_bd = 0 ->
  In port serial_ports ->
  exists w' pty,
    serial_initialize w = Ret tt w' /\
    endpoint w' port = Some pty /\
    bound_ports (globals w') pty = [port] /\
    In (EvVfsMount (device_path port) (pty + 1)) (trace w').
Proof.
  intros Fa Fb Hport.
  destruct (serial_initialize_runs w Fa Fb)
    as (w' & E & T & _ & _ & _ & _ & Ea & Eb & Ec & Ed & _).
  exists w'.
  assert (Ga : globals w' G_serial_port_pty_a = next_ptr w + 4)
    by (unfold endpoint in Ea; cbn in Ea; congruence).
  assert (Gb : globals w' G_serial_port_pty_b = next_ptr w + 6)
    by (unfold endpoint in Eb; cbn in Eb; congruence).
  assert (Gc : globals w' G_serial_port_pty_c = next_ptr w + 8)
    by (unfold endpoint in Ec; cbn in Ec; congruence).
  assert (Gd : globals w' G_serial_port_pty_d = next_ptr w + 10)
    by (unfold endpoint in Ed; cbn in Ed; congruence).
  assert (B : forall pty,
    bound_ports (globals w') pty =
    (if pty =? next_ptr w + 4 then [SERIAL_PORT_A] else [])
    ++ (if pty =? next_ptr w + 6 then [SERIAL_PORT_B] else [])
    ++ (if pty =? next_ptr w + 8 then [SERIAL_PORT_C] else [])
    ++ (if pty =? next_ptr w + 10 then [SERIAL_PORT_D] else [])).
  { intros pty. unfold bound_ports, serial_ports. cbn [List.filter].
    change (pty_for_port_case SERIAL_PORT_A) with (Some G_serial_port_pty_a).
    change (pty_for_port_case SERIAL_PORT_B) with (Some G_serial_port_pty_b).
    change (pty_for_port_case SERIAL_PORT_C) with (Some G_serial_port_pty_c).
    change (pty_for_port_case SERIAL_PORT_D) with (Some G_serial_port_pty_d).
    cbv beta iota. rewrite Ga, Gb, Gc, Gd.
    destruct (pty =? next_ptr w + 4), (pty =? next_ptr w + 6),
             (pty =? next_ptr w + 8), (pty =? next_ptr w + 10); reflexivity. }
  assert (M : forall path node,
    In (EvVfsMount path node) (serial_initialize_trace (next_ptr w)) ->
    In (EvVfsMount path node) (trace w')).
  { intros path node Hin. rewrite T. apply in_or_app. now right. }
  unfold serial_ports in Hport. cbn [In] in Hport.
  destruct Hport as [<-|[<-|[<-|[<-|[]]]]];
    [exists (next_ptr w + 4)|exists (next_ptr w + 6)
    |exists (next_ptr w + 8)|exists (next_ptr w + 10)];
    (split; [exact E|]); (split; [assumption|]);
    (split;
     [rewrite B, ?Z.eqb_refl;
      repeat match goal with
      | |- context [?a =? ?b] => destruct (Z.eqb_spec a b); [lia|]
      end; reflexivity
     |apply M; unfold serial_initialize_trace, created_trace;
      cbn [app enable_writes In];
      repeat (first [left; reflexivity | right])]).
Qed.

End Routing.

(** X14.  After [serial_initialize], from a state in which neither
    interrupt handler has been registered, the endpoint of each of the
    four ports is bound to that port alone: [serial_write_out] on it is
    one [serial_send] to its port, and [serial_fill_name] gives the
    path at which its node has been mounted. *)
Theorem serial_initialize_routes_each_endpoint
    {H : Type} `{Hardware H} (w : world H) (port : Z)
    (fuel : nat) (c : Z) (name : string) :
  globals w G_have_installed_ac = 0 ->
  globals w G_have_installed_bd = 0 ->
  In port serial_ports ->
  exists w' pty,
    serial_initialize w = Ret tt w' /\
    endpoint w' port = Some pty /\
    serial_write_out fuel pty c w' = serial_send fuel port c w' /\
    serial_fill_name pty name w' = Ret (device_path port) w' /\
    In (EvVfsMount (device_path port) (pty + 1)) (trace w').
Proof.
  intros Fa Fb Hport.
  destruct (serial_initialize_routes w port Fa Fb Hport)
    as (w' & pty & E & Hp & B & Hm).
  exists w', pty. split; [exact E|]. split; [exact Hp|].
  rewrite serial_write_out_sends, serial_fill_name_last, B.
  repeat split. exact Hm.
Qed.

Lemma serial_initialize_routes_each_endpoint_witness :
  exists w' pty,
    serial_initialize (boot_world (quiet_pc 0 false)) = Ret tt w' /\
    endpoint w' SERIAL_PORT_C = Some pty /\
    serial_fill_name pty "?" w' = Ret "/dev/ttyS2"%string w'.
Proof.
  destruct (serial_initialize_routes_each_endpoint
              (boot_world (quiet_pc 0 false)) SERIAL_PORT_C 1 0 "?")
    as (w' & pty & E & Hp & _ & Hn & _).
  - reflexivity.
  - reflexivity.
  - cbn. auto.
  - exists w', pty. split; [exact E|]. split; [exact Hp|exact Hn].
Defined.

(** ** Further properties: user.c *)

Lemma arch_resume_user_image file r rest :
  exists file',
    arch_resume_user file (regs_image r ++ rest) =
      Some (file',
            mk_user_context (cs r) (ss r) (rip r) (rflags r) (rsp r)
                            (rdi r) (rsi r) (rdx r) true) /\
    forall g, file' g = reg_of g r.
Proof.
  eexists. split; [reflexivity|]. intros []; reflexivity.
Qed.

(** X15.  Entered with a [struct regs] on top of the kernel stack,
    [arch_resume_user] continues in user mode with every one of the
    fifteen general-purpose registers, and rip, cs, rflags, rsp and ss,
    as the structure holds them, whatever the registers held before and
    whatever lies deeper in the stack; the two words between rax and
    rip (interrupt number and error code) reach no register. *)
Theorem arch_resume_user_restores_frame
    (file : gpr -> Z) (r : regs) (rest : list Z) :
  exists file',
    arch_resume_user file (regs_image r ++ rest) =
      Some (file',
            mk_user_context (cs r) (ss r) (rip r) (rflags r) (rsp r)
                            (rdi r) (rsi r) (rdx r) true) /\
    (forall g, file' g = reg_of g r) /\
    (forall n e,
       arch_resume_user file
         (regs_image (mk_regs (r15 r) (r14 r) (r13 r) (r12 r) (r11 r)
                        (r10 r) (r9 r) (r8 r) (rbp r) (rdi r) (rsi r)
                        (rdx r) (rcx r) (rbx r) (rax r) n e
                        (rip r) (cs r) (rflags r) (rsp r) (ss r)) ++ rest) =
       arch_resume_user file (regs_image r ++ rest)).
Proof.
  destruct (arch_resume_user_image file r rest) as (file' & E & F).
  exists file'. split; [exact E|]. split; [exact F|]. reflexivity.
Qed.

(** X16.  The value [arch_syscall_return] stores is the one the resumed
    thread finds in rax; the other registers are those of the frame. *)
Theorem arch_resume_user_delivers_return_value
    (file : gpr -> Z) (r : regs) (retval : Z) (rest : list Z) :
  - 2 ^ 63 <= retval < 2 ^ 63 ->
  exists file' ctx,
    arch_resume_user file
      (regs_image (snd (arch_syscall_return retval r)) ++ rest) =
      Some (file', ctx) /\
    to_long (file' RAX) = retval /\
    (forall g, g <> RAX -> file' g = reg_of g r) /\
    u_rip ctx = rip r /\ u_rsp ctx = rsp r /\ u_cs ctx = cs r.
Proof.
  intros Hr.
  destruct (arch_resume_user_image file
              (snd (arch_syscall_return retval r)) rest) as (file' & E & F).
  exists file'. eexists. split; [exact E|].
  split.
  { rewrite F. cbn [reg_of arch_syscall_return snd set_rax rax].
    now apply to_long_signed. }
  split; [|repeat split].
  intros g Hg. rewrite F. destruct g; try reflexivity. contradiction.
Qed.

Lemma arch_resume_user_delivers_return_value_witness :
  exists file' ctx,
    arch_resume_user (fun _ => 7)
      (regs_image (snd (arch_syscall_return (-1) zero_regs)) ++ []) =
      Some (file', ctx) /\
    to_long (file' RAX) = -1.
Proof.
  destruct (arch_resume_user_delivers_return_value
              (fun _ => 7) zero_regs (-1) [])
    as (file' & ctx & E & Hv & _).
  - lia.
  - exists file', ctx. split; [exact E|exact Hv].
Defined.

Section Reboot.
Context {H : Type} `{Hardware H}.

(** The polling loop of [arch_reboot], whatever the controller does:
    [reads] are the status bytes it reads, in order. *)
Lemma arch_reboot_wait_reads fuel : forall out (w : world H),
  exists reads w',
    trace w' = trace w ++ List.map (EvInportb 0x64) reads /\
    quiet w w' /\
    ((arch_reboot_wait fuel out w = Ret tt w' /\
      Forall kbd_busy (removelast (out :: reads)) /\
      Z.land (List.last (out :: reads) 0) 0x02 = 0) \/
     (arch_reboot_wait fuel out w = Spin w' /\
      Forall kbd_busy (out :: reads) /\ length reads = fuel)).
Proof.
  induction fuel as [|fuel IH]; intros out w;
    rewrite arch_reboot_wait_eq;
    destruct (Z.eqb_spec (Z.land out 2) 0) as [E|E].
  - exists [], w. rewrite app_nil_r. split; [reflexivity|].
    split; [apply quiet_refl|]. left. repeat split; [constructor|exact E].
  - exists [], w. rewrite app_nil_r. split; [reflexivity|].
    split; [apply quiet_refl|]. right. repeat split. now constructor.
  - exists [], w. rewrite app_nil_r. split; [reflexivity|].
    split; [apply quiet_refl|]. left. repeat split; [constructor|exact E].
  - set (v := wrap8 (fst (inportb_hw (wrap16 0x64) (hw w)))).
    set (w1 := emit (EvInportb (wrap16 0x64) v)
                 (with_hw w (snd (inportb_hw (wrap16 0x64) (hw w))))).
    rewrite (bind_Ret _ _ w v w1) by reflexivity.
    destruct (IH v w1) as (reads & w' & T & Q & O).
    exists (v :: reads), w'. split.
    { rewrite T. subst w1. cbn [trace emit with_trace with_hw List.map].
      rewrite <- app_assoc. reflexivity. }
    split.
    { eapply quiet_trans; [|exact Q]. repeat split. }
    destruct O as [(E1 & F1 & L1)|(E1 & F1 & L1)]; [left|right].
    + split; [exact E1|]. split; [|exact L1].
      change (removelast (out :: v :: reads))
        with (out :: removelast (v :: reads)).
      now constructor.
    + split; [exact E1|]. split; [now constructor|]. cbn [length]. lia.
Qed.

(** X17.  Every run of [arch_reboot].  The interrupt table is replaced by
    a zeroed page before any port is touched; port 0x64 is then read
    until a status byte has bit 1 clear, and only such a byte is
    followed by the reset command, 0xFE to port 0x64, which is the last
    thing the function does.  If the machine resets on the command the
    function does not return; if not it returns 0; while every status
    byte has bit 1 set it goes on reading and the command is never
    written. *)
Theorem arch_reboot_resets_only_when_ready (fuel : nat) (w : world H) :
  exists reads tail,
    trace (final (arch_reboot fuel w)) =
      trace w ++ null_idt_trace (next_ptr w)
              ++ List.map (EvInportb 0x64) reads ++ tail /\
    Forall kbd_busy (removelast reads) /\
    match arch_reboot fuel w with
    | Ret r w' =>
        r = 0 /\ tail = [RESET_COMMAND] /\
        (exists v, last reads = Some v /\ Z.land v 0x02 = 0) /\
        reset_hw (hw w') = false
    | Reset w' =>
        tail = [RESET_COMMAND] /\
        (exists v, last reads = Some v /\ Z.land v 0x02 = 0) /\
        reset_hw (hw w') = true
    | Spin _ => tail = [] /\ Forall kbd_busy reads /\ length reads = fuel
    | Undefined _ => False
    end.
Proof.
  unfold arch_reboot.
  set (w1 := emit (EvLidt (next_ptr w + 1))
              (emit (EvMemset (next_ptr w + 1) 0 0x1000)
                (emit (EvMmuMapFromPhysical
                         (wrap64 (Z.shiftl (next_ptr w) 12)) (next_ptr w + 1))
                   (with_next_ptr
                      (emit (EvMmuAllocateAFrame (next_ptr w))
                         (with_next_ptr w (next_ptr w + 1)))
                      (next_ptr w + 1 + 1))))).
  assert (T1 : trace w1 = trace w ++ null_idt_trace (next_ptr w)).
  { subst w1. cbn [trace emit with_trace with_next_ptr].
    rewrite <- !app_assoc. reflexivity. }
  change ((frame <- mmu_allocate_a_frame;;
           idt <- mmu_map_from_physical (wrap64 (Z.shiftl frame 12));;
           memset idt 0 4096;; lidt idt;;
           arch_reboot_wait fuel 2;; outportb 100 254;; reset_line;; ret 0) w)
    with ((arch_reboot_wait fuel 2;; outportb 100 254;; reset_line;; ret 0) w1).
  destruct (arch_reboot_wait_reads fuel 2 w1) as (reads & w2 & T2 & _ & O).
  exists reads.
  destruct O as [(E & F & L)|(E & F & L)].
  - exists [RESET_COMMAND].
    rewrite (bind_Ret _ _ _ _ _ E).
    assert (Hlast : exists v, last reads = Some v /\ Z.land v 2 = 0).
    { destruct reads as [|v0 reads] using rev_ind.
      - cbn in L. discriminate.
      - exists v0. rewrite last_snoc. split; [reflexivity|].
        change (2 :: reads ++ [v0]) with ((2 :: reads) ++ [v0]) in L.
        now rewrite List.last_last in L. }
    assert (Hbusy : Forall kbd_busy (removelast reads)).
    { destruct reads as [|v0 reads]; [constructor|].
      change (removelast (2 :: v0 :: reads))
        with (2 :: removelast (v0 :: reads)) in F.
      now inversion F. }
    set (w3 := emit RESET_COMMAND
                 (with_hw w2 (outportb_hw 0x64 0xFE (hw w2)))).
    assert (E3 : (outportb 100 254;; reset_line;; ret 0) w2 =
                 if reset_hw (hw w3) then Reset w3 else Ret 0 w3).
    { unfold bind, outportb, reset_line.
      change (wrap16 100) with 100. change (wrap8 254) with 254.
      subst w3. unfold RESET_COMMAND.
      destruct (reset_hw _); reflexivity. }
    rewrite E3.
    assert (T3 : trace w3 = trace w ++ null_idt_trace (next_ptr w)
                   ++ List.map (EvInportb 100) reads ++ [RESET_COMMAND]).
    { subst w3. cbn [trace emit with_trace with_hw].
      rewrite T2, T1, <- !app_assoc. reflexivity. }
    destruct (reset_hw (hw w3)) eqn:R; cbn [final];
      (split; [exact T3|]); (split; [exact Hbusy|]);
      repeat split; try exact Hlast; exact R.
  - exists []. rewrite (bind_Spin _ _ _ _ E). cbn [final].
    split; [rewrite T2, T1, app_nil_r, <- !app_assoc; reflexivity|].
    assert (F' : Forall kbd_busy reads) by now inversion F.
    split.
    { clear -F'. induction F' as [|a l Ha Hl IH]; [constructor|].
      destruct l as [|b l]; [constructor|].
      change (removelast (a :: b :: l)) with (a :: removelast (b :: l)).
      now constructor. }
    split; [reflexivity|]. split; [exact F'|exact L].
Qed.

End Reboot.


(** A 64-bit store changes the eight bytes it addresses and no other. *)
Lemma store64_frame m a v x :
  x < a \/ a + 8 <= x -> store64 m a v x = m x.
Proof.
  intros Hx. unfold store64, store8. cbn [fold_left].
  repeat match goal with
  | |- context [?p =? ?q] => destruct (Z.eqb_spec p q); [lia|]
  end.
  reflexivity.
Qed.

(** The bytes of the sentinel, least significant first. *)
Lemma store64_sentinel_bytes m a i :
  0 <= i < 8 ->
  store64 m a SIGNAL_SENTINEL (a + i) =
  nth (Z.to_nat i) [0xEF; 0xBE; 0xAD; 0xDE; 0x08; 0; 0; 0] 0.
Proof.
  intros Hi.
  assert (Hc : i = 0 \/ i = 1 \/ i = 2 \/ i = 3 \/ i = 4 \/ i = 5 \/ i = 6
               \/ i = 7) by lia.
  unfold store64, store8. cbn [fold_left].
  destruct Hc as [->|[->|[->|[->|[->|[->|[->| ->]]]]]]];
    repeat match goal with
    | |- context [?p =? ?q] =>
        destruct (Z.eqb_spec p q); [try lia|try lia]
    end; reflexivity.
Qed.

(** X18.  The sentinel store of [arch_enter_signal_handler] writes the
    eight bytes EF BE AD DE 08 00 00 00 at the new stack pointer and
    changes no other byte of memory; where the interrupted stack
    pointer is at least 136, everything from 128 bytes below it upwards
    (the interrupted frame and its red zone) is left as it was, and the
    stored word ends below the top of the address space. *)
Theorem arch_enter_signal_handler_spares_red_zone
    (core : processor_local) (uninit sr : regs) (rsi0 rdx0 : Z)
    (kstack : list Z) (mem : memory) (entrypoint signum : Z) :
  syscall_registers (current_process core) = Some sr ->
  136 <= rsp sr < 2 ^ 64 ->
  exists e,
    arch_enter_signal_handler core uninit rsi0 rdx0 kstack mem
                              entrypoint signum = Some e /\
    (forall i, 0 <= i < 8 ->
       se_memory e (rsp (se_frame e) + i) =
       nth (Z.to_nat i) [0xEF; 0xBE; 0xAD; 0xDE; 0x08; 0; 0; 0] 0) /\
    (forall x, x < rsp (se_frame e) \/ rsp (se_frame e) + 8 <= x ->
       se_memory e x = mem x) /\
    (forall x, rsp sr - 128 <= x -> se_memory e x = mem x) /\
    rsp (se_frame e) + 8 <= rsp sr - 128 /\
    rsp (se_frame e) + 8 <= 2 ^ 64.
Proof.
  intros Hsr Hrange. unfold arch_enter_signal_handler. rewrite Hsr.
  eexists. split; [reflexivity|].
  cbn [se_frame se_memory].
  destruct (user_frame_fields uninit entrypoint (signal_rsp (rsp sr)))
    as (_ & _ & _ & _ & Hrsp).
  rewrite Hrsp.
  pose proof (signal_rsp_no_wrap (rsp sr) Hrange) as Hs.
  split; [intros i Hi; now apply store64_sentinel_bytes|].
  split; [intros x Hx; now apply store64_frame|].
  split; [intros x Hx; apply store64_frame; lia|].
  lia.
Qed.

Lemma arch_enter_signal_handler_spares_red_zone_witness :
  exists e,
    arch_enter_signal_handler (core_trapped_at 0 0x7FFFFFFFE000) zero_regs
                              0 0 [] (fun x => x mod 256) 0x400000 11
      = Some e /\
    se_memory e (0x7FFFFFFFE000 - 128) = 128.
Proof.
  destruct (arch_enter_signal_handler_spares_red_zone
              (core_trapped_at 0 0x7FFFFFFFE000) zero_regs
              (set_rsp zero_regs 0x7FFFFFFFE000) 0 0 []
              (fun x => x mod 256) 0x400000 11)
    as (e & E & _ & _ & Hz & _).
  - reflexivity.
  - cbn. lia.
  - exists e. split; [exact E|].
    rewrite Hz by (cbn; lia). reflexivity.
Defined.

(** X19.  [arch_fatal] does not return.  With the processor table
    covering [count] cores it has sent the halt IPI to the cores other
    than the caller's, changed nothing else, and stays in its
    [cli; hlt] loop; with any other table it does not return either. *)
Theorem arch_fatal_never_returns
    {H : Type} `{Hardware H}
    (count : Z) (data : list processor_local)
    (this_core : processor_local) (w : world H) :
  (Z.to_nat count <= length data)%nat ->
  (exists w',
     arch_fatal count data this_core w = Spin w' /\
     trace w' = trace w
       ++ List.map (halt_ipi data) (other_cores count (cpu_id this_core)) /\
     hw w' = hw w /\ quiet w w') /\
  (forall data', returned (arch_fatal count data' this_core w) = false).
Proof.
  intros Hlen. split.
  - unfold arch_fatal, arch_fatal_prepare.
    unfold bind. rewrite arch_fatal_prepare_from_trace by (cbn; lia).
    eexists. split; [reflexivity|]. repeat split.
  - intros data'. unfold arch_fatal, bind.
    destruct (arch_fatal_prepare count data' this_core w); reflexivity.
Qed.

Lemma arch_fatal_never_returns_witness :
  exists w',
    arch_fatal 3 [core_numbered 0 10; core_numbered 1 11; core_numbered 2 12]
      (core_numbered 1 11) (boot_world tt) = Spin w' /\
    trace w' = [EvLapicSendIpi 10 HALT_IPI; EvLapicSendIpi 12 HALT_IPI].
Proof.
  destruct (arch_fatal_never_returns 3
              [core_numbered 0 10; core_numbered 1 11; core_numbered 2 12]
              (core_numbered 1 11) (boot_world tt))
    as ((w' & E & T & _) & _).
  - cbn. lia.
  - exists w'. split; [exact E|exact T].
Defined.
